(** * Comparison engine of the product research system

    A shallow embedding of [src/comparison_engine.py]: the feature matcher,
    the unit converter, the matrix generator, the markdown renderer and the
    orchestrating [compare_products], followed by the properties of the
    specification that were checked against them.

    Conventions of the embedding
    - A Python [str] is a [string] of ASCII characters.  The character classes
      of the regular expressions ([\d], [\w], [\s]) and [str.lower] are the
      ASCII ones; text beyond ASCII, where Python's classes hold more
      characters, is outside the development, and a property that depends
      on a class says so with [ascii_text].
    - A Python [dict] is an association list in insertion order; assigning
      to a key that is present replaces the value in place, assigning to a
      new key appends it.  Dictionaries received as input are association
      lists with pairwise distinct keys.
    - A Python [float] is the bit pattern of a binary64 number with the sign
      bit clear (every float of this program is parsed from an unsigned digit
      string, or is such a number multiplied by a positive constant), or NaN.
    - Exceptions are values of [exn]; a computation that may raise returns
      a [result].  The text of an exception is not modelled, its kind and
      what it was raised for are.
    - A specification value is a string, an integer, a boolean or [None].
    - Logging ([log_error]) has no part in what [compare_products] returns
      or raises and is left out. *)

From Stdlib Require Import ZArith List String Ascii Bool Lia Permutation QArith Qabs.
From Stdlib Require Import DecimalString.
Import ListNotations.

Local Open Scope string_scope.
Local Open Scope list_scope.
Local Open Scope Z_scope.

Set Implicit Arguments.

(* ================================================================== *)
(** ** Characters and strings *)

Module Str.

Definition code (c : ascii) : nat := nat_of_ascii c.

Definition between (lo hi : nat) (c : ascii) : bool :=
  (Nat.leb lo (code c) && Nat.leb (code c) hi)%bool.

(** [\d] on ASCII text: the digits 0 to 9.  Python's [\d] also matches
    the decimal digits of other scripts, which a [string] of this
    development cannot hold. *)
Definition is_digit (c : ascii) : bool := between 48 57 c.
Definition is_upper (c : ascii) : bool := between 65 90 c.
Definition is_lower (c : ascii) : bool := between 97 122 c.
(** [[a-zA-Z]] *)
Definition is_alpha (c : ascii) : bool := (is_upper c || is_lower c)%bool.
(** [\w] *)
Definition is_word (c : ascii) : bool :=
  (is_alpha c || is_digit c || Nat.eqb (code c) 95)%bool.
(** [\s]: tab, newline, vertical tab, form feed, carriage return, the
    four separators 0x1c..0x1f and the space; beyond ASCII, the next-line
    character 0x85 and the no-break space 0xa0. *)
Definition is_space (c : ascii) : bool :=
  (between 9 13 c || between 28 31 c || Nat.eqb (code c) 32
   || Nat.eqb (code c) 133 || Nat.eqb (code c) 160)%bool.

Definition lower_char (c : ascii) : ascii :=
  if is_upper c then ascii_of_nat (code c + 32) else c.
Definition upper_char (c : ascii) : ascii :=
  if is_lower c then ascii_of_nat (code c - 32) else c.

(** [str.lower] *)
Fixpoint lower (s : string) : string :=
  match s with
  | EmptyString => EmptyString
  | String c r => String (lower_char c) (lower r)
  end.

(** [str.title]: a cased character is upper-cased when it follows an
    uncased one (or starts the string) and lower-cased otherwise. *)
Fixpoint title_from (prev_cased : bool) (s : string) : string :=
  match s with
  | EmptyString => EmptyString
  | String c r =>
      String (if prev_cased then lower_char c else upper_char c)
             (title_from (is_alpha c) r)
  end.
Definition title (s : string) : string := title_from false s.

(** [s.startswith(p)] *)
Fixpoint starts_with (p s : string) : bool :=
  match p, s with
  | EmptyString, _ => true
  | String a p', String b s' => (Ascii.eqb a b && starts_with p' s')%bool
  | String _ _, EmptyString => false
  end.

(** [s[n:]] *)
Fixpoint drop (n : nat) (s : string) : string :=
  match n, s with
  | O, _ => s
  | S n', String _ r => drop n' r
  | S _, EmptyString => EmptyString
  end.

(** [needle in hay] *)
Fixpoint contains (needle hay : string) : bool :=
  (starts_with needle hay ||
   match hay with
   | EmptyString => false
   | String _ r => contains needle r
   end)%bool.

(** [s.split(sep, 1)] when [sep] occurs in [s]: the text before the
    first occurrence and the text after it. *)
Fixpoint split_first (sep s : string) : option (string * string) :=
  if starts_with sep s then Some (EmptyString, drop (String.length sep) s)
  else match s with
       | EmptyString => None
       | String c r =>
           match split_first sep r with
           | Some (a, b) => Some (String c a, b)
           | None => None
           end
       end.

(** The longest prefix of [s] whose characters satisfy [p], and the rest. *)
Fixpoint span (p : ascii -> bool) (s : string) : string * string :=
  match s with
  | EmptyString => (EmptyString, EmptyString)
  | String c r =>
      if p c then let '(a, b) := span p r in (String c a, b)
      else (EmptyString, s)
  end.

(** [re.findall(r"\b\w+\b", s)]: the maximal runs of word characters,
    from left to right.  [cur] is the run being read, reversed. *)
Fixpoint words_from (cur : list ascii) (s : string) : list string :=
  let flush :=
    match cur with
    | [] => []
    | _ => [string_of_list_ascii (rev cur)]
    end in
  match s with
  | EmptyString => flush
  | String c r =>
      if is_word c then words_from (c :: cur) r
      else flush ++ words_from [] r
  end.
Definition findall_words (s : string) : list string := words_from [] s.

(** [sep.join(parts)] *)
Definition join (sep : string) (parts : list string) : string :=
  String.concat sep parts.

(** [str(n)] for a natural number. *)
Definition of_nat (n : nat) : string :=
  NilEmpty.string_of_uint (Nat.to_uint n).

(** [str(n)] for an integer. *)
Definition of_Z (n : Z) : string :=
  if n <? 0 then ("-" ++ of_nat (Z.to_nat (- n)))%string
  else of_nat (Z.to_nat n).

Definition mem (s : string) (l : list string) : bool :=
  existsb (String.eqb s) l.

(** The double quote character, the inch mark of the display table. *)
Definition dquote : string := String (ascii_of_nat 34) EmptyString.

(** The digits of [s] read as a decimal number; [acc] is the value of the
    digits already read. *)
Fixpoint digits_value (acc : Z) (s : string) : Z :=
  match s with
  | EmptyString => acc
  | String c r => digits_value (10 * acc + Z.of_nat (code c - 48)) r
  end.

(** A hexadecimal digit, in lower case. *)
Definition hex_digit (n : nat) : ascii :=
  match String.get n "0123456789abcdef" with
  | Some c => c
  | None => "0"%char
  end.

(** One character of [repr(s)] between the quotes [quote]. *)
Definition escape_char (quote c : ascii) : string :=
  let n := code c in
  let backslash := ascii_of_nat 92 in
  if (Ascii.eqb c quote || Nat.eqb n 92)%bool then String backslash (String c EmptyString)
  else if Nat.eqb n 9 then String backslash "t"
  else if Nat.eqb n 10 then String backslash "n"
  else if Nat.eqb n 13 then String backslash "r"
  else if (Nat.ltb n 32 || Nat.eqb n 127
           || (Nat.leb 128 n && Nat.leb n 160) || Nat.eqb n 173)%bool
  then String backslash
         (String "x" (String (hex_digit (n / 16))
                        (String (hex_digit (n mod 16)) EmptyString)))
  else String c EmptyString.

(** [repr(s)]: between double quotes when [s] holds a single quote and no
    double quote, between single quotes otherwise. *)
Definition repr (s : string) : string :=
  let l := list_ascii_of_string s in
  let single := ascii_of_nat 39 in
  let double := ascii_of_nat 34 in
  let quote :=
    if (existsb (Ascii.eqb single) l && negb (existsb (Ascii.eqb double) l))%bool
    then double else single in
  String quote
    (String.concat EmptyString (map (escape_char quote) l)
     ++ String quote EmptyString)%string.

End Str.

(* ================================================================== *)
(** ** Insertion-ordered dictionaries *)

Module Dict.
Section WithValue.
Variable V : Type.

Definition t := list (string * V).

(** [d.get(k)] *)
Fixpoint get (k : string) (d : t) : option V :=
  match d with
  | [] => None
  | (k', v) :: r => if String.eqb k k' then Some v else get k r
  end.

(** [k in d] *)
Definition mem (k : string) (d : t) : bool :=
  match get k d with Some _ => true | None => false end.

(** [d[k] = v] *)
Fixpoint set (k : string) (v : V) (d : t) : t :=
  match d with
  | [] => [(k, v)]
  | (k', v') :: r =>
      if String.eqb k k' then (k', v) :: r else (k', v') :: set k v r
  end.

Definition keys (d : t) : list string := map fst d.
End WithValue.

Arguments get {V} k d.
Arguments mem {V} k d.
Arguments set {V} k v d.
Arguments keys {V} d.
End Dict.

(* ================================================================== *)
(** ** Floats *)

(** A float is the 64-bit pattern of an IEEE 754 binary64 number whose sign
    bit is clear: bits 52..62 hold the biased exponent, bits 0..51 the
    fraction.  On these patterns the order of the numbers is the order of the
    integers.  Arithmetic rounds to nearest, ties to even. *)
Module Float.

Definition t := Z.

Definition inf : t := 0x7FF0000000000000.
Definition nan : t := 0x7FF8000000000000.

Definition is_nan (x : t) : bool := inf <? x.
Definition is_finite (x : t) : bool := x <? inf.

(** [round(n / d)] to the nearest integer, ties to even ([0 < d]). *)
Definition round_half_even (n d : Z) : Z :=
  let q := n / d in
  match 2 * (n mod d) ?= d with
  | Lt => q
  | Gt => q + 1
  | Eq => if Z.even q then q else q + 1
  end.

(** [floor(log2(n / d))] for [0 < n] and [0 < d]. *)
Definition ilog2_ratio (n d : Z) : Z :=
  let e := Z.log2 n - Z.log2 d in
  if (if 0 <=? e then d * 2 ^ e <=? n else d <=? n * 2 ^ (- e))
  then e else e - 1.

(** The float nearest to the rational [n / d] ([0 <= n], [0 < d]). *)
Definition of_ratio (n d : Z) : t :=
  if n =? 0 then 0
  else
    let e := Z.max (ilog2_ratio n d) (-1022) in
    let m := if 52 <=? e then round_half_even n (d * 2 ^ (e - 52))
             else round_half_even (n * 2 ^ (52 - e)) d in
    Z.min inf ((e + 1022) * 2 ^ 52 + m).

(** The significand and the exponent of a finite float:
    its value is [mantissa x * 2 ^ exponent x]. *)
Definition mantissa (x : t) : Z :=
  if x <? 2 ^ 52 then x else 2 ^ 52 + x mod 2 ^ 52.
Definition exponent (x : t) : Z :=
  if x <? 2 ^ 52 then -1074 else x / 2 ^ 52 - 1075.

(** A finite float as a fraction [(numerator, denominator)]. *)
Definition to_ratio (x : t) : Z * Z :=
  if 0 <=? exponent x then (mantissa x * 2 ^ exponent x, 1)
  else (mantissa x, 2 ^ (- exponent x)).

Definition to_Q (x : t) : Q :=
  let '(n, d) := to_ratio x in Qmake n (Z.to_pos d).

(** [float(n)] for a non-negative integer. *)
Definition of_Z (n : Z) : t := of_ratio n 1.

(** [float(text)] for a digit string with [frac] digits after the point:
    [digits] is the number written by all the digits. *)
Definition of_decimal (digits : Z) (frac : nat) : t :=
  of_ratio digits (10 ^ Z.of_nat frac).

(** [x * y] *)
Definition mul (x y : t) : t :=
  if (is_nan x || is_nan y)%bool then nan
  else if (x =? inf) || (y =? inf) then
    if (x =? 0) || (y =? 0) then nan else inf
  else
    let '(n1, d1) := to_ratio x in
    let '(n2, d2) := to_ratio y in
    of_ratio (n1 * n2) (d1 * d2).

(** [x / y] for a non-zero [y] (Python raises [ZeroDivisionError] on a
    zero divisor; the code divides by non-zero literals only). *)
Definition div (x y : t) : t :=
  if (is_nan x || is_nan y)%bool then nan
  else if x =? inf then (if y =? inf then nan else inf)
  else if y =? inf then 0
  else
    let '(n1, d1) := to_ratio x in
    let '(n2, d2) := to_ratio y in
    of_ratio (n1 * d2) (d1 * n2).

(** [x < y], [x > y], [x >= y]: false as soon as one side is NaN. *)
Definition ltb (x y : t) : bool :=
  (negb (is_nan x) && negb (is_nan y) && (x <? y))%bool.
Definition gtb (x y : t) : bool := ltb y x.
Definition geb (x y : t) : bool :=
  (negb (is_nan x) && negb (is_nan y) && (y <=? x))%bool.

(** The decimal digits of a non-negative integer. *)
Definition digits_of (n : Z) : string :=
  NilEmpty.string_of_uint (N.to_uint (Z.to_N n)).

(** The least [k] from [k] on with [d <= n * 10 ^ k], for [0 < n < d]. *)
Fixpoint scale_up (fuel : nat) (n d k : Z) : Z :=
  match fuel with
  | O => k
  | S fuel' => if d <=? n * 10 ^ k then k else scale_up fuel' n d (k + 1)
  end.

(** The position of the decimal point of [n / d]: the least [p] with
    [n / d < 10 ^ p] ([0 < n], [0 < d]). *)
Definition decimal_point (n d : Z) : Z :=
  if d <=? n then Z.of_nat (String.length (digits_of (n / d)))
  else 1 - scale_up 400 n d 1.

(** The integer [c] and the number [k] of its digits such that
    [c * 10 ^ (decpt - k)] is the shortest decimal that rounds to [x],
    the nearest to [x] when there are two of that length. *)
Fixpoint shortest_digits (fuel : nat) (x n d decpt k : Z) : Z * Z :=
  let s := decpt - k in
  let '(num, den) := if 0 <=? s then (n, d * 10 ^ s) else (n * 10 ^ (- s), d) in
  let lo := num / den in
  let hi := lo + 1 in
  let reads_back c :=
    if 0 <=? s then of_ratio (c * 10 ^ s) 1 =? x
    else of_ratio c (10 ^ (- s)) =? x in
  let nearest :=
    match 2 * (num mod den) ?= den with
    | Lt => lo
    | Gt => hi
    | Eq => if Z.even lo then lo else hi
    end in
  match fuel with
  | O => (nearest, k)
  | S fuel' =>
      if (reads_back lo && reads_back hi)%bool then (nearest, k)
      else if reads_back lo then (lo, k)
      else if reads_back hi then (hi, k)
      else shortest_digits fuel' x n d decpt (k + 1)
  end.

Fixpoint zeros (n : nat) : string :=
  match n with
  | O => EmptyString
  | S n' => String "0" (zeros n')
  end.

Fixpoint take (n : nat) (s : string) : string :=
  match n, s with
  | S n', String c r => String c (take n' r)
  | _, _ => EmptyString
  end.

Fixpoint skip (n : nat) (s : string) : string :=
  match n, s with
  | S n', String _ r => skip n' r
  | _, _ => s
  end.

(** [repr(x)], which is also [str(x)]: the shortest digits that read back
    as [x], in positional notation when the decimal point lies within
    [-3 .. 16] and in exponent notation otherwise. *)
Definition repr (x : t) : string :=
  if is_nan x then "nan"
  else if x =? inf then "inf"
  else if x =? 0 then "0.0"
  else
    let '(n, d) := to_ratio x in
    let decpt := decimal_point n d in
    let '(c, k) := shortest_digits 16 x n d decpt 1 in
    let '(digits, decpt) :=
      if c =? 10 ^ k then ("1", decpt + 1) else (digits_of c, decpt) in
    let ndigits := Z.of_nat (String.length digits) in
    if (decpt <=? -4) || (16 <? decpt) then
      let e := decpt - 1 in
      let mantissa :=
        match digits with
        | String c EmptyString => digits
        | String c r => String c ("." ++ r)
        | EmptyString => digits
        end in
      let sign := if e <? 0 then "-" else "+" in
      let pad := if Z.abs e <? 10 then "0" else "" in
      (mantissa ++ "e" ++ sign ++ pad ++ digits_of (Z.abs e))%string
    else if decpt <=? 0 then
      ("0." ++ zeros (Z.to_nat (- decpt)) ++ digits)%string
    else if ndigits <=? decpt then
      (digits ++ zeros (Z.to_nat (decpt - ndigits)) ++ ".0")%string
    else
      (take (Z.to_nat decpt) digits ++ "." ++ skip (Z.to_nat decpt) digits)%string.

End Float.

(* ================================================================== *)
(** ** Values, exceptions, product records *)

(** A specification value: a string, or another scalar. *)
Inductive pyval : Type :=
| VStr (s : string)
| VInt (n : Z)
| VBool (b : bool)
| VNone.

(** [isinstance(v, str)] *)
Definition is_str (v : pyval) : bool :=
  match v with VStr _ => true | _ => false end.

(** [type(v).__name__] *)
Definition type_name (v : pyval) : string :=
  match v with
  | VStr _ => "str"
  | VInt _ => "int"
  | VBool _ => "bool"
  | VNone => "NoneType"
  end.

(** [str(v)], as an f-string formats a value. *)
Definition py_str (v : pyval) : string :=
  match v with
  | VStr s => s
  | VInt n => Str.of_Z n
  | VBool true => "True"
  | VBool false => "False"
  | VNone => "None"
  end.

(** What a [TypeError] was raised for; [found] is the name of the type of
    the offending object. *)
Inductive type_error : Type :=
| JoinItem (index : nat) (found : string)  (* [sep.join(l)], [l[index]] is no string *)
| NotIterable (found : string)             (* [enumerate(x)] *)
| NoLen (found : string)                   (* [len(x)] *)
| BadIndex (found : string).               (* [x["best_product"]], [x] is no dictionary *)

(** The exceptions of the pipeline.  [DataProcessingError] keeps the
    exception it was built from (its message is "Failed to compare
    products: " followed by the text of that exception) and the
    [product_count] entry of its details. *)
Inductive exn : Type :=
| TypeError (what : type_error)
| KeyError (key : string)
| DataProcessingError (cause : exn) (product_count : Z).

Inductive result (A : Type) : Type :=
| Ok (a : A)
| Raise (e : exn).
Arguments Ok {A} a.
Arguments Raise {A} e.

Definition bind {A B : Type} (r : result A) (k : A -> result B) : result B :=
  match r with
  | Ok a => k a
  | Raise e => Raise e
  end.

Notation "x <- r ;; k" := (bind r (fun x => k))
  (at level 61, r at next level, right associativity).

(** A product record: the [product_name] and [specifications] entries of the
    payload, each possibly absent; the specifications map a category name to
    a map from labels to values. *)
Record product : Type := {
  product_name : option string;
  specifications : option (Dict.t (Dict.t pyval))
}.

(** [enumerate(l)] counting from [i]. *)
Fixpoint enumerate_from {A : Type} (i : nat) (l : list A) : list (nat * A) :=
  match l with
  | [] => []
  | x :: r => (i, x) :: enumerate_from (S i) r
  end.
Definition enumerate {A : Type} (l : list A) : list (nat * A) :=
  enumerate_from 0 l.

(** [data.get("product_name", f"Product {i + 1}")] *)
Definition display_name (i : nat) (data : product) : string :=
  match product_name data with
  | Some n => n
  | None => ("Product " ++ Str.of_nat (i + 1))%string
  end.

(** [max(x :: l, key=key)] and [min(x :: l, key=key)]: the running best is
    replaced only by a strictly better item, so the first of several best
    items is returned. *)
Definition py_max_by {A K : Type} (gt : K -> K -> bool) (key : A -> K)
    (x : A) (l : list A) : A :=
  fold_left (fun best y => if gt (key y) (key best) then y else best) l x.
Definition py_min_by {A K : Type} (lt : K -> K -> bool) (key : A -> K)
    (x : A) (l : list A) : A :=
  fold_left (fun best y => if lt (key y) (key best) then y else best) l x.

(* ================================================================== *)
(** ** FeatureMatcher *)

Module FeatureMatcher.

Definition similarity_threshold : Float.t := Float.of_decimal 7 1.

Definition feature_categories : Dict.t (list string) :=
  [ ("processor", ["processor"; "cpu"; "chipset"; "soc"]);
    ("memory", ["ram"; "memory"]);
    ("storage", ["storage"; "disk"; "drive"; "ssd"; "hdd"]);
    ("display", ["display"; "screen"; "monitor"]);
    ("camera", ["camera"; "lens"; "photo"]);
    ("battery", ["battery"; "power"; "charge"]);
    ("dimensions", ["dimensions"; "size"; "weight"]);
    ("connectivity", ["wifi"; "bluetooth"; "nfc"; "usb"; "port"]);
    ("os", ["os"; "operating system"; "software"]);
    ("price", ["price"; "cost"; "msrp"]);
    ("graphics", ["graphics"; "gpu"; "vga"; "video"]) ].

(** [re.compile(r"(?i)\b" + keyword + r"\w*\b").search(s)] for a keyword
    that starts and ends with a word character, on a lower-cased [s]: the
    keyword occurs where a word starts.  (The greedy [\w*] runs to the end
    of the word, where the closing [\b] holds.)  [prev_word] tells whether
    the character before [s] is a word character. *)
Fixpoint search_from (prev_word : bool) (keyword s : string) : bool :=
  ((negb prev_word && Str.starts_with keyword s) ||
   match s with
   | EmptyString => false
   | String c r => search_from (Str.is_word c) keyword r
   end)%bool.
Definition pattern_search (keyword s : string) : bool :=
  search_from false keyword s.

(** [set(l)], [a.intersection(b)], [a.union(b)]: sets of strings as
    duplicate-free lists.  The order in which a set holds its elements
    depends on the hashes of the strings; [order] is that arrangement. *)
Section Sets.
Variable order : list string -> list string.

Definition set_of (l : list string) : list string :=
  order (nodup string_dec l).
Definition intersection (a b : list string) : list string :=
  order (filter (fun w => Str.mem w b) a).
Definition union (a b : list string) : list string :=
  order (a ++ filter (fun w => negb (Str.mem w a)) b).

(** [_calculate_similarity] *)
Definition _calculate_similarity_in (str1 str2 : string) : Float.t :=
  let str1 := Str.lower str1 in
  let str2 := Str.lower str2 in
  if String.eqb str1 str2 then Float.of_Z 1
  else if (Str.contains str1 str2 || Str.contains str2 str1)%bool then
    Float.of_decimal 9 1
  else
    let words1 := set_of (Str.findall_words str1) in
    let words2 := set_of (Str.findall_words str2) in
    match words1, words2 with
    | [], _ | _, [] => 0
    | _, _ =>
        let n_inter := Z.of_nat (List.length (intersection words1 words2)) in
        let n_union := Z.of_nat (List.length (union words1 words2)) in
        if 0 <? n_union then Float.of_ratio n_inter n_union else 0
    end.
End Sets.

(** The similarity with every set held in first-occurrence order. *)
Definition _calculate_similarity : string -> string -> Float.t :=
  _calculate_similarity_in (fun l => l).

(** [_categorize_feature] *)
Definition _categorize_feature (feature_key : string) : string :=
  match Str.split_first " - " feature_key with
  | Some (category, _) => Str.lower category
  | None =>
      let feature_key_lower := Str.lower feature_key in
      match
        find (fun '(_, keywords) =>
                existsb (fun keyword => pattern_search keyword feature_key_lower)
                        keywords)
             feature_categories
      with
      | Some (category, _) => category
      | None => "other"
      end
  end.

(** [_find_matching_feature]: the key of [target_features] most similar to
    [feature_key] among those that reach the threshold, the first of them
    when several are equally similar; [None] when no key reaches it. *)
Definition _find_matching_feature {V : Type} (feature_key : string)
    (target_features : Dict.t V) : option string :=
  fst (fold_left
         (fun '(best_match, best_similarity) target_key =>
            let similarity := _calculate_similarity feature_key target_key in
            if (Float.gtb similarity best_similarity
                && Float.geb similarity similarity_threshold)%bool
            then (Some target_key, similarity)
            else (best_match, best_similarity))
         (Dict.keys target_features) (None, 0)).

(** A contribution: the product and the value it gives to a label. *)
Definition contribution : Type := string * pyval.
(** The labels of one category with their contributions. *)
Definition features : Type := Dict.t (list contribution).

(** The flattening of one product's specifications. *)
Definition flatten (specs : Dict.t (Dict.t pyval)) : Dict.t pyval :=
  fold_left
    (fun flat_specs '(category, category_specs) =>
       fold_left
         (fun flat_specs '(key, value) =>
            let flat_key :=
              if negb (String.eqb category "other")
              then (category ++ " - " ++ key)%string else key in
            Dict.set flat_key value flat_specs)
         category_specs flat_specs)
    specs [].

(** First loop of [match_features]: the flat specifications of every
    product, under its display name. *)
Definition extract_all (products_data : list product) : Dict.t (Dict.t pyval) :=
  fold_left
    (fun all_features '(product_idx, product_data) =>
       let product_name := display_name product_idx product_data in
       let specs := match specifications product_data with
                    | Some s => s
                    | None => []
                    end in
       Dict.set product_name (flatten specs) all_features)
    (enumerate products_data) [].

(** Second loop: the contributions by category and label. *)
Definition categorize_all (all_features : Dict.t (Dict.t pyval))
  : Dict.t features :=
  fold_left
    (fun categorized '(product_name, feats) =>
       fold_left
         (fun categorized '(feature_key, feature_value) =>
            let category := _categorize_feature feature_key in
            let in_category := match Dict.get category categorized with
                               | Some f => f
                               | None => []
                               end in
            let values := match Dict.get feature_key in_category with
                          | Some v => v
                          | None => []
                          end in
            Dict.set category
              (Dict.set feature_key (values ++ [(product_name, feature_value)])
                        in_category)
              categorized)
         feats categorized)
    all_features [].

Definition expected_categories : list string :=
  Dict.keys feature_categories ++ ["other"].

(** The loops of [match_features] that cluster the labels of a category.
    [sim] is the similarity function. *)
Section Matching.
Variable sim : string -> string -> Float.t.

(** The scan for the labels similar to the seed [feature_key]: the
    labels that join the cluster, in the order of the scan, and the
    processed labels after it. *)
Definition find_similar (feats : features) (feature_key : string)
    (processed_keys : list string) : list string * list string :=
  fold_left
    (fun '(joined, processed_keys) other_key =>
       if (negb (String.eqb other_key feature_key)
           && negb (Str.mem other_key processed_keys)
           && Float.geb (sim feature_key other_key) similarity_threshold)%bool
       then (joined ++ [other_key], other_key :: processed_keys)
       else (joined, processed_keys))
    (Dict.keys feats) ([], processed_keys).

(** [max(similar_features, key=lambda k: len(features.get(k, [])))] *)
Definition contributions_of (feats : features) (k : string)
  : list contribution :=
  match Dict.get k feats with Some l => l | None => [] end.
Definition canonical_key_of (feats : features) (feature_key : string)
    (joined : list string) : string :=
  py_max_by (fun a b => Nat.ltb b a)
            (fun k => List.length (contributions_of feats k))
            feature_key joined.

(** The values merged from the labels of a cluster. *)
Definition merged_values_of (feats : features)
    (similar_features : list string) : list contribution :=
  flat_map (contributions_of feats) similar_features.

(** [product_dict], with the first value of every product apart from
    its later ones, and [final_values]. *)
Definition product_dict_of (merged_values : list contribution)
  : Dict.t (pyval * list pyval) :=
  fold_left
    (fun product_dict '(product_name, value) =>
       match Dict.get product_name product_dict with
       | None => Dict.set product_name (value, []) product_dict
       | Some (first, later) =>
           Dict.set product_name (first, later ++ [value]) product_dict
       end)
    merged_values [].
Definition final_values_of (merged_values : list contribution)
  : list contribution :=
  map (fun '(product_name, (first, _)) => (product_name, first))
      (product_dict_of merged_values).

(** The loop over the labels of one category.  [items] are the labels
    still to visit. *)
Fixpoint cluster_loop (category : string) (feats : features)
    (items : list (string * list contribution))
    (processed_keys : list string) (matched_features : Dict.t features)
  : result (Dict.t features) :=
  match items with
  | [] => Ok matched_features
  | (feature_key, _) :: rest =>
      if Str.mem feature_key processed_keys then
        cluster_loop category feats rest processed_keys matched_features
      else
        let '(joined, processed_keys) :=
          find_similar feats feature_key processed_keys in
        let similar_features := feature_key :: joined in
        let canonical_key := canonical_key_of feats feature_key joined in
        let processed_keys := canonical_key :: processed_keys in
        let final_values :=
          final_values_of (merged_values_of feats similar_features) in
        match Dict.get category matched_features with
        | None => Raise (KeyError category)
        | Some in_category =>
            cluster_loop category feats rest processed_keys
              (Dict.set category
                 (Dict.set canonical_key final_values in_category)
                 matched_features)
        end
  end.

(** The loop over the categories. *)
Fixpoint category_loop (categorized : list (string * features))
    (matched_features : Dict.t features) : result (Dict.t features) :=
  match categorized with
  | [] => Ok matched_features
  | (category, feats) :: rest =>
      m <- cluster_loop category feats feats [] matched_features ;;
      category_loop rest m
  end.

(** [match_features] *)
Definition match_features_with (products_data : list product)
  : result (Dict.t features) :=
  match products_data with
  | [] => Ok []
  | _ =>
      let categorized_features :=
        categorize_all (extract_all products_data) in
      let matched_features :=
        fold_left (fun m category => Dict.set category [] m)
                  expected_categories [] in
      category_loop categorized_features matched_features
  end.
End Matching.

Definition match_features : list product -> result (Dict.t features) :=
  match_features_with _calculate_similarity.

End FeatureMatcher.

(* ================================================================== *)
(** ** UnitConverter *)

Module UnitConverter.

Definition conversion_factors : Dict.t (Dict.t Float.t) :=
  [ ("storage",
      [ ("KB", Float.of_ratio 1 (1024 * 1024));
        ("MB", Float.of_ratio 1 1024);
        ("GB", Float.of_decimal 10 1);
        ("TB", Float.of_decimal 10240 1) ]);
    ("memory",
      [ ("MB", Float.of_ratio 1 1024);
        ("GB", Float.of_decimal 10 1) ]);
    ("display",
      [ ("cm", Float.div (Float.of_Z 1) (Float.of_decimal 254 2));
        ("mm", Float.div (Float.of_Z 1) (Float.of_decimal 254 1));
        ("inch", Float.of_decimal 10 1);
        (Str.dquote, Float.of_decimal 10 1) ]);
    ("processor",
      [ ("MHz", Float.of_ratio 1 1000);
        ("GHz", Float.of_decimal 10 1) ]);
    ("battery",
      [ ("mAh", Float.of_decimal 10 1);
        ("Wh", Float.of_decimal 2700 1) ]);
    ("weight",
      [ ("mg", Float.of_ratio 1 1000);
        ("g", Float.of_decimal 10 1);
        ("kg", Float.of_decimal 10000 1);
        ("oz", Float.of_decimal 2835 2);
        ("lb", Float.of_decimal 45359 2) ]) ].

Definition base_units : Dict.t string :=
  [ ("storage", "GB"); ("memory", "GB"); ("display", "inch");
    ("processor", "GHz"); ("battery", "mAh"); ("weight", "g");
    ("resolution", "pixels"); ("refresh_rate", "Hz") ].

(** [(\d+(?:\.\d+)?)] matched at the start of [s]: the digits before the
    point, the digits after it, and the text that follows.  The match is
    greedy; giving digits back never helps the patterns below, because
    what follows the number in them starts with neither a digit nor a
    point. *)
Definition match_number (s : string) : option (string * string * string) :=
  let '(whole, rest) := Str.span Str.is_digit s in
  match whole with
  | EmptyString => None
  | _ =>
      match rest with
      | String "."%char after =>
          let '(frac, rest') := Str.span Str.is_digit after in
          match frac with
          | EmptyString => Some (whole, EmptyString, rest)
          | _ => Some (whole, frac, rest')
          end
      | _ => Some (whole, EmptyString, rest)
      end
  end.

(** [float(m.group(1))] *)
Definition number_value (whole frac : string) : Float.t :=
  Float.of_decimal (Str.digits_value 0 (whole ++ frac)) (String.length frac).

(** The alternation of unit tokens: the first token, in the order of the
    table, that [s] starts with. *)
Definition match_unit_of (units : list string) (s : string) : option string :=
  find (fun u => Str.starts_with u s) units.

(** [([a-zA-Z]+)] *)
Definition match_letters (s : string) : option string :=
  match fst (Str.span Str.is_alpha s) with
  | EmptyString => None
  | letters => Some letters
  end.

(** The number, spaces and unit of a pattern matched at the start of [s]. *)
Definition match_value_unit (match_unit : string -> option string)
    (s : string) : option (Float.t * string) :=
  match match_number s with
  | None => None
  | Some (whole, frac, rest) =>
      match match_unit (snd (Str.span Str.is_space rest)) with
      | Some u => Some (number_value whole frac, u)
      | None => None
      end
  end.

(** [pattern.search(s)]: the match at the leftmost position that has one. *)
Fixpoint search_value_unit (match_unit : string -> option string)
    (s : string) : option (Float.t * string) :=
  match match_value_unit match_unit s with
  | Some r => Some r
  | None =>
      match s with
      | EmptyString => None
      | String _ r => search_value_unit match_unit r
      end
  end.

(** [re.search(r"(\d+(?:\.\d+)?)", s)] *)
Fixpoint search_number (s : string) : option Float.t :=
  match match_number s with
  | Some (whole, frac, _) => Some (number_value whole frac)
  | None =>
      match s with
      | EmptyString => None
      | String _ r => search_number r
      end
  end.

(** [value_unit_patterns]: a pattern for every category of
    [conversion_factors], built from the unit tokens of its table. *)
Definition value_unit_patterns
  : Dict.t (string -> option (Float.t * string)) :=
  map (fun '(category, units) =>
         (category, search_value_unit (match_unit_of (Dict.keys units))))
      conversion_factors.

(** [extract_value_and_unit] *)
Definition extract_value_and_unit (value_str : pyval) (category : string)
  : option Float.t * option string :=
  match value_str with
  | VStr value_str =>
      match Dict.get category value_unit_patterns with
      | None =>
          match search_value_unit match_letters value_str with
          | Some (v, u) => (Some v, Some u)
          | None => (None, None)
          end
      | Some pattern =>
          match pattern value_str with
          | Some (v, u) => (Some v, Some u)
          | None =>
              match search_number value_str with
              | Some v => (Some v, None)
              | None => (None, None)
              end
          end
      end
  | _ => (None, None)
  end.

(** [convert_to_base_unit] *)
Definition convert_to_base_unit (value : Float.t) (unit : string)
    (category : string) : Float.t * string :=
  match Dict.get category conversion_factors with
  | None => (value, unit)
  | Some factors =>
      match Dict.get unit factors with
      | None => (value, unit)
      | Some conversion_factor =>
          let base_unit := match Dict.get category base_units with
                           | Some b => b
                           | None => unit
                           end in
          (Float.mul value conversion_factor, base_unit)
      end
  end.

(** [normalize_for_comparison] *)
Definition normalize_for_comparison (value_str : pyval) (category : string)
  : option Float.t * option string :=
  match extract_value_and_unit value_str category with
  | (None, _) => (None, None)
  | (Some value, None) =>
      (Some value, Some match Dict.get category base_units with
                        | Some b => b
                        | None => EmptyString
                        end)
  | (Some value, Some unit) =>
      let '(v, u) := convert_to_base_unit value unit category in
      (Some v, Some u)
  end.

(** [is_comparable] *)
Definition is_comparable (value1 value2 : pyval) (category : string) : bool :=
  let norm1 := normalize_for_comparison value1 category in
  let norm2 := normalize_for_comparison value2 category in
  match fst norm1, fst norm2 with
  | Some _, Some _ => true
  | _, _ => false
  end.

(** [compare_values] *)
Definition compare_values (value1 value2 : pyval) (category : string)
  : option Float.t * option Float.t * option string :=
  let norm1 := normalize_for_comparison value1 category in
  let norm2 := normalize_for_comparison value2 category in
  match fst norm1, fst norm2 with
  | Some n1, Some n2 => (Some n1, Some n2, snd norm1)
  | _, _ => (None, None, None)
  end.

End UnitConverter.

(* ================================================================== *)
(** ** MatrixGenerator *)

(** The comparison direction stored in the ["type"] entry of an annotation:
    ["higher_better"], ["lower_better"] or ["neutral"]. *)
Inductive policy : Type := higher_better | lower_better | neutral.

(** The dictionary stored under ["_comparison"]. *)
Record comparison : Type := {
  comparison_type : policy;
  best_product : string;
  normalized_values : Dict.t Float.t;
  unit : option string
}.

(** What a feature's dictionary holds under a key: the value of the product
    of that name or, under ["_comparison"], the annotation. *)
Inductive cell : Type :=
| Value (v : pyval)
| Comparison (c : comparison).

Definition entry : Type := Dict.t cell.
Definition feature_matrix : Type := Dict.t (Dict.t entry).

Module MatrixGenerator.

(** A comparable value: [(product_name, norm_value, unit)]. *)
Definition comparable : Type := string * Float.t * option string.

Definition norm_of (x : comparable) : Float.t := snd (fst x).

(** The products whose value is a string that normalizes. *)
Definition comparable_values_of (category : string)
    (product_values : list (string * pyval)) : list comparable :=
  flat_map
    (fun '(product_name, value) =>
       if is_str value then
         match UnitConverter.normalize_for_comparison value category with
         | (Some norm_value, unit) => [(product_name, norm_value, unit)]
         | (None, _) => []
         end
       else [])
    product_values.

(** [max(comparable_values, key=lambda x: x[1])] and the same with [min]. *)
Definition max_comparable (x : comparable) (l : list comparable) : comparable :=
  py_max_by Float.gtb norm_of x l.
Definition min_comparable (x : comparable) (l : list comparable) : comparable :=
  py_min_by Float.ltb norm_of x l.

(** The annotation of a feature with more than one comparable value.  In
    the source the branches for resolution and refresh rate also assign
    ["pixels"] and ["Hz"] to the local variable [unit]; that variable is
    not read afterwards, the unit that is stored is the third component
    of [best_product]. *)
Definition comparison_of (category feature_key : string)
    (first : comparable) (others : list comparable) : option comparison :=
  let comparable_values := first :: others in
  let '(best_product, comparison_type) :=
    if Str.mem category ["processor"; "memory"; "storage"; "display"; "graphics"]
    then (Some (max_comparable first others), higher_better)
    else if Str.mem category ["weight"]
    then (Some (min_comparable first others), lower_better)
    else (None, neutral) in
  let '(best_product, comparison_type) :=
    if Str.contains "resolution" (Str.lower feature_key)
    then (Some (max_comparable first others), higher_better)
    else if (Str.contains "refresh" (Str.lower feature_key)
             && Str.contains "rate" (Str.lower feature_key))%bool
    then (Some (max_comparable first others), higher_better)
    else (best_product, comparison_type) in
  match best_product with
  | Some best =>
      Some {| comparison_type := comparison_type;
              best_product := fst (fst best);
              normalized_values :=
                fold_left (fun d '(p, v, _) => Dict.set p v d)
                          comparable_values [];
              unit := snd best |}
  | None => None
  end.

(** The annotation of a feature, when it gets one. *)
Definition annotation_of (category feature_key : string)
    (product_values : list (string * pyval)) : option comparison :=
  if (Nat.ltb 1 (List.length product_values)
      && Dict.mem category UnitConverter.base_units)%bool
  then
    match comparable_values_of category product_values with
    | first :: ((_ :: _) as others) => comparison_of category feature_key first others
    | _ => None
    end
  else None.

(** The dictionary of one feature. *)
Definition entry_of (category feature_key : string)
    (product_values : list (string * pyval)) : entry :=
  let e :=
    fold_left (fun e '(product_name, value) => Dict.set product_name (Value value) e)
              product_values [] in
  match annotation_of category feature_key product_values with
  | Some c => Dict.set "_comparison" (Comparison c) e
  | None => e
  end.

(** [generate_feature_matrix] *)
Definition generate_feature_matrix
    (matched_features : Dict.t FeatureMatcher.features) : feature_matrix :=
  fold_left
    (fun matrix '(category, feats) =>
       fold_left
         (fun matrix '(feature_key, product_values) =>
            let in_category := match Dict.get category matrix with
                               | Some m => m
                               | None => []
                               end in
            Dict.set category
              (Dict.set feature_key
                 (entry_of category feature_key product_values) in_category)
              matrix)
         feats (Dict.set category [] matrix))
    matched_features [].

End MatrixGenerator.

(* ================================================================== *)
(** ** Rendering *)

Module Render.

(** The name of a policy, as the annotation holds it under ["type"]. *)
Definition policy_name (p : policy) : string :=
  match p with
  | higher_better => "higher_better"
  | lower_better => "lower_better"
  | neutral => "neutral"
  end.

(** [str(comparison)] for the annotation dictionary of a feature. *)
Definition comparison_text (c : comparison) : string :=
  let values :=
    map (fun '(product_name, v) =>
           (Str.repr product_name ++ ": " ++ Float.repr v)%string)
        (normalized_values c) in
  let unit_text := match unit c with
                   | Some u => Str.repr u
                   | None => "None"
                   end in
  ("{'type': " ++ Str.repr (policy_name (comparison_type c))
     ++ ", 'best_product': " ++ Str.repr (best_product c)
     ++ ", 'normalized_values': {" ++ Str.join ", " values
     ++ "}, 'unit': " ++ unit_text ++ "}")%string.

(** An f-string formats a value with [str]: a product's value, or the
    annotation dictionary when a product is itself called [_comparison]. *)
Definition format_cell (c : cell) : string :=
  match c with
  | Value v => py_str v
  | Comparison c => comparison_text c
  end.

Definition cell_type_name (c : cell) : string :=
  match c with
  | Value v => type_name v
  | Comparison _ => "dict"
  end.

(** [sep.join(row)] for a row of cells: the first cell that is not a
    string raises [TypeError]. *)
Fixpoint strings_of_row (index : nat) (row : list cell) : result (list string) :=
  match row with
  | [] => Ok []
  | Value (VStr s) :: rest =>
      l <- strings_of_row (S index) rest ;; Ok (s :: l)
  | c :: _ => Raise (TypeError (JoinItem index (cell_type_name c)))
  end.
Definition join_row (sep : string) (row : list cell) : result string :=
  l <- strings_of_row 0 row ;; Ok (Str.join sep l).

(** [product_values["_comparison"]] read as a dictionary. *)
Definition as_comparison (c : cell) : result comparison :=
  match c with
  | Comparison c => Ok c
  | Value v => Raise (TypeError (BadIndex (type_name v)))
  end.

(** The cell of [product] in the row of a feature. *)
Definition table_cell (product_values : entry) (product : string) : result cell :=
  let value := match Dict.get product product_values with
               | Some c => c
               | None => Value (VStr "N/A")
               end in
  match Dict.get "_comparison" product_values with
  | Some c =>
      comparison <- as_comparison c ;;
      if String.eqb (best_product comparison) product
      then Ok (Value (VStr ("**" ++ format_cell value ++ "**")))
      else Ok value
  | None => Ok value
  end.

Fixpoint table_cells (product_values : entry) (products : list string)
  : result (list cell) :=
  match products with
  | [] => Ok []
  | product :: rest =>
      c <- table_cell product_values product ;;
      l <- table_cells product_values rest ;;
      Ok (c :: l)
  end.

(** The line of one feature. *)
Definition table_row (products : list string) (feature_key : string)
    (product_values : entry) : result string :=
  cells <- table_cells product_values products ;;
  line <- join_row " | " (Value (VStr feature_key) :: cells) ;;
  Ok ("| " ++ line ++ " |")%string.

Fixpoint table_rows (products : list string) (feats : list (string * entry))
  : result (list string) :=
  match feats with
  | [] => Ok []
  | (feature_key, product_values) :: rest =>
      line <- table_row products feature_key product_values ;;
      l <- table_rows products rest ;;
      Ok (line :: l)
  end.

(** The lines of the categories. *)
Fixpoint table_categories (products : list string)
    (matrix : list (string * Dict.t entry)) : result (list string) :=
  match matrix with
  | [] => Ok []
  | (category, feats) :: rest =>
      match feats with
      | [] => table_categories products rest
      | _ =>
          let header := "Feature" :: products in
          rows <- table_rows products feats ;;
          l <- table_categories products rest ;;
          Ok ([ ("### " ++ Str.title category)%string;
                "";
                ("| " ++ Str.join " | " header ++ " |")%string;
                ("| " ++ Str.join " | " (repeat "---" (List.length header)) ++ " |")%string ]
              ++ rows ++ [""] ++ l)
      end
  end.

Definition newline : string := String (ascii_of_nat 10) EmptyString.

(** [MatrixGenerator.generate_markdown_table] *)
Definition generate_markdown_table (matrix : feature_matrix)
    (products : list string) : result string :=
  match matrix, products with
  | [], _ | _, [] => Ok "No comparison data available."
  | _, _ =>
      markdown <- table_categories products matrix ;;
      Ok (Str.join newline markdown)
  end.

(** [_generate_header] *)
Definition _generate_header (products : list string) (comparison_date : string)
  : string :=
  let product_list := Str.join ", " products in
  Str.join newline
    [ ("# Product Comparison: " ++ product_list)%string;
      "";
      ("*Comparison Date: " ++ comparison_date ++ "*")%string;
      "";
      "---";
      "" ].

(** [_generate_introduction] *)
Definition _generate_introduction (products : list string) : string :=
  let product_count := List.length products in
  let product_list := Str.join ", " products in
  Str.join newline
    [ "## Introduction";
      "";
      ("This report provides an objective technical comparison of "
         ++ Str.of_nat product_count ++ " products: " ++ product_list ++ ". ")%string;
      "The comparison is based on verified specifications from multiple sources, with marketing claims filtered out to ensure objectivity.";
      "" ].

(** [_generate_methodology] *)
Definition _generate_methodology : string :=
  Str.join newline
    [ "## Methodology";
      "";
      "This comparison was generated using an AI-powered product research system that:";
      "";
      "1. Collects product specifications from multiple authoritative sources";
      "2. Validates technical specifications against industry standards";
      "3. Filters out marketing language to focus on factual data";
      "4. Normalizes units and formats for accurate comparison";
      "5. Generates standardized comparison matrices";
      "";
      "All data has been processed to ensure accuracy and objectivity.";
      "" ].

(** [_generate_comparison_matrix] *)
Definition _generate_comparison_matrix (matrix : feature_matrix)
    (products : list string) : result string :=
  matrix_content <- generate_markdown_table matrix products ;;
  Ok (Str.join newline
        [ "## Comparison Matrix";
          "";
          "The following tables compare key features across all products:";
          "";
          matrix_content ]).

(** The highlight of one feature, if it has one. *)
Definition highlight_of (feature_key : string) (product_values : entry)
  : result (list string) :=
  match Dict.get "_comparison" product_values with
  | None => Ok []
  | Some c =>
      comparison <- as_comparison c ;;
      let unit := match unit comparison with
                  | Some u => u
                  | None => "None"
                  end in
      match comparison_type comparison with
      | higher_better =>
          Ok [ ("- **" ++ best_product comparison ++ "** has the highest "
                  ++ Str.lower feature_key ++ " (" ++ unit ++ ")")%string ]
      | lower_better =>
          Ok [ ("- **" ++ best_product comparison ++ "** has the lowest "
                  ++ Str.lower feature_key ++ " (" ++ unit ++ ")")%string ]
      | neutral => Ok []
      end
  end.

Fixpoint highlights_of_features (feats : list (string * entry))
  : result (list string) :=
  match feats with
  | [] => Ok []
  | (feature_key, product_values) :: rest =>
      h <- highlight_of feature_key product_values ;;
      l <- highlights_of_features rest ;;
      Ok (h ++ l)
  end.

Fixpoint highlight_points_of (matrix : list (string * Dict.t entry))
  : result (list string) :=
  match matrix with
  | [] => Ok []
  | (_, feats) :: rest =>
      h <- highlights_of_features feats ;;
      l <- highlight_points_of rest ;;
      Ok (h ++ l)
  end.

(** [_generate_feature_highlights] *)
Definition _generate_feature_highlights (matrix : feature_matrix)
  : result string :=
  highlight_points <- highlight_points_of matrix ;;
  Ok (Str.join newline
        ([ "## Feature Highlights"; "" ]
         ++ match highlight_points with
            | [] => [ "No specific highlights identified in the comparison." ]
            | _ => highlight_points
            end
         ++ [ "" ])).

(** [_generate_conclusion] *)
Definition _generate_conclusion : string :=
  Str.join newline
    [ "## Conclusion";
      "";
      "This comparison provides an objective overview of the technical specifications for the compared products. ";
      "The data presented is factual and free from marketing claims, allowing for an unbiased assessment of each product's capabilities.";
      "";
      "For specific use cases, consider which features are most important for your needs when making a decision.";
      "" ].

Definition template_sections : list string :=
  [ "header"; "introduction"; "methodology"; "comparison_matrix";
    "feature_highlights"; "conclusion" ].

(** The contents of the sections asked for, names that are no section
    being skipped. *)
Fixpoint section_contents (products : list string) (matrix : feature_matrix)
    (comparison_date : string) (sections : list string) : result (list string) :=
  match sections with
  | [] => Ok []
  | section :: rest =>
      if negb (Str.mem section template_sections) then
        section_contents products matrix comparison_date rest
      else
        section_content <-
          (if String.eqb section "comparison_matrix" then
             _generate_comparison_matrix matrix products
           else if String.eqb section "header" then
             Ok (_generate_header products comparison_date)
           else if String.eqb section "introduction" then
             Ok (_generate_introduction products)
           else if String.eqb section "feature_highlights" then
             _generate_feature_highlights matrix
           else if String.eqb section "conclusion" then
             Ok _generate_conclusion
           else Ok _generate_methodology) ;;
        l <- section_contents products matrix comparison_date rest ;;
        Ok (section_content :: l)
  end.

(** [generate_template]; [sections] is [None] for the default. *)
Definition generate_template (products : list string) (matrix : feature_matrix)
    (comparison_date : string) (sections : option (list string))
  : result string :=
  let sections := match sections with
                  | Some l => l
                  | None => template_sections
                  end in
  markdown <- section_contents products matrix comparison_date sections ;;
  Ok (Str.join newline markdown).

End Render.

(* ================================================================== *)
(** ** ComparisonEngine *)

(** The [products_data] argument of [compare_products]: a list of product
    records, or an object that is no collection at all. *)
Inductive products_arg : Type :=
| ProductList (l : list product)
| NoneArg
| IntArg (n : Z).

Module ComparisonEngine.

Definition arg_type_name (a : products_arg) : string :=
  match a with
  | ProductList _ => "list"
  | NoneArg => "NoneType"
  | IntArg _ => "int"
  end.

(** [len(products_data)] *)
Definition py_len (a : products_arg) : result Z :=
  match a with
  | ProductList l => Ok (Z.of_nat (List.length l))
  | _ => Raise (TypeError (NoLen (arg_type_name a)))
  end.

Section Engine.
Variable sim : string -> string -> Float.t.

(** The body of the [try] block; [enumerate(products_data)] raises
    when the argument is no collection. *)
Definition pipeline (products_data : products_arg) (comparison_date : string)
  : result string :=
  match products_data with
  | ProductList l =>
      let product_names :=
        map (fun '(i, data) => display_name i data) (enumerate l) in
      matched_features <- FeatureMatcher.match_features_with sim l ;;
      let matrix := MatrixGenerator.generate_feature_matrix matched_features in
      Render.generate_template product_names matrix comparison_date None
  | _ => Raise (TypeError (NotIterable (arg_type_name products_data)))
  end.

(** [compare_products]: the handler builds the [DataProcessingError]
    from the exception caught and [len(products_data)]. *)
Definition compare_products_with (products_data : products_arg)
    (comparison_date : string) : result string :=
  match pipeline products_data comparison_date with
  | Ok markdown_report => Ok markdown_report
  | Raise e =>
      product_count <- py_len products_data ;;
      Raise (DataProcessingError e product_count)
  end.
End Engine.

Definition compare_products : products_arg -> string -> result string :=
  compare_products_with FeatureMatcher._calculate_similarity.

End ComparisonEngine.

(* ================================================================== *)
(** ** The clustering as the specification words it *)

(** The definitions of this module follow the specification, not the
    source; the properties below compare the two. *)
Module Spec.

(** "[sim(seed, candidate) >= threshold]" *)
Definition similar (sim : string -> string -> Float.t) (seed candidate : string)
  : bool :=
  Float.geb (sim seed candidate) FeatureMatcher.similarity_threshold.

(** "Take the first not-yet-processed label as a cluster seed; scan the
    remaining not-yet-processed labels once and add any whose similarity to
    the seed reaches the threshold to the cluster, marking them processed.
    Advance to the next unprocessed label as the next seed."  A cluster is
    its seed with the labels that joined it. *)
Fixpoint greedy_clusters (similar : string -> string -> bool)
    (processed : list string) (labels : list string)
  : list (string * list string) :=
  match labels with
  | [] => []
  | seed :: remaining =>
      if Str.mem seed processed then greedy_clusters similar processed remaining
      else
        let joined :=
          filter (fun candidate =>
                    negb (Str.mem candidate processed) && similar seed candidate)%bool
                 remaining in
        (seed, joined)
          :: greedy_clusters similar (seed :: joined ++ processed) remaining
  end.

(** The labels of a cluster. *)
Definition labels_of (cluster : string * list string) : list string :=
  fst cluster :: snd cluster.

(** "For a given product appearing multiple times, keep only the first
    value encountered."  [seen] are the products already met. *)
Fixpoint first_values (seen : list string)
    (merged : list FeatureMatcher.contribution) : list FeatureMatcher.contribution :=
  match merged with
  | [] => []
  | (product_name, value) :: rest =>
      if Str.mem product_name seen then first_values seen rest
      else (product_name, value) :: first_values (product_name :: seen) rest
  end.

(** The entry a cluster gives to its category: its canonical label with
    the first value of every product that contributes to one of its
    labels. *)
Definition entry_of_cluster (feats : FeatureMatcher.features)
    (cluster : string * list string) : string * list FeatureMatcher.contribution :=
  (FeatureMatcher.canonical_key_of feats (fst cluster) (snd cluster),
   first_values [] (FeatureMatcher.merged_values_of feats (labels_of cluster))).

End Spec.

(* ================================================================== *)
(** ** Notions used by the properties *)

(** What a feature matrix holds: under a category of the matched features,
    dictionaries built by [entry_of] for that category. *)
Definition built_for (categories : list string) (matrix : feature_matrix) : Prop :=
  forall category feats,
    In (category, feats) matrix ->
    In category categories
    /\ forall feature_key e,
         In (feature_key, e) feats ->
         exists product_values,
           e = MatrixGenerator.entry_of category feature_key product_values.

(** The first value kept for a product in [product_dict]. *)
Definition first_of (x : string * (pyval * list pyval)) : FeatureMatcher.contribution :=
  let '(product_name, (first, _)) := x in (product_name, first).

(** The test a label passes, in the scan of [find_similar], to join the
    cluster of [feature_key]. *)
Definition joins (sim : string -> string -> Float.t) (feature_key : string)
    (processed_keys : list string) (other_key : string) : bool :=
  (negb (String.eqb other_key feature_key)
   && negb (Str.mem other_key processed_keys)
   && Float.geb (sim feature_key other_key) FeatureMatcher.similarity_threshold)%bool.

(** The labels grouped by category: no category and no label of a category
    is repeated, and every category has a label. *)
Definition grouped_well (categorized : Dict.t FeatureMatcher.features) : Prop :=
  NoDup (Dict.keys categorized)
  /\ forall c f, In (c, f) categorized -> NoDup (Dict.keys f) /\ f <> [].

(** The specifications of a product, none when the entry is absent. *)
Definition specs_of (p : product) : Dict.t (Dict.t pyval) :=
  match specifications p with
  | Some s => s
  | None => []
  end.

(** The specification categories of a product are vocabulary categories,
    or "other" with labels that hold no " - ". *)
Definition within_vocabulary (p : product) : bool :=
  forallb
    (fun '(category, category_specs) =>
       (Str.mem category (Dict.keys FeatureMatcher.feature_categories)
        || (String.eqb category "other"
            && forallb (fun '(key, _) => negb (Str.contains " - " key))
                       (category_specs : Dict.t pyval)))%bool)
    (specs_of p).

(** Every specification value of a product is a string. *)
Definition all_strings (p : product) : bool :=
  forallb
    (fun '(_, category_specs) =>
       forallb (fun '(_, value) => is_str value) (category_specs : Dict.t pyval))
    (specs_of p).

(** The product is not called [_comparison], the key under which a feature
    keeps its annotation. *)
Definition plain_name (p : product) : bool :=
  match product_name p with
  | Some n => negb (String.eqb n "_comparison")
  | None => true
  end.

(** The dictionary of a feature holds strings under the names of products
    and, if anything, an annotation under [_comparison]. *)
Definition string_cells (e : entry) : Prop :=
  forall key c,
    In (key, c) e ->
    (key = "_comparison" /\ exists a, c = Comparison a)
    \/ (key <> "_comparison" /\ exists s, c = Value (VStr s)).

(** Contributions that are strings given by products not called
    [_comparison]. *)
Definition string_values (product_values : list (string * pyval)) : Prop :=
  forall product_name value,
    In (product_name, value) product_values ->
    is_str value = true /\ product_name <> "_comparison".

(** The annotation that a matrix keeps for a feature: the cell under
    [_comparison] in the dictionary of the feature. *)
Definition annotation_at (matrix : feature_matrix) (category feature_key : string)
  : option cell :=
  match Dict.get category matrix with
  | Some feats =>
      match Dict.get feature_key feats with
      | Some e => Dict.get "_comparison" e
      | None => None
      end
  | None => None
  end.

(** The text is ASCII: every character is below 128. *)
Definition ascii_text (s : string) : bool :=
  forallb (fun c => Nat.ltb (Str.code c) 128) (list_ascii_of_string s).

(** The text holds a digit. *)
Definition has_digit (s : string) : bool :=
  existsb Str.is_digit (list_ascii_of_string s).

(* ================================================================== *)
(** ** Sample inputs *)

Definition product_of (name : string) (specs : Dict.t (Dict.t pyval)) : product :=
  {| product_name := Some name; specifications := Some specs |}.

(** Two laptops that name their memory differently. *)
Definition two_laptops : list product :=
  [ product_of "Laptop A"
      [ ("memory", [ ("RAM", VStr "8GB") ]);
        ("storage", [ ("SSD", VStr "512GB") ]) ];
    product_of "Laptop B"
      [ ("memory", [ ("RAM Memory", VStr "12GB") ]);
        ("storage", [ ("SSD", VStr "1TB") ]) ] ].

(** Two products that report their RAM. *)
Definition memory_products (first second : string) : list product :=
  [ product_of "Laptop A" [ ("memory", [ ("RAM", VStr first) ]) ];
    product_of "Laptop B" [ ("memory", [ ("RAM", VStr second) ]) ] ].

(** A product with a specification category outside the vocabulary. *)
Definition thermal_product : list product :=
  [ product_of "A" [ ("thermal", [ ("TDP", VStr "15W") ]) ] ].

(** Two monitors that give a bare resolution and a bare refresh rate. *)
Definition two_monitors : list product :=
  [ product_of "A"
      [ ("display", [ ("Resolution", VStr "1920"); ("Refresh Rate", VStr "120") ]) ];
    product_of "B"
      [ ("display", [ ("Resolution", VStr "2560"); ("Refresh Rate", VStr "144") ]) ] ].

(** A product with two memory labels in one cluster. *)
Definition two_ram_labels : list product :=
  [ product_of "A"
      [ ("memory", [ ("RAM", VStr "8GB"); ("RAM Size", VStr "16GB") ]) ] ].

(* ================================================================== *)
(** * Properties *)

(** ** Unit conversion on the documented examples *)

(** C8: normalizing "1TB" as storage gives 1024.0 GB, "512MB" as memory
    gives 0.5 GB, and "16.5cm" as display gives inches with a value within
    0.01 of 6.5. *)
Theorem normalize_documented_examples :
  UnitConverter.normalize_for_comparison (VStr "1TB") "storage"
    = (Some (Float.of_decimal 10240 1), Some "GB")
  /\ UnitConverter.normalize_for_comparison (VStr "512MB") "memory"
    = (Some (Float.of_decimal 5 1), Some "GB")
  /\ exists v,
       UnitConverter.normalize_for_comparison (VStr "16.5cm") "display"
         = (Some v, Some "inch")
       /\ Float.is_finite v = true
       /\ (Qabs (Float.to_Q v - (65 # 10)) <= 1 # 100)%Q.
Proof.
  split; [reflexivity|].
  split; [reflexivity|].
  eexists. split; [vm_compute; reflexivity|].
  split; [reflexivity|].
  vm_compute. discriminate.
Qed.

(** ** Extraction for a category without a unit table *)

(** C6: for a category that has no pattern of its own, a text holding only
    a number extracts to nothing, while the same text extracts to the
    number for a category with a pattern; no text at all extracts to a
    number without a unit in such a category. *)
Theorem extract_bare_number_without_pattern :
  UnitConverter.extract_value_and_unit (VStr "1920") "resolution" = (None, None)
  /\ UnitConverter.extract_value_and_unit (VStr "1920") "display"
     = (Some (Float.of_Z 1920), None)
  /\ forall s v,
       UnitConverter.extract_value_and_unit (VStr s) "resolution" <> (Some v, None).
Proof.
  split; [reflexivity|]. split; [reflexivity|].
  intros s v. unfold UnitConverter.extract_value_and_unit.
  change (Dict.get "resolution" UnitConverter.value_unit_patterns)
    with (@None (string -> option (Float.t * string))).
  destruct (UnitConverter.search_value_unit UnitConverter.match_letters s)
    as [[x u]|]; discriminate.
Qed.

(** ** The unit stored for a resolution or refresh-rate feature *)

(** C3: two monitors give a bare resolution and a bare refresh rate under
    display labels; the annotations stored for the two features have the
    higher-is-better policy, and their unit is the base unit of the display
    category, neither pixels nor Hz. *)
Theorem resolution_annotation_unit :
  exists matched,
    FeatureMatcher.match_features two_monitors = Ok matched
    /\ Dict.get "display" (MatrixGenerator.generate_feature_matrix matched)
       = Some
           [ ("display - Resolution",
               [ ("A", Value (VStr "1920"));
                 ("B", Value (VStr "2560"));
                 ("_comparison",
                   Comparison
                     {| comparison_type := higher_better;
                        best_product := "B";
                        normalized_values :=
                          [ ("A", Float.of_Z 1920); ("B", Float.of_Z 2560) ];
                        unit := Some "inch" |}) ]);
             ("display - Refresh Rate",
               [ ("A", Value (VStr "120"));
                 ("B", Value (VStr "144"));
                 ("_comparison",
                   Comparison
                     {| comparison_type := higher_better;
                        best_product := "B";
                        normalized_values :=
                          [ ("A", Float.of_Z 120); ("B", Float.of_Z 144) ];
                        unit := Some "inch" |}) ]) ].
Proof.
  eexists. split.
  - vm_compute. reflexivity.
  - vm_compute. reflexivity.
Qed.

(** ** Values that are no strings *)

(** C5: a product whose RAM is the integer 16 makes the row of the table
    fail to join, and [compare_products] raises. *)
Theorem integer_value_raises :
  ComparisonEngine.compare_products
    (ProductList
       [ {| product_name := Some "A";
            specifications := Some [ ("memory", [ ("RAM", VInt 16) ]) ] |} ])
    ""
  = Raise (DataProcessingError (TypeError (JoinItem 1 "int")) 1).
Proof. vm_compute. reflexivity. Qed.

(** ** The exception that leaves [compare_products] *)

(** C2: with [None] for the product list the handler itself fails on
    [len], and a [TypeError] leaves [compare_products]; with a list, every
    exception of the pipeline leaves as a [DataProcessingError] that
    carries the number of products. *)
Theorem non_collection_argument_raises_type_error :
  (forall comparison_date,
     ComparisonEngine.compare_products NoneArg comparison_date
     = Raise (TypeError (NoLen "NoneType")))
  /\ (forall l comparison_date,
        ComparisonEngine.compare_products (ProductList l) comparison_date
        = match ComparisonEngine.pipeline FeatureMatcher._calculate_similarity
                  (ProductList l) comparison_date with
          | Ok markdown_report => Ok markdown_report
          | Raise e => Raise (DataProcessingError e (Z.of_nat (List.length l)))
          end).
Proof.
  split; [reflexivity|].
  intros l d. unfold ComparisonEngine.compare_products,
    ComparisonEngine.compare_products_with.
  destruct (ComparisonEngine.pipeline _ _ _); reflexivity.
Qed.

(* ================================================================== *)
(** ** Facts about dictionaries *)

Section DictFacts.
Variable V : Type.
Implicit Types (d : Dict.t V) (k : string) (v : V).

Lemma str_mem_In (s : string) (l : list string) :
  Str.mem s l = true <-> In s l.
Proof.
  unfold Str.mem. rewrite existsb_exists. split.
  - intros (x & Hx & E). apply String.eqb_eq in E. now subst.
  - intros H. exists s. split; [assumption | apply String.eqb_refl].
Qed.

Lemma str_mem_not_In (s : string) (l : list string) :
  Str.mem s l = false <-> ~ In s l.
Proof.
  rewrite <- str_mem_In. destruct (Str.mem s l); split; congruence.
Qed.

Lemma dict_get_In d k v : Dict.get k d = Some v -> In (k, v) d.
Proof.
  induction d as [|[k' v'] d IH]; simpl; [discriminate|].
  destruct (String.eqb k k') eqn:E.
  - apply String.eqb_eq in E. subst. intros [= ->]. now left.
  - intros H. right. auto.
Qed.

Lemma dict_get_keys d k : In k (Dict.keys d) <-> Dict.get k d <> None.
Proof.
  induction d as [|[k' v'] d IH]; simpl.
  - split; [tauto | congruence].
  - destruct (String.eqb k k') eqn:E.
    + apply String.eqb_eq in E. subst. split; [discriminate | now left].
    + apply String.eqb_neq in E. rewrite <- IH. split.
      * intros [H|H]; [congruence | assumption].
      * now right.
Qed.

Lemma dict_set_In d k v k' v' :
  In (k', v') (Dict.set k v d) -> (k' = k /\ v' = v) \/ In (k', v') d.
Proof.
  induction d as [|[k0 v0] d IH]; simpl.
  - intros [[= <- <-]|[]]. now left.
  - destruct (String.eqb k k0) eqn:E.
    + apply String.eqb_eq in E. subst k0.
      intros [[= <- <-]|H]; [now left | right; now right].
    + intros [H|H]; [right; now left|].
      destruct (IH H) as [?|?]; [now left | right; now right].
Qed.

Lemma dict_keys_set_present d k v :
  In k (Dict.keys d) -> Dict.keys (Dict.set k v d) = Dict.keys d.
Proof.
  induction d as [|[k0 v0] d IH]; simpl; [tauto|].
  destruct (String.eqb k k0) eqn:E; [reflexivity|].
  apply String.eqb_neq in E. intros [H|H]; [congruence|].
  simpl. f_equal. exact (IH H).
Qed.

Lemma dict_set_absent d k v :
  ~ In k (Dict.keys d) -> Dict.set k v d = d ++ [(k, v)].
Proof.
  induction d as [|[k0 v0] d IH]; simpl; [reflexivity|].
  intros H. destruct (String.eqb k k0) eqn:E.
  - apply String.eqb_eq in E. subst. tauto.
  - f_equal. apply IH. tauto.
Qed.

Lemma dict_get_set_same d k v : Dict.get k (Dict.set k v d) = Some v.
Proof.
  induction d as [|[k0 v0] d IH]; simpl.
  - now rewrite String.eqb_refl.
  - destruct (String.eqb k k0) eqn:E; simpl; rewrite E; auto.
Qed.

Lemma dict_set_set d k v v' :
  Dict.set k v (Dict.set k v' d) = Dict.set k v d.
Proof.
  induction d as [|[k0 v0] d IH]; simpl.
  - now rewrite String.eqb_refl.
  - destruct (String.eqb k k0) eqn:E; simpl; rewrite E; [reflexivity|].
    now rewrite IH.
Qed.

End DictFacts.

(* ================================================================== *)
(** ** The categories of a matched feature set *)

Section MatchedKeys.
Variable sim : string -> string -> Float.t.

(** The loop over the labels of a category never changes the categories
    that are present. *)
Lemma cluster_loop_keys category feats items :
  forall processed_keys matched m,
    FeatureMatcher.cluster_loop sim category feats items processed_keys matched = Ok m ->
    Dict.keys m = Dict.keys matched.
Proof.
  induction items as [|[feature_key pv] rest IH]; simpl; intros P matched m H.
  - now injection H as <-.
  - destruct (Str.mem feature_key P); [eauto|].
    destruct (FeatureMatcher.find_similar sim feats feature_key P) as [joined P'].
    destruct (Dict.get category matched) as [in_category|] eqn:G; [|discriminate].
    apply IH in H. rewrite H. apply dict_keys_set_present.
    apply dict_get_keys. congruence.
Qed.

(** It returns when the category is present. *)
Lemma cluster_loop_returns category feats items :
  forall processed_keys matched,
    In category (Dict.keys matched) ->
    exists m,
      FeatureMatcher.cluster_loop sim category feats items processed_keys matched = Ok m.
Proof.
  induction items as [|[feature_key pv] rest IH]; simpl; intros P matched Hin.
  - eauto.
  - destruct (Str.mem feature_key P); [eauto|].
    destruct (FeatureMatcher.find_similar sim feats feature_key P) as [joined P'].
    destruct (Dict.get category matched) as [in_category|] eqn:G.
    + apply IH. rewrite dict_keys_set_present; assumption.
    + apply dict_get_keys in Hin. congruence.
Qed.

Lemma category_loop_keys categorized :
  forall matched m,
    FeatureMatcher.category_loop sim categorized matched = Ok m ->
    Dict.keys m = Dict.keys matched.
Proof.
  induction categorized as [|[category feats] rest IH]; simpl; intros matched m H.
  - now injection H as <-.
  - destruct (FeatureMatcher.cluster_loop sim category feats feats [] matched)
      as [m1|e] eqn:E; simpl in H; [|discriminate].
    apply IH in H. apply cluster_loop_keys in E. congruence.
Qed.

Lemma category_loop_returns categorized :
  forall matched,
    Forall (fun category => In category (Dict.keys matched)) (Dict.keys categorized) ->
    exists m, FeatureMatcher.category_loop sim categorized matched = Ok m.
Proof.
  induction categorized as [|[category feats] rest IH]; simpl; intros matched H.
  - eauto.
  - inversion H as [|? ? Hc Hrest]; subst.
    destruct (cluster_loop_returns category feats feats [] matched Hc) as [m1 E].
    rewrite E. simpl. apply IH.
    apply cluster_loop_keys in E. now rewrite E.
Qed.

(** The categories of a result of [match_features]: none for no product,
    the twelve expected ones otherwise. *)
Lemma match_features_with_keys products_data m :
  FeatureMatcher.match_features_with sim products_data = Ok m ->
  Dict.keys m = match products_data with
                | [] => []
                | _ => FeatureMatcher.expected_categories
                end.
Proof.
  unfold FeatureMatcher.match_features_with.
  destruct products_data as [|p ps]; [now intros [= <-]|].
  intros H. apply category_loop_keys in H. rewrite H. reflexivity.
Qed.

End MatchedKeys.

(** C1: when the categories under which the labels of the products are
    grouped all belong to the twelve expected ones, [match_features]
    returns; the keys of its result are the twelve expected categories for
    a non-empty list of products, and there is no key for the empty list. *)
Theorem match_features_keyed (products_data : list product) :
  forallb (fun category => Str.mem category FeatureMatcher.expected_categories)
    (Dict.keys (FeatureMatcher.categorize_all
                  (FeatureMatcher.extract_all products_data))) = true ->
  exists m,
    FeatureMatcher.match_features products_data = Ok m
    /\ Dict.keys m = match products_data with
                     | [] => []
                     | _ => FeatureMatcher.expected_categories
                     end.
Proof.
  intros H.
  assert (exists m, FeatureMatcher.match_features products_data = Ok m) as [m E].
  { unfold FeatureMatcher.match_features, FeatureMatcher.match_features_with.
    destruct products_data as [|p ps]; [eauto|].
    apply category_loop_returns. apply Forall_forall. intros c Hc.
    rewrite forallb_forall in H. apply str_mem_In. exact (H c Hc). }
  exists m. split; [assumption|].
  eapply match_features_with_keys. exact E.
Qed.

Lemma match_features_keyed_two_laptops :
  exists m,
    FeatureMatcher.match_features two_laptops = Ok m
    /\ Dict.keys m = FeatureMatcher.expected_categories.
Proof. apply (match_features_keyed two_laptops). reflexivity. Defined.

(** C1, as stated, fails twice: for the empty list the result has no key,
    and a category outside the vocabulary raises [KeyError]; in neither
    case is there a result whose keys are the twelve categories. *)
Lemma match_features_unkeyed :
  FeatureMatcher.match_features [] = Ok []
  /\ FeatureMatcher.match_features thermal_product = Raise (KeyError "thermal")
  /\ ~ (forall products_data,
          exists m,
            FeatureMatcher.match_features products_data = Ok m
            /\ Dict.keys m = FeatureMatcher.expected_categories).
Proof.
  split; [reflexivity|]. split; [reflexivity|].
  intros H. destruct (H []) as (m & Hm & Hkeys).
  injection Hm as <-. discriminate.
Qed.

(* ================================================================== *)
(** ** The annotations of a feature matrix *)

(** The dictionary of a feature before its annotation holds values only. *)
Lemma product_cells_are_values (product_values : list (string * pyval)) :
  forall (e : entry),
    (forall k c, In (k, c) e -> exists v, c = Value v) ->
    forall k c,
      In (k, c)
         (fold_left
            (fun e '(product_name, value) => Dict.set product_name (Value value) e)
            product_values e) ->
      exists v, c = Value v.
Proof.
  induction product_values as [|[p v] rest IH]; simpl; intros e He k c H.
  - eauto.
  - eapply IH; [|exact H].
    intros k' c' Hin. apply dict_set_In in Hin as [[_ ->]|Hin]; eauto.
Qed.

(** An annotation found in the dictionary of a feature is the one computed
    for it. *)
Lemma entry_of_comparison category feature_key product_values k c :
  In (k, Comparison c) (MatrixGenerator.entry_of category feature_key product_values) ->
  MatrixGenerator.annotation_of category feature_key product_values = Some c.
Proof.
  unfold MatrixGenerator.entry_of.
  assert (forall k c,
             In (k, c)
                (fold_left
                   (fun e '(product_name, value) =>
                      Dict.set product_name (Value value) e)
                   product_values ([] : entry)) ->
             exists v, c = Value v) as Hvalues.
  { apply product_cells_are_values. intros ? ? []. }
  destruct (MatrixGenerator.annotation_of category feature_key product_values)
    as [c0|]; intros H.
  - apply dict_set_In in H as [[_ E]|H]; [congruence|].
    apply Hvalues in H as [v Hv]. discriminate.
  - apply Hvalues in H as [v Hv]. discriminate.
Qed.

Lemma built_for_features categories category (feats : FeatureMatcher.features) :
  In category categories ->
  forall matrix,
    built_for categories matrix ->
    built_for categories
      (fold_left
         (fun matrix '(feature_key, product_values) =>
            let in_category := match Dict.get category matrix with
                               | Some m => m
                               | None => []
                               end in
            Dict.set category
              (Dict.set feature_key
                 (MatrixGenerator.entry_of category feature_key product_values)
                 in_category)
              matrix)
         feats matrix).
Proof.
  intros Hcat. induction feats as [|[feature_key pv] rest IH]; simpl; intros matrix Hm.
  - assumption.
  - apply IH. intros c fs Hin.
    apply dict_set_In in Hin as [[-> ->]|Hin]; [|auto].
    split; [assumption|]. intros fk e He.
    apply dict_set_In in He as [[-> ->]|He]; [eauto|].
    match type of He with
    | context [@Dict.get ?V ?k ?d] => destruct (@Dict.get V k d) as [m|] eqn:G
    end; [|now simpl in He].
    apply dict_get_In in G. apply Hm in G as [_ G]. eauto.
Qed.

Lemma generate_feature_matrix_built (matched : Dict.t FeatureMatcher.features) :
  built_for (Dict.keys matched) (MatrixGenerator.generate_feature_matrix matched).
Proof.
  unfold MatrixGenerator.generate_feature_matrix.
  enough (forall categories matrix,
             incl (Dict.keys matched) categories ->
             built_for categories matrix ->
             built_for categories
               (fold_left
                  (fun matrix '(category, feats) =>
                     fold_left
                       (fun matrix '(feature_key, product_values) =>
                          let in_category := match Dict.get category matrix with
                                             | Some m => m
                                             | None => []
                                             end in
                          Dict.set category
                            (Dict.set feature_key
                               (MatrixGenerator.entry_of category feature_key
                                  product_values) in_category)
                            matrix)
                       feats (Dict.set category [] matrix))
                  matched matrix)) as H.
  { apply H; [apply incl_refl | intros ? ? []]. }
  induction matched as [|[category feats] rest IH]; simpl; intros categories matrix Hincl Hm.
  - assumption.
  - apply IH; [intros c Hc; apply Hincl; now right|].
    apply built_for_features; [apply Hincl; now left|].
    intros c fs Hin. apply dict_set_In in Hin as [[-> ->]|Hin]; [|auto].
    split; [apply Hincl; now left | intros ? ? []].
Qed.

Lemma fold_left_invariant (A B : Type) (P : A -> Prop) (f : A -> B -> A)
    (l : list B) :
  (forall a x, In x l -> P a -> P (f a x)) ->
  forall a, P a -> P (fold_left f l a).
Proof.
  induction l as [|x l IH]; simpl; intros Hstep a Ha; [assumption|].
  apply IH.
  - intros a' y Hy. apply Hstep. now right.
  - apply Hstep; [now left | assumption].
Qed.

(** An entry of the matrix is built from contributions of the matched
    features. *)
Lemma generate_feature_matrix_from (matched : Dict.t FeatureMatcher.features)
    category feats feature_key e :
  In (category, feats) (MatrixGenerator.generate_feature_matrix matched) ->
  In (feature_key, e) feats ->
  exists feats0 product_values,
    In (category, feats0) matched
    /\ In (feature_key, product_values) feats0
    /\ e = MatrixGenerator.entry_of category feature_key product_values.
Proof.
  unfold MatrixGenerator.generate_feature_matrix. revert category feats feature_key e.
  set (P := fun matrix : feature_matrix =>
              forall category feats feature_key e,
                In (category, feats) matrix ->
                In (feature_key, e) feats ->
                exists feats0 product_values,
                  In (category, feats0) matched
                  /\ In (feature_key, product_values) feats0
                  /\ e = MatrixGenerator.entry_of category feature_key product_values).
  apply (fold_left_invariant P); [|intros ? ? ? ? []].
  intros matrix [category0 feats0] H0 Hmatrix.
  apply (fold_left_invariant P).
  - intros matrix' [k0 pv0] Hk0 Hmatrix' category feats feature_key e Hc Hk.
    apply dict_set_In in Hc as [[-> ->]|Hc]; [|now apply (Hmatrix' category feats)].
    apply dict_set_In in Hk as [[-> ->]|Hk]; [now exists feats0, pv0|].
    match type of Hk with
    | In _ (match ?g with Some _ => _ | None => _ end) =>
        destruct g as [f|] eqn:G
    end; [|destruct Hk].
    apply dict_get_In in G. now apply (Hmatrix' category0 f).
  - intros category feats feature_key e Hc Hk.
    apply dict_set_In in Hc as [[-> ->]|Hc]; [destruct Hk|].
    now apply (Hmatrix category feats).
Qed.

(** Only the category "weight" gives the lower-is-better policy. *)
Lemma annotation_lower_better category feature_key product_values c :
  MatrixGenerator.annotation_of category feature_key product_values = Some c ->
  comparison_type c = lower_better ->
  category = "weight".
Proof.
  unfold MatrixGenerator.annotation_of.
  destruct (_ && _)%bool; [|discriminate].
  destruct (MatrixGenerator.comparable_values_of category product_values)
    as [|first [|second others]]; try discriminate.
  unfold MatrixGenerator.comparison_of.
  destruct (Str.contains "resolution" (Str.lower feature_key)).
  { destruct (Str.mem category _); [|destruct (Str.mem category _)];
      intros [= <-]; discriminate. }
  destruct (_ && _)%bool.
  { destruct (Str.mem category _); [|destruct (Str.mem category _)];
      intros [= <-]; discriminate. }
  destruct (Str.mem category ["processor"; "memory"; "storage"; "display"; "graphics"]).
  { intros [= <-]; discriminate. }
  destruct (Str.mem category ["weight"]) eqn:W; [|discriminate].
  intros _ _. apply str_mem_In in W. destruct W as [W|[]]. now subst.
Qed.

(** C10: a weight label is put in the category "dimensions", which has no
    base unit; "weight" is none of the categories of a result of
    [match_features]; and in the matrix that [compare_products] builds from
    such a result no annotation has the lower-is-better policy. *)
Theorem no_lower_better_annotation :
  FeatureMatcher._categorize_feature "Weight" = "dimensions"
  /\ Dict.mem "dimensions" UnitConverter.base_units = false
  /\ ~ In "weight" FeatureMatcher.expected_categories
  /\ forall (products_data : list product)
        (matched : Dict.t FeatureMatcher.features)
        (category feature_key : string) (feats : Dict.t entry) (e : entry)
        (c : comparison),
       FeatureMatcher.match_features products_data = Ok matched ->
       In (category, feats) (MatrixGenerator.generate_feature_matrix matched) ->
       In (feature_key, e) feats ->
       In ("_comparison", Comparison c) e ->
       comparison_type c <> lower_better.
Proof.
  split; [reflexivity|]. split; [reflexivity|].
  assert (~ In "weight" FeatureMatcher.expected_categories) as Hweight.
  { intros H. apply str_mem_In in H. discriminate. }
  split; [assumption|].
  intros products_data matched category feature_key feats e c Hm Hcat Hfeat Hc Hlow.
  apply generate_feature_matrix_built in Hcat as [Hkey Hentries].
  apply Hentries in Hfeat as [product_values ->].
  apply entry_of_comparison in Hc.
  pose proof (annotation_lower_better _ _ _ Hc Hlow) as ->.
  apply match_features_with_keys in Hm. rewrite Hm in Hkey.
  destruct products_data; [destruct Hkey | contradiction].
Qed.

Lemma no_lower_better_annotation_two_laptops :
  comparison_type
    {| comparison_type := higher_better;
       best_product := "Laptop B";
       normalized_values :=
         [ ("Laptop A", Float.of_Z 8); ("Laptop B", Float.of_Z 12) ];
       unit := Some "GB" |}
  <> lower_better.
Proof.
  eapply (proj2 (proj2 (proj2 no_lower_better_annotation))
            two_laptops _ "memory" "memory - RAM").
  - vm_compute. reflexivity.
  - vm_compute. right. left. reflexivity.
  - left. reflexivity.
  - vm_compute. right. right. left. reflexivity.
Defined.

(* ================================================================== *)
(** ** Facts about the similarity *)

Lemma str_mem_Permutation (w : string) (l l' : list string) :
  Permutation l l' -> Str.mem w l = Str.mem w l'.
Proof.
  intros HP. destruct (Str.mem w l') eqn:E.
  - apply str_mem_In. apply str_mem_In in E.
    eapply Permutation_in; [symmetry; eassumption | assumption].
  - apply str_mem_not_In. apply str_mem_not_In in E. intros Hin. apply E.
    eapply Permutation_in; eassumption.
Qed.

Lemma filter_length_Permutation (f g : string -> bool) (l l' : list string) :
  Permutation l l' ->
  (forall x, f x = g x) ->
  List.length (filter f l) = List.length (filter g l').
Proof.
  intros HP Hfg. rewrite <- (filter_ext f g Hfg).
  induction HP as [|x l l' HP IH|x y l|l l' l'' HP1 IH1 HP2 IH2]; simpl.
  - reflexivity.
  - destruct (f x); simpl; congruence.
  - destruct (f x), (f y); reflexivity.
  - congruence.
Qed.

Section SetOrder.
Variable order : list string -> list string.
Hypothesis order_permutes : forall l, Permutation (order l) l.

Lemma order_nil (l : list string) : order l = [] <-> l = [].
Proof.
  split; intros H.
  - apply Permutation_nil. rewrite <- H. apply order_permutes.
  - subst. apply Permutation_nil. symmetry. apply order_permutes.
Qed.

Lemma intersection_length (a b : list string) :
  List.length (FeatureMatcher.intersection order (order a) (order b))
  = List.length (FeatureMatcher.intersection (fun l => l) a b).
Proof.
  unfold FeatureMatcher.intersection.
  rewrite (Permutation_length (order_permutes _)).
  apply filter_length_Permutation; [apply order_permutes|].
  intros w. apply str_mem_Permutation, order_permutes.
Qed.

Lemma union_length (a b : list string) :
  List.length (FeatureMatcher.union order (order a) (order b))
  = List.length (FeatureMatcher.union (fun l => l) a b).
Proof.
  unfold FeatureMatcher.union.
  rewrite (Permutation_length (order_permutes _)).
  rewrite !length_app. rewrite (Permutation_length (order_permutes a)).
  f_equal. apply filter_length_Permutation; [apply order_permutes|].
  intros w. f_equal. apply str_mem_Permutation, order_permutes.
Qed.

(** The similarity does not depend on the order in which the sets hold
    their elements. *)
Lemma similarity_order_irrelevant (str1 str2 : string) :
  FeatureMatcher._calculate_similarity_in order str1 str2
  = FeatureMatcher._calculate_similarity str1 str2.
Proof.
  unfold FeatureMatcher._calculate_similarity,
    FeatureMatcher._calculate_similarity_in.
  destruct (String.eqb _ _); [reflexivity|].
  destruct (_ || _)%bool; [reflexivity|].
  unfold FeatureMatcher.set_of.
  set (w1 := nodup string_dec (Str.findall_words (Str.lower str1))).
  set (w2 := nodup string_dec (Str.findall_words (Str.lower str2))).
  pose proof (intersection_length w1 w2) as Hi.
  pose proof (union_length w1 w2) as Hu.
  pose proof (order_nil w1) as H1. pose proof (order_nil w2) as H2.
  destruct (order w1) as [|x1 o1] eqn:E1.
  { rewrite (proj1 H1 eq_refl). reflexivity. }
  destruct w1 as [|y1 r1]; [destruct H1 as [_ H1]; discriminate (H1 eq_refl)|].
  destruct (order w2) as [|x2 o2] eqn:E2.
  { rewrite (proj1 H2 eq_refl). reflexivity. }
  destruct w2 as [|y2 r2]; [destruct H2 as [_ H2]; discriminate (H2 eq_refl)|].
  rewrite Hi, Hu. reflexivity.
Qed.

End SetOrder.

Lemma intersection_length_sym (a b : list string) :
  NoDup a -> NoDup b ->
  List.length (FeatureMatcher.intersection (fun l => l) a b)
  = List.length (FeatureMatcher.intersection (fun l => l) b a).
Proof.
  intros Ha Hb. unfold FeatureMatcher.intersection.
  apply Permutation_length. apply NoDup_Permutation.
  - now apply NoDup_filter.
  - now apply NoDup_filter.
  - intros w. rewrite !filter_In, !str_mem_In. tauto.
Qed.

Lemma union_length_sym (a b : list string) :
  NoDup a -> NoDup b ->
  List.length (FeatureMatcher.union (fun l => l) a b)
  = List.length (FeatureMatcher.union (fun l => l) b a).
Proof.
  intros Ha Hb. unfold FeatureMatcher.union. rewrite !length_app.
  pose proof (intersection_length_sym Ha Hb) as Hi.
  unfold FeatureMatcher.intersection in Hi.
  pose proof (filter_length (fun w => Str.mem w a) b).
  pose proof (filter_length (fun w => Str.mem w b) a).
  lia.
Qed.

(** The similarity is symmetric. *)
Lemma similarity_sym (str1 str2 : string) :
  FeatureMatcher._calculate_similarity str1 str2
  = FeatureMatcher._calculate_similarity str2 str1.
Proof.
  unfold FeatureMatcher._calculate_similarity,
    FeatureMatcher._calculate_similarity_in.
  rewrite (String.eqb_sym (Str.lower str2)).
  destruct (String.eqb _ _); [reflexivity|].
  rewrite (orb_comm (Str.contains (Str.lower str2) _)).
  destruct (_ || _)%bool; [reflexivity|].
  unfold FeatureMatcher.set_of.
  set (w1 := nodup string_dec (Str.findall_words (Str.lower str1))).
  set (w2 := nodup string_dec (Str.findall_words (Str.lower str2))).
  assert (NoDup w1) as N1 by apply NoDup_nodup.
  assert (NoDup w2) as N2 by apply NoDup_nodup.
  pose proof (intersection_length_sym N1 N2) as Hi.
  pose proof (union_length_sym N1 N2) as Hu.
  destruct w1 as [|y1 r1], w2 as [|y2 r2]; try reflexivity.
  rewrite Hi, Hu. reflexivity.
Qed.

(* ================================================================== *)
(** ** The pipeline depends on the values of the similarity only *)

Section SimilarityValues.
Variables sim1 sim2 : string -> string -> Float.t.
Hypothesis same_values : forall a b, sim1 a b = sim2 a b.

Lemma find_similar_values feats feature_key processed_keys :
  FeatureMatcher.find_similar sim1 feats feature_key processed_keys
  = FeatureMatcher.find_similar sim2 feats feature_key processed_keys.
Proof.
  unfold FeatureMatcher.find_similar.
  generalize (@nil string, processed_keys).
  induction (Dict.keys feats) as [|k l IH]; simpl; intros acc; [reflexivity|].
  rewrite IH. destruct acc as [joined P]. now rewrite same_values.
Qed.

Lemma cluster_loop_values category feats items :
  forall processed_keys matched,
    FeatureMatcher.cluster_loop sim1 category feats items processed_keys matched
    = FeatureMatcher.cluster_loop sim2 category feats items processed_keys matched.
Proof.
  induction items as [|[feature_key pv] rest IH]; simpl; intros P matched.
  - reflexivity.
  - destruct (Str.mem feature_key P); [apply IH|].
    rewrite find_similar_values.
    destruct (FeatureMatcher.find_similar sim2 feats feature_key P) as [joined P'].
    destruct (Dict.get category matched); [apply IH | reflexivity].
Qed.

Lemma category_loop_values categorized :
  forall matched,
    FeatureMatcher.category_loop sim1 categorized matched
    = FeatureMatcher.category_loop sim2 categorized matched.
Proof.
  induction categorized as [|[category feats] rest IH]; simpl; intros matched.
  - reflexivity.
  - rewrite cluster_loop_values.
    destruct (FeatureMatcher.cluster_loop sim2 _ _ _ _ _); simpl;
      [apply IH | reflexivity].
Qed.

Lemma compare_products_values products_data comparison_date :
  ComparisonEngine.compare_products_with sim1 products_data comparison_date
  = ComparisonEngine.compare_products_with sim2 products_data comparison_date.
Proof.
  unfold ComparisonEngine.compare_products_with, ComparisonEngine.pipeline.
  destruct products_data as [l| |n]; try reflexivity.
  unfold FeatureMatcher.match_features_with.
  destruct l as [|p ps]; [reflexivity|].
  now rewrite category_loop_values.
Qed.

End SimilarityValues.

(** C9: the report does not depend on the order in which the word sets of
    the similarity hold their elements, the one thing that differs between
    two runs on the same products and date. *)
Theorem compare_products_deterministic
    (order1 order2 : list string -> list string)
    (products_data : products_arg) (comparison_date : string) :
  (forall l, Permutation (order1 l) l) ->
  (forall l, Permutation (order2 l) l) ->
  ComparisonEngine.compare_products_with
    (FeatureMatcher._calculate_similarity_in order1) products_data comparison_date
  = ComparisonEngine.compare_products_with
      (FeatureMatcher._calculate_similarity_in order2) products_data comparison_date.
Proof.
  intros H1 H2. apply compare_products_values. intros a b.
  rewrite (similarity_order_irrelevant _ H1), (similarity_order_irrelevant _ H2).
  reflexivity.
Qed.

Lemma compare_products_deterministic_two_laptops :
  ComparisonEngine.compare_products_with
    (FeatureMatcher._calculate_similarity_in (fun l => l))
    (ProductList two_laptops) "2024-05-01"
  = ComparisonEngine.compare_products_with
      (FeatureMatcher._calculate_similarity_in (@rev string))
      (ProductList two_laptops) "2024-05-01".
Proof.
  apply compare_products_deterministic.
  - intros l. apply Permutation_refl.
  - intros l. apply Permutation_sym, Permutation_rev.
Defined.

(* ================================================================== *)
(** ** Facts about floats *)

Lemma of_ratio_not_nan (n d : Z) : Float.is_nan (Float.of_ratio n d) = false.
Proof.
  unfold Float.is_nan. apply Z.ltb_ge. unfold Float.of_ratio.
  destruct (n =? 0); [discriminate | apply Z.le_min_l].
Qed.

Lemma mul_not_nan (x y : Float.t) :
  Float.is_nan x = false ->
  0 < y < Float.inf ->
  Float.is_nan (Float.mul x y) = false.
Proof.
  intros Hx [Hy0 Hyinf]. unfold Float.mul.
  assert (Float.is_nan y = false) as Hy.
  { unfold Float.is_nan. apply Z.ltb_ge. lia. }
  rewrite Hx, Hy. simpl.
  replace (y =? Float.inf) with false by (symmetry; apply Z.eqb_neq; lia).
  replace (y =? 0) with false by (symmetry; apply Z.eqb_neq; lia).
  rewrite !orb_false_r.
  destruct (x =? Float.inf) eqn:E.
  - apply Z.eqb_eq in E. subst x. reflexivity.
  - destruct (Float.to_ratio x), (Float.to_ratio y). apply of_ratio_not_nan.
Qed.

Lemma ltb_order (x y : Float.t) :
  Float.is_nan x = false -> Float.is_nan y = false ->
  Float.ltb x y = (x <? y).
Proof. intros Hx Hy. unfold Float.ltb. now rewrite Hx, Hy. Qed.

(** Every conversion factor is a positive finite number. *)
Lemma conversion_factor_regular category factors unit_name factor :
  Dict.get category UnitConverter.conversion_factors = Some factors ->
  Dict.get unit_name factors = Some factor ->
  0 < factor < Float.inf.
Proof.
  intros Hc Hu. apply dict_get_In in Hc. apply dict_get_In in Hu.
  assert (forallb
            (fun '(_, factors) =>
               forallb (fun '(_, f) => (0 <? f) && (f <? Float.inf))%bool factors)
            UnitConverter.conversion_factors = true) as H by reflexivity.
  rewrite forallb_forall in H. specialize (H _ Hc). simpl in H.
  rewrite forallb_forall in H. specialize (H _ Hu). simpl in H.
  apply andb_prop in H as [H1 H2].
  apply Z.ltb_lt in H1. apply Z.ltb_lt in H2. lia.
Qed.

Lemma search_value_unit_not_nan match_unit s x u :
  UnitConverter.search_value_unit match_unit s = Some (x, u) ->
  Float.is_nan x = false.
Proof.
  assert (forall s, UnitConverter.match_value_unit match_unit s = Some (x, u) ->
                    Float.is_nan x = false) as Hhere.
  { intros s0. unfold UnitConverter.match_value_unit.
    destruct (UnitConverter.match_number s0) as [[[whole frac] rest]|]; [|discriminate].
    destruct (match_unit _); [|discriminate].
    intros [= <- _]. apply of_ratio_not_nan. }
  induction s as [|ch s IH]; cbn [UnitConverter.search_value_unit].
  - destruct (UnitConverter.match_value_unit match_unit "") as [r|] eqn:E;
      [|discriminate].
    intros [= ->]. eauto.
  - destruct (UnitConverter.match_value_unit match_unit (String ch s)) as [r|] eqn:E.
    + intros [= ->]. eauto.
    + assumption.
Qed.

Lemma search_number_not_nan s x :
  UnitConverter.search_number s = Some x -> Float.is_nan x = false.
Proof.
  induction s as [|ch s IH]; cbn [UnitConverter.search_number].
  - destruct (UnitConverter.match_number "") as [[[whole frac] rest]|];
      [|discriminate].
    intros [= <-]. apply of_ratio_not_nan.
  - destruct (UnitConverter.match_number (String ch s)) as [[[whole frac] rest]|].
    + intros [= <-]. apply of_ratio_not_nan.
    + assumption.
Qed.

Lemma extract_not_nan value category x u :
  UnitConverter.extract_value_and_unit value category = (Some x, u) ->
  Float.is_nan x = false.
Proof.
  unfold UnitConverter.extract_value_and_unit.
  destruct value as [s| | |]; try discriminate.
  destruct (Dict.get category UnitConverter.value_unit_patterns) as [pattern|] eqn:G.
  - apply dict_get_In in G. unfold UnitConverter.value_unit_patterns in G.
    apply in_map_iff in G as [[c units] [[= _ <-] _]].
    destruct (UnitConverter.search_value_unit _ s) as [[v w]|] eqn:E.
    + intros [= <- _]. eapply search_value_unit_not_nan; eassumption.
    + destruct (UnitConverter.search_number s) as [v|] eqn:E'; [|discriminate].
      intros [= <- _]. eapply search_number_not_nan; eassumption.
  - destruct (UnitConverter.search_value_unit _ s) as [[v w]|] eqn:E;
      [|discriminate].
    intros [= <- _]. eapply search_value_unit_not_nan; eassumption.
Qed.

(** A normalized value is never NaN. *)
Lemma normalize_not_nan value category x u :
  UnitConverter.normalize_for_comparison value category = (Some x, u) ->
  Float.is_nan x = false.
Proof.
  unfold UnitConverter.normalize_for_comparison.
  destruct (UnitConverter.extract_value_and_unit value category)
    as [[v|] [w|]] eqn:E; try discriminate.
  - apply extract_not_nan in E.
    unfold UnitConverter.convert_to_base_unit.
    destruct (Dict.get category UnitConverter.conversion_factors)
      as [factors|] eqn:Gc; [|now intros [= <- _]].
    destruct (Dict.get w factors) as [factor|] eqn:Gu; [|now intros [= <- _]].
    intros [= <- _]. apply mul_not_nan; [assumption|].
    eapply conversion_factor_regular; eassumption.
  - apply extract_not_nan in E. now intros [= <- _].
Qed.

Lemma comparable_values_not_nan category product_values :
  Forall (fun y => Float.is_nan (MatrixGenerator.norm_of y) = false)
    (MatrixGenerator.comparable_values_of category product_values).
Proof.
  apply Forall_forall. intros y Hy.
  unfold MatrixGenerator.comparable_values_of in Hy.
  apply in_flat_map in Hy as [[p v] [_ Hy]].
  destruct (is_str v); [|destruct Hy].
  destruct (UnitConverter.normalize_for_comparison v category) as [[x|] u] eqn:E;
    [|destruct Hy].
  destruct Hy as [<-|[]]. eapply normalize_not_nan. exact E.
Qed.

(* ================================================================== *)
(** ** The scan of [max] and [min] *)

Section Scan.
Variables (A : Type) (key : A -> Float.t).
Variable better : Float.t -> Float.t -> bool.
Variable rank : Float.t -> Z.
Hypothesis better_rank :
  forall a b,
    Float.is_nan a = false -> Float.is_nan b = false ->
    better a b = (rank b <? rank a).

(** The item kept by the scan is better than every item before it, and no
    item after it is better. *)
Lemma scan_keeps_first_best (x : A) (l : list A) :
  Forall (fun y => Float.is_nan (key y) = false) (x :: l) ->
  exists before after,
    x :: l = before ++ py_max_by better key x l :: after
    /\ Forall (fun y => better (key (py_max_by better key x l)) (key y) = true) before
    /\ Forall (fun y => better (key y) (key (py_max_by better key x l)) = false) after.
Proof.
  unfold py_max_by. induction l as [|y l IH] using rev_ind; intros Hreg.
  - exists [], []. simpl. auto.
  - rewrite fold_left_app. simpl.
    assert (Forall (fun y => Float.is_nan (key y) = false) (x :: l)) as Hreg'.
    { rewrite app_comm_cons in Hreg. now apply Forall_app in Hreg. }
    assert (Float.is_nan (key y) = false) as Hy.
    { rewrite app_comm_cons in Hreg. apply Forall_app in Hreg as [_ H].
      now inversion H. }
    destruct (IH Hreg') as (before & after & Heq & Hbefore & Hafter).
    set (best := fold_left _ l x) in *.
    assert (Float.is_nan (key best) = false) as Hbest.
    { rewrite Forall_forall in Hreg'. apply Hreg'. rewrite Heq.
      apply in_or_app. right. now left. }
    assert (forall z, In z (x :: l) -> Float.is_nan (key z) = false) as Hz
      by now apply Forall_forall.
    rewrite Forall_forall in Hbefore, Hafter.
    destruct (better (key y) (key best)) eqn:E.
    + exists (x :: l), []. split; [now rewrite app_comm_cons|].
      split; [|constructor].
      apply Forall_forall. intros z Hin.
      rewrite better_rank in E by assumption. apply Z.ltb_lt in E.
      rewrite better_rank by auto. apply Z.ltb_lt.
      rewrite Heq in Hin. apply in_app_or in Hin as [Hin|[<-|Hin]].
      * assert (In z (x :: l)) as Hzl
            by (rewrite Heq; apply in_or_app; now left).
        specialize (Hbefore _ Hin). rewrite better_rank in Hbefore by auto.
        apply Z.ltb_lt in Hbefore. lia.
      * assumption.
      * assert (In z (x :: l)) as Hzl
            by (rewrite Heq; apply in_or_app; right; now right).
        specialize (Hafter _ Hin). rewrite better_rank in Hafter by auto.
        apply Z.ltb_ge in Hafter. lia.
    + exists before, (after ++ [y]). split.
      { rewrite app_comm_cons, Heq, <- app_assoc. reflexivity. }
      split; [now apply Forall_forall|].
      apply Forall_app. split; [now apply Forall_forall|].
      constructor; [assumption | constructor].
Qed.

End Scan.

Lemma max_comparable_first_best first others :
  Forall (fun y => Float.is_nan (MatrixGenerator.norm_of y) = false) (first :: others) ->
  exists before after,
    first :: others = before ++ MatrixGenerator.max_comparable first others :: after
    /\ Forall (fun y =>
                 Float.ltb (MatrixGenerator.norm_of y)
                   (MatrixGenerator.norm_of (MatrixGenerator.max_comparable first others))
                 = true) before
    /\ Forall (fun y =>
                 Float.gtb (MatrixGenerator.norm_of y)
                   (MatrixGenerator.norm_of (MatrixGenerator.max_comparable first others))
                 = false) after.
Proof.
  apply (scan_keeps_first_best MatrixGenerator.norm_of Float.gtb (fun z => z)).
  intros a b Ha Hb. unfold Float.gtb. now apply ltb_order.
Qed.

Lemma min_comparable_first_best first others :
  Forall (fun y => Float.is_nan (MatrixGenerator.norm_of y) = false) (first :: others) ->
  exists before after,
    first :: others = before ++ MatrixGenerator.min_comparable first others :: after
    /\ Forall (fun y =>
                 Float.gtb (MatrixGenerator.norm_of y)
                   (MatrixGenerator.norm_of (MatrixGenerator.min_comparable first others))
                 = true) before
    /\ Forall (fun y =>
                 Float.ltb (MatrixGenerator.norm_of y)
                   (MatrixGenerator.norm_of (MatrixGenerator.min_comparable first others))
                 = false) after.
Proof.
  apply (scan_keeps_first_best MatrixGenerator.norm_of Float.ltb Z.opp).
  intros a b Ha Hb. rewrite ltb_order by assumption.
  destruct (a <? b) eqn:E; symmetry.
  - apply Z.ltb_lt in E. apply Z.ltb_lt. lia.
  - apply Z.ltb_ge in E. apply Z.ltb_ge. lia.
Qed.

(** The best product of an annotation is the first comparable candidate
    whose normalized value is the greatest (higher is better) or the least
    (lower is better). *)
Lemma annotation_first_best category feature_key product_values c :
  MatrixGenerator.annotation_of category feature_key product_values = Some c ->
  exists before best after,
    MatrixGenerator.comparable_values_of category product_values
      = before ++ best :: after
    /\ best_product c = fst (fst best)
    /\ match comparison_type c with
       | higher_better =>
           Forall (fun y => Float.ltb (MatrixGenerator.norm_of y)
                              (MatrixGenerator.norm_of best) = true) before
           /\ Forall (fun y => Float.gtb (MatrixGenerator.norm_of y)
                                 (MatrixGenerator.norm_of best) = false) after
       | lower_better =>
           Forall (fun y => Float.gtb (MatrixGenerator.norm_of y)
                              (MatrixGenerator.norm_of best) = true) before
           /\ Forall (fun y => Float.ltb (MatrixGenerator.norm_of y)
                                 (MatrixGenerator.norm_of best) = false) after
       | neutral => False
       end.
Proof.
  unfold MatrixGenerator.annotation_of.
  destruct (_ && _)%bool; [|discriminate].
  pose proof (comparable_values_not_nan category product_values) as Hreg.
  destruct (MatrixGenerator.comparable_values_of category product_values)
    as [|first [|second rest]]; try discriminate.
  set (others := second :: rest) in *.
  destruct (max_comparable_first_best Hreg) as (b1 & a1 & E1 & Hb1 & Ha1).
  destruct (min_comparable_first_best Hreg) as (b2 & a2 & E2 & Hb2 & Ha2).
  unfold MatrixGenerator.comparison_of.
  destruct (Str.contains "resolution" (Str.lower feature_key)).
  { destruct (Str.mem category _); [|destruct (Str.mem category _)];
      intros [= <-]; exists b1, (MatrixGenerator.max_comparable first others), a1;
      simpl; auto. }
  destruct (_ && _)%bool.
  { destruct (Str.mem category _); [|destruct (Str.mem category _)];
      intros [= <-]; exists b1, (MatrixGenerator.max_comparable first others), a1;
      simpl; auto. }
  destruct (Str.mem category ["processor"; "memory"; "storage"; "display"; "graphics"]).
  { intros [= <-]. exists b1, (MatrixGenerator.max_comparable first others), a1.
    simpl. auto. }
  destruct (Str.mem category ["weight"]); [|discriminate].
  intros [= <-]. exists b2, (MatrixGenerator.min_comparable first others), a2.
  simpl. auto.
Qed.

(** C7: [compare_values] on "8GB" and "12GB" as memory gives 8.0, 12.0 and
    GB; in the feature matrix built from two products that report "8GB"
    and "12GB" of RAM, in either order, the annotation stored under
    [_comparison] names the product with "12GB" as the best one, with the
    higher-is-better policy; and for every annotation stored in a feature
    matrix, the best product is the first comparable candidate, among the
    contributions of that feature, whose normalized value is the greatest
    (higher is better) or the least (lower is better): the candidates
    before it are strictly worse, none after it is better. *)
Theorem best_product_is_first_best :
  UnitConverter.compare_values (VStr "8GB") (VStr "12GB") "memory"
    = (Some (Float.of_decimal 80 1), Some (Float.of_decimal 120 1), Some "GB")
  /\ (matched <- FeatureMatcher.match_features (memory_products "8GB" "12GB") ;;
      Ok (annotation_at (MatrixGenerator.generate_feature_matrix matched)
            "memory" "memory - RAM"))
     = Ok (Some (Comparison
                   {| comparison_type := higher_better;
                      best_product := "Laptop B";
                      normalized_values :=
                        [ ("Laptop A", Float.of_decimal 80 1);
                          ("Laptop B", Float.of_decimal 120 1) ];
                      unit := Some "GB" |}))
  /\ (matched <- FeatureMatcher.match_features (memory_products "12GB" "8GB") ;;
      Ok (annotation_at (MatrixGenerator.generate_feature_matrix matched)
            "memory" "memory - RAM"))
     = Ok (Some (Comparison
                   {| comparison_type := higher_better;
                      best_product := "Laptop A";
                      normalized_values :=
                        [ ("Laptop A", Float.of_decimal 120 1);
                          ("Laptop B", Float.of_decimal 80 1) ];
                      unit := Some "GB" |}))
  /\ forall (matched : Dict.t FeatureMatcher.features)
        (category feature_key : string) (feats : Dict.t entry) (e : entry)
        (c : comparison),
       In (category, feats) (MatrixGenerator.generate_feature_matrix matched) ->
       In (feature_key, e) feats ->
       In ("_comparison", Comparison c) e ->
       exists feats0 product_values before best after,
         In (category, feats0) matched
         /\ In (feature_key, product_values) feats0
         /\ MatrixGenerator.comparable_values_of category product_values
            = before ++ best :: after
         /\ best_product c = fst (fst best)
         /\ match comparison_type c with
            | higher_better =>
                Forall (fun y => Float.ltb (MatrixGenerator.norm_of y)
                                   (MatrixGenerator.norm_of best) = true) before
                /\ Forall (fun y => Float.gtb (MatrixGenerator.norm_of y)
                                      (MatrixGenerator.norm_of best) = false) after
            | lower_better =>
                Forall (fun y => Float.gtb (MatrixGenerator.norm_of y)
                                   (MatrixGenerator.norm_of best) = true) before
                /\ Forall (fun y => Float.ltb (MatrixGenerator.norm_of y)
                                      (MatrixGenerator.norm_of best) = false) after
            | neutral => False
            end.
Proof.
  split; [reflexivity|].
  split; [vm_compute; reflexivity|].
  split; [vm_compute; reflexivity|].
  intros matched category feature_key feats e c Hcat Hfeat Hc.
  destruct (@generate_feature_matrix_from matched category feats feature_key e
              Hcat Hfeat) as (feats0 & product_values & Hcat0 & Hfeat0 & ->).
  apply entry_of_comparison in Hc.
  destruct (annotation_first_best _ _ _ Hc) as (before & best & after & H).
  exists feats0, product_values, before, best, after. auto.
Qed.

Lemma best_product_of_three :
  exists before best after,
    MatrixGenerator.comparable_values_of "storage"
      [ ("A", VStr "512GB"); ("B", VStr "1TB"); ("C", VStr "1024 GB") ]
    = before ++ best :: after
    /\ "B" = fst (fst best)
    /\ Forall (fun y => Float.ltb (MatrixGenerator.norm_of y)
                          (MatrixGenerator.norm_of best) = true) before
    /\ Forall (fun y => Float.gtb (MatrixGenerator.norm_of y)
                          (MatrixGenerator.norm_of best) = false) after.
Proof.
  pose (product_values :=
          [ ("A", VStr "512GB"); ("B", VStr "1TB"); ("C", VStr "1024 GB") ]).
  pose (c := {| comparison_type := higher_better;
                best_product := "B";
                normalized_values :=
                  [ ("A", Float.of_Z 512); ("B", Float.of_Z 1024);
                    ("C", Float.of_Z 1024) ];
                unit := Some "GB" |}).
  pose (e := [ ("A", Value (VStr "512GB")); ("B", Value (VStr "1TB"));
               ("C", Value (VStr "1024 GB")); ("_comparison", Comparison c) ]).
  destruct (proj2 (proj2 (proj2 best_product_is_first_best))
              [ ("storage", [ ("storage - SSD", product_values) ]) ]
              "storage" "storage - SSD" [ ("storage - SSD", e) ] e c)
    as (feats0 & pv & before & best & after & H1 & H2 & H).
  - vm_compute. left. reflexivity.
  - left. reflexivity.
  - right. right. right. left. reflexivity.
  - destruct H1 as [H1|[]]. injection H1 as <-.
    destruct H2 as [H2|[]]. injection H2 as <-.
    exists before, best, after. exact H.
Defined.

(* ================================================================== *)
(** ** The first value of every product *)

Lemma first_values_seen (seen seen' : list string) merged :
  (forall p, Str.mem p seen = Str.mem p seen') ->
  Spec.first_values seen merged = Spec.first_values seen' merged.
Proof.
  revert seen seen'. induction merged as [|[p v] rest IH]; simpl; intros seen seen' H.
  - reflexivity.
  - rewrite <- H. destruct (Str.mem p seen); [now apply IH|].
    f_equal. apply IH. intros q. simpl. now rewrite H.
Qed.

Lemma first_of_set_later (d : Dict.t (pyval * list pyval)) p first later later' :
  Dict.get p d = Some (first, later) ->
  map first_of (Dict.set p (first, later') d) = map first_of d.
Proof.
  induction d as [|[q [f l]] d IH]; simpl; [discriminate|].
  destruct (String.eqb p q) eqn:E.
  - intros [= -> ->]. reflexivity.
  - intros H. simpl. f_equal. now apply IH.
Qed.

Lemma product_dict_first_values merged :
  forall d : Dict.t (pyval * list pyval),
    map first_of
      (fold_left
         (fun product_dict '(product_name, value) =>
            match Dict.get product_name product_dict with
            | None => Dict.set product_name (value, []) product_dict
            | Some (first, later) =>
                Dict.set product_name (first, later ++ [value]) product_dict
            end)
         merged d)
    = map first_of d ++ Spec.first_values (Dict.keys d) merged.
Proof.
  induction merged as [|[p v] rest IH]; simpl; intros d.
  - now rewrite app_nil_r.
  - rewrite IH. destruct (Dict.get p d) as [[first later]|] eqn:G.
    + assert (In p (Dict.keys d)) as Hin by (apply dict_get_keys; congruence).
      rewrite (dict_keys_set_present _ _ _ Hin).
      rewrite (first_of_set_later _ _ _ G).
      apply str_mem_In in Hin. now rewrite Hin.
    + assert (~ In p (Dict.keys d)) as Hout by (rewrite dict_get_keys; tauto).
      rewrite (dict_set_absent _ _ _ Hout).
      apply str_mem_not_In in Hout. rewrite Hout.
      rewrite map_app. simpl. rewrite <- app_assoc. simpl. do 2 f_equal.
      apply first_values_seen. intros q. unfold Dict.keys.
      rewrite map_app. simpl. unfold Str.mem.
      rewrite existsb_app. simpl. now rewrite orb_false_r, orb_comm.
Qed.

(** [final_values] holds, for every product of the merged values, the
    first value merged for it. *)
Lemma final_values_first merged :
  FeatureMatcher.final_values_of merged = Spec.first_values [] merged.
Proof.
  unfold FeatureMatcher.final_values_of, FeatureMatcher.product_dict_of.
  change (map _ ?l) with (map first_of l).
  now rewrite product_dict_first_values.
Qed.

(* ================================================================== *)
(** ** The scan for similar labels *)

Section SimilarScan.
Variable sim : string -> string -> Float.t.

Lemma find_similar_step feature_key processed_keys (l : list string) :
  NoDup l ->
  forall joined current,
    (forall k, In k l -> Str.mem k current = Str.mem k processed_keys) ->
    fold_left
      (fun '(joined, processed_keys) other_key =>
         if (negb (String.eqb other_key feature_key)
             && negb (Str.mem other_key processed_keys)
             && Float.geb (sim feature_key other_key)
                  FeatureMatcher.similarity_threshold)%bool
         then (joined ++ [other_key], other_key :: processed_keys)
         else (joined, processed_keys))
      l (joined, current)
    = (joined ++ filter (joins sim feature_key processed_keys) l,
       rev (filter (joins sim feature_key processed_keys) l) ++ current).
Proof.
  induction 1 as [|k l Hk Hl IH]; simpl; intros joined current Hmem.
  - now rewrite app_nil_r.
  - assert ((negb (String.eqb k feature_key) && negb (Str.mem k current)
             && Float.geb (sim feature_key k) FeatureMatcher.similarity_threshold)%bool
            = joins sim feature_key processed_keys k) as E.
    { unfold joins. now rewrite (Hmem k (or_introl eq_refl)). }
    rewrite E. destruct (joins sim feature_key processed_keys k).
    + rewrite IH.
      * simpl. now rewrite <- !app_assoc.
      * intros k' Hk'. rewrite <- (Hmem k' (or_intror Hk')). simpl.
        destruct (String.eqb k' k) eqn:E'; [|reflexivity].
        apply String.eqb_eq in E'. now subst.
    + apply IH. intros k' Hk'. apply Hmem. now right.
Qed.

(** Over labels without repetition the scan is a filter. *)
Lemma find_similar_filter (feats : FeatureMatcher.features) feature_key processed_keys :
  NoDup (Dict.keys feats) ->
  FeatureMatcher.find_similar sim feats feature_key processed_keys
  = (filter (joins sim feature_key processed_keys) (Dict.keys feats),
     rev (filter (joins sim feature_key processed_keys) (Dict.keys feats))
       ++ processed_keys).
Proof.
  intros H. unfold FeatureMatcher.find_similar.
  now rewrite (find_similar_step feature_key processed_keys H).
Qed.

End SimilarScan.

Lemma py_max_by_In (A K : Type) (gt : K -> K -> bool) (key : A -> K)
    (l : list A) :
  forall x, In (py_max_by gt key x l) (x :: l).
Proof.
  unfold py_max_by. induction l as [|y l IH]; simpl; intros x.
  - now left.
  - destruct (IH (if gt (key y) (key x) then y else x)) as [H|H];
      [|right; now right].
    rewrite <- H. destruct (gt (key y) (key x)); [right; now left | now left].
Qed.

(** The canonical label of a cluster is one of its labels. *)
Lemma canonical_key_in_cluster feats seed joined :
  In (FeatureMatcher.canonical_key_of feats seed joined) (seed :: joined).
Proof. apply py_max_by_In. Qed.

(* ================================================================== *)
(** ** The loop over the labels builds the greedy clusters *)

Lemma str_mem_iff (k : string) (l l' : list string) :
  (In k l <-> In k l') -> Str.mem k l = Str.mem k l'.
Proof.
  intros H. destruct (Str.mem k l') eqn:E.
  - apply str_mem_In. apply str_mem_In in E. tauto.
  - apply str_mem_not_In. apply str_mem_not_In in E. tauto.
Qed.

Lemma dict_set_same_value (V : Type) (d : Dict.t V) k v :
  Dict.get k d = Some v -> Dict.set k v d = d.
Proof.
  induction d as [|[k0 v0] d IH]; simpl; [discriminate|].
  destruct (String.eqb k k0) eqn:E.
  - now intros [= ->].
  - intros H. f_equal. auto.
Qed.

Lemma dict_get_set_other (V : Type) (d : Dict.t V) k v c :
  c <> k -> Dict.get c (Dict.set k v d) = Dict.get c d.
Proof.
  intros Hc. induction d as [|[k0 v0] d IH]; simpl.
  - apply String.eqb_neq in Hc. now rewrite Hc.
  - destruct (String.eqb k k0) eqn:E; simpl.
    + apply String.eqb_eq in E. subst k0.
      apply String.eqb_neq in Hc. now rewrite Hc.
    + now rewrite IH.
Qed.

Lemma filter_none (A : Type) (f : A -> bool) (l : list A) :
  (forall x, In x l -> f x = false) -> filter f l = [].
Proof.
  induction l as [|x l IH]; simpl; intros H; [reflexivity|].
  rewrite (H x (or_introl eq_refl)). apply IH. intros y Hy. apply H. now right.
Qed.

Section Greedy.
Variable sim : string -> string -> Float.t.
Hypothesis sim_sym : forall a b, sim a b = sim b a.
Variable category : string.
Variable feats : FeatureMatcher.features.
Hypothesis keys_distinct : NoDup (Dict.keys feats).

(** The loop from a point where the labels [pre] have been visited: the
    labels still to visit are processed for the source exactly when they
    are for the specification, and a visited label that the source has
    not processed is similar to no unprocessed label still to visit. *)
Lemma cluster_loop_greedy items :
  forall pre processed_keys processed in_category matched,
    Dict.keys feats = pre ++ Dict.keys items ->
    (forall k, In k (Dict.keys items) -> In k processed_keys <-> In k processed) ->
    (forall k, In k pre -> ~ In k processed_keys ->
       forall u, In u (Dict.keys items) -> ~ In u processed_keys ->
         Spec.similar sim k u = false) ->
    Dict.get category matched = Some in_category ->
    FeatureMatcher.cluster_loop sim category feats items processed_keys matched
    = Ok (Dict.set category
            (fold_left
               (fun d cluster =>
                  Dict.set (fst (Spec.entry_of_cluster feats cluster))
                           (snd (Spec.entry_of_cluster feats cluster)) d)
               (Spec.greedy_clusters (Spec.similar sim) processed (Dict.keys items))
               in_category)
            matched).
Proof.
  induction items as [|[s pv] rest IH];
    intros pre P Q in_category matched Hkeys Hmem Hinv Hget.
  - simpl. now rewrite dict_set_same_value.
  - change (Dict.keys ((s, pv) :: rest)) with (s :: Dict.keys rest) in *.
    assert (Dict.keys feats = (pre ++ [s]) ++ Dict.keys rest) as Hkeys'
        by now rewrite <- app_assoc.
    assert (~ In s (Dict.keys rest)) as Hs_rest.
    { pose proof keys_distinct as N. rewrite Hkeys in N.
      apply NoDup_app_remove_l in N. now inversion N. }
    cbn [FeatureMatcher.cluster_loop Spec.greedy_clusters].
    rewrite <- (str_mem_iff s P Q (Hmem s (or_introl eq_refl))).
    destruct (Str.mem s P) eqn:Hs.
    + (* the label is processed already *)
      apply (IH (pre ++ [s])); try assumption.
      * intros k Hk. apply Hmem. now right.
      * intros k Hk HkP u Hu HuP.
        apply in_app_or in Hk as [Hk|[<-|[]]].
        -- apply (Hinv k Hk HkP u); [now right | assumption].
        -- apply str_mem_In in Hs. contradiction.
    + (* the label is a seed *)
      apply str_mem_not_In in Hs.
      rewrite (find_similar_filter sim feats s P keys_distinct).
      set (joined :=
             filter (fun candidate =>
                       (negb (Str.mem candidate Q)
                        && Spec.similar sim s candidate)%bool)
                    (Dict.keys rest)).
      assert (filter (joins sim s P) (Dict.keys feats) = joined) as Hjoined.
      { rewrite Hkeys, filter_app. simpl.
        rewrite filter_none.
        - unfold joins at 1. rewrite String.eqb_refl. simpl.
          apply filter_ext_in. intros k Hk. unfold joins, Spec.similar.
          rewrite (str_mem_iff k P Q (Hmem k (or_intror Hk))).
          destruct (String.eqb k s) eqn:E; [|reflexivity].
          apply String.eqb_eq in E. subst. contradiction.
        - intros k Hk. unfold joins.
          destruct (Str.mem k P) eqn:HkP; [now rewrite andb_false_r|].
          apply str_mem_not_In in HkP.
          pose proof (Hinv k Hk HkP s (or_introl eq_refl) Hs) as Hsim.
          unfold Spec.similar in Hsim. rewrite sim_sym, Hsim.
          now rewrite andb_false_r. }
      rewrite Hjoined, Hget.
      set (canonical := FeatureMatcher.canonical_key_of feats s joined).
      rewrite final_values_first.
      rewrite (IH (pre ++ [s]) (canonical :: rev joined ++ P) (s :: joined ++ Q)
                  (Dict.set canonical
                     (Spec.first_values []
                        (FeatureMatcher.merged_values_of feats (s :: joined)))
                     in_category)).
      * simpl. now rewrite dict_set_set.
      * assumption.
      * intros k Hk.
        assert (k <> s) as Hks by (intros ->; contradiction).
        pose proof (canonical_key_in_cluster feats s joined) as Hc.
        fold canonical in Hc. simpl. rewrite !in_app_iff, <- in_rev.
        specialize (Hmem k (or_intror Hk)). split.
        -- intros [<-|[H|H]].
           ++ destruct Hc as [Hc|Hc]; [congruence | right; now left].
           ++ right. now left.
           ++ right. right. tauto.
        -- intros [H|[H|H]]; [congruence | right; now left | right; right; tauto].
      * intros k Hk HkP u Hu HuP.
        assert (~ In u P) as HuP'.
        { intros H. apply HuP. right. apply in_or_app. now right. }
        apply in_app_or in Hk as [Hk|[<-|[]]].
        -- apply (Hinv k Hk); [|now right | assumption].
           intros H. apply HkP. right. apply in_or_app. now right.
        -- assert (~ In u joined) as Hu_joined.
           { intros H. apply HuP. right. apply in_or_app. left.
             now apply in_rev in H. }
           unfold joined in Hu_joined. rewrite filter_In in Hu_joined.
           destruct (Spec.similar sim s u) eqn:Hsim; [|reflexivity].
           exfalso. apply Hu_joined. split; [assumption|].
           rewrite andb_true_r. apply negb_true_iff. apply str_mem_not_In.
           intros H. apply HuP'. now apply (Hmem u (or_intror Hu)).
      * apply dict_get_set_same.
Qed.

End Greedy.

(* ================================================================== *)
(** ** The greedy clusters partition the labels *)

Lemma filter_split_Permutation (A : Type) (f g : A -> bool) (l : list A) :
  Permutation
    (filter (fun x => f x && g x)%bool l ++ filter (fun x => f x && negb (g x))%bool l)
    (filter f l).
Proof.
  induction l as [|x l IH]; simpl; [constructor|].
  destruct (f x), (g x); simpl; try assumption.
  - now constructor.
  - apply Permutation_sym, Permutation_cons_app, Permutation_sym, IH.
Qed.

Lemma greedy_clusters_partition (similar : string -> string -> bool) labels :
  NoDup labels ->
  forall processed,
    Permutation
      (flat_map Spec.labels_of (Spec.greedy_clusters similar processed labels))
      (filter (fun k => negb (Str.mem k processed)) labels).
Proof.
  induction 1 as [|s rest Hs Hrest IH]; simpl; intros Q; [constructor|].
  destruct (Str.mem s Q); simpl; [apply IH|].
  constructor.
  set (joined := filter _ rest).
  eapply Permutation_trans; [apply Permutation_app_head, IH|].
  eapply Permutation_trans;
    [|apply (filter_split_Permutation (fun k => negb (Str.mem k Q)) (similar s))].
  apply Permutation_app_head.
  erewrite filter_ext_in; [reflexivity|].
  intros k Hk. simpl.
  assert (String.eqb k s = false) as ->.
  { apply String.eqb_neq. intros ->. contradiction. }
  simpl. unfold Str.mem. rewrite existsb_app. fold (Str.mem k joined) (Str.mem k Q).
  destruct (Str.mem k Q) eqn:HQ; [now rewrite orb_true_r|].
  rewrite orb_false_r. simpl. f_equal.
  destruct (similar s k) eqn:Hsim.
  - apply str_mem_In. unfold joined. apply filter_In. split; [assumption|].
    fold (Str.mem k Q). now rewrite HQ, Hsim.
  - apply str_mem_not_In. unfold joined. rewrite filter_In.
    rewrite Hsim, andb_false_r. intros [_ H]. discriminate.
Qed.

Lemma filter_all (A : Type) (f : A -> bool) (l : list A) :
  (forall x, f x = true) -> filter f l = l.
Proof.
  intros H. induction l as [|x l IH]; simpl; [reflexivity|].
  rewrite H. now f_equal.
Qed.

Lemma NoDup_app_disjoint (A : Type) (a b : list A) :
  NoDup (a ++ b) -> forall x, In x a -> ~ In x b.
Proof.
  induction a as [|y a IH]; simpl; intros N x; [tauto|].
  inversion N as [|? ? Hy Ha]; subst. intros [<-|Hx] Hb.
  - apply Hy, in_or_app. now right.
  - exact (IH Ha x Hx Hb).
Qed.

Lemma NoDup_flat_map_choice (A B : Type) (f : A -> list B) (g : A -> B)
    (l : list A) :
  (forall x, In (g x) (f x)) ->
  NoDup (flat_map f l) -> NoDup (map g l).
Proof.
  intros Hg. induction l as [|x l IH]; simpl; intros N; [constructor|].
  constructor.
  - intros Hin. apply in_map_iff in Hin as (x' & E & Hx').
    apply (NoDup_app_disjoint _ _ N (g x) (Hg x)).
    apply in_flat_map. exists x'. split; [assumption|]. rewrite <- E. apply Hg.
  - apply IH. eapply NoDup_app_remove_l. exact N.
Qed.

Lemma fold_set_distinct (V A : Type) (g : A -> string * V) (l : list A) :
  forall d : Dict.t V,
    NoDup (Dict.keys d ++ map (fun x => fst (g x)) l) ->
    fold_left (fun d x => Dict.set (fst (g x)) (snd (g x)) d) l d
    = d ++ map g l.
Proof.
  induction l as [|x l IH]; simpl; intros d N.
  - now rewrite app_nil_r.
  - rewrite dict_set_absent.
    + rewrite IH.
      * rewrite <- app_assoc. simpl. now destruct (g x).
      * unfold Dict.keys. rewrite map_app. simpl. now rewrite <- app_assoc.
    + apply NoDup_remove_2 in N. intros H. apply N, in_or_app. now left.
Qed.

Section Clusters.
Variable sim : string -> string -> Float.t.
Hypothesis sim_sym : forall a b, sim a b = sim b a.

(** The labels of the clusters are the labels of the category, each once. *)
Lemma clusters_cover (feats : FeatureMatcher.features) :
  NoDup (Dict.keys feats) ->
  Permutation
    (flat_map Spec.labels_of
       (Spec.greedy_clusters (Spec.similar sim) [] (Dict.keys feats)))
    (Dict.keys feats).
Proof.
  intros N.
  rewrite <- (filter_all (fun k => negb (Str.mem k [])) (Dict.keys feats))
    at 2 by reflexivity.
  now apply greedy_clusters_partition.
Qed.

(** On a category that has no entry yet the loop leaves one entry for each
    greedy cluster. *)
Lemma cluster_loop_clusters category (feats : FeatureMatcher.features) matched :
  NoDup (Dict.keys feats) ->
  Dict.get category matched = Some [] ->
  FeatureMatcher.cluster_loop sim category feats feats [] matched
  = Ok (Dict.set category
          (map (Spec.entry_of_cluster feats)
               (Spec.greedy_clusters (Spec.similar sim) [] (Dict.keys feats)))
          matched).
Proof.
  intros N Hget.
  rewrite (@cluster_loop_greedy sim sim_sym category feats N feats [] [] [] [] matched);
    try tauto; try assumption.
  f_equal. f_equal.
  rewrite (fold_set_distinct (Spec.entry_of_cluster feats)); [reflexivity|].
  simpl.
  apply (NoDup_flat_map_choice Spec.labels_of
           (fun c => fst (Spec.entry_of_cluster feats c))).
  - intros c. apply canonical_key_in_cluster.
  - eapply Permutation_NoDup; [apply Permutation_sym, clusters_cover|]; assumption.
Qed.

Lemma cluster_loop_other category feats items c :
  c <> category ->
  forall processed_keys matched m,
    FeatureMatcher.cluster_loop sim category feats items processed_keys matched = Ok m ->
    Dict.get c m = Dict.get c matched.
Proof.
  intros Hc. induction items as [|[s pv] rest IH]; simpl; intros P matched m H.
  - now injection H as <-.
  - destruct (Str.mem s P); [eauto|].
    destruct (FeatureMatcher.find_similar sim feats s P) as [joined P'].
    destruct (Dict.get category matched) as [in_category|]; [|discriminate].
    apply IH in H. rewrite H. now apply dict_get_set_other.
Qed.

Lemma category_loop_other categorized c :
  ~ In c (Dict.keys categorized) ->
  forall matched m,
    FeatureMatcher.category_loop sim categorized matched = Ok m ->
    Dict.get c m = Dict.get c matched.
Proof.
  induction categorized as [|[category feats] rest IH]; simpl; intros Hc matched m H.
  - now injection H as <-.
  - destruct (FeatureMatcher.cluster_loop sim category feats feats [] matched)
      as [m1|e] eqn:E; simpl in H; [|discriminate].
    rewrite (IH (fun Hin => Hc (or_intror Hin)) _ _ H).
    eapply cluster_loop_other; [|exact E].
    intros ->. apply Hc. now left.
Qed.

(** When the loop over the categories returns, every category holds one
    entry for each of its greedy clusters. *)
Lemma category_loop_clusters categorized :
  NoDup (Dict.keys categorized) ->
  (forall c f, In (c, f) categorized -> NoDup (Dict.keys f) /\ f <> []) ->
  forall matched m,
    (forall c v, In c (Dict.keys categorized) ->
       Dict.get c matched = Some v -> v = []) ->
    FeatureMatcher.category_loop sim categorized matched = Ok m ->
    forall c f,
      In (c, f) categorized ->
      Dict.get c m
      = Some (map (Spec.entry_of_cluster f)
                  (Spec.greedy_clusters (Spec.similar sim) [] (Dict.keys f))).
Proof.
  induction categorized as [|[c0 f0] rest IH]; simpl;
    intros N Hwf matched m Hfresh H c f Hin; [contradiction|].
  inversion N as [|? ? Hc0 Nrest]; subst.
  destruct (Hwf c0 f0 (or_introl eq_refl)) as [N0 Hne].
  destruct (Dict.get c0 matched) as [v|] eqn:G.
  - assert (v = []) as -> by (eapply Hfresh; [now left | exact G]).
    rewrite (cluster_loop_clusters c0 f0 matched N0 G) in H. simpl in H.
    destruct Hin as [[= <- <-]|Hin].
    + rewrite (category_loop_other rest c0 Hc0 _ H). apply dict_get_set_same.
    + eapply (IH Nrest (fun c f H => Hwf c f (or_intror H)));
        [|exact H | exact Hin].
      intros c' v' Hc' Hget. apply (Hfresh c' v'); [now right|].
      rewrite <- Hget. symmetry. apply dict_get_set_other.
      intros ->. contradiction.
  - exfalso. destruct f0 as [|[s pv] f0]; [congruence|].
    cbn [FeatureMatcher.cluster_loop] in H. simpl (Str.mem s []) in H.
    cbv iota in H.
    destruct (FeatureMatcher.find_similar sim ((s, pv) :: f0) s []) as [joined P'].
    match type of H with
    | context [@Dict.get ?V ?k ?d] =>
        change (@Dict.get V k d) with (Dict.get c0 matched) in H
    end.
    rewrite G in H. discriminate.
Qed.

End Clusters.

(* ================================================================== *)
(** ** The labels grouped by category *)

Lemma dict_set_keys_NoDup (V : Type) (d : Dict.t V) k v :
  NoDup (Dict.keys d) -> NoDup (Dict.keys (Dict.set k v d)).
Proof.
  intros N. destruct (in_dec string_dec k (Dict.keys d)) as [Hin|Hout].
  - now rewrite dict_keys_set_present.
  - rewrite dict_set_absent by assumption.
    unfold Dict.keys. rewrite map_app. simpl.
    apply NoDup_app; [assumption | repeat constructor; tauto|].
    intros x Hx [<-|[]]. contradiction.
Qed.

Lemma dict_set_nonempty (V : Type) (d : Dict.t V) k v : Dict.set k v d <> [].
Proof.
  destruct d as [|[k0 v0] d]; simpl; [discriminate|].
  destruct (String.eqb k k0); discriminate.
Qed.

Lemma categorize_all_grouped all_features :
  grouped_well (FeatureMatcher.categorize_all all_features).
Proof.
  unfold FeatureMatcher.categorize_all.
  match goal with
  | |- grouped_well (fold_left _ _ ?start) =>
      assert (grouped_well start) as H0
        by (split; [constructor | intros ? ? []]);
      revert H0; generalize start
  end.
  induction all_features as [|[product_name feats] rest IH]; simpl;
    intros categorized H; [assumption|].
  apply IH. clear IH. revert categorized H.
  induction feats as [|[feature_key feature_value] feats IHf]; simpl;
    intros categorized H; [assumption|].
  apply IHf. destruct H as [N Hwf]. split.
  - now apply dict_set_keys_NoDup.
  - intros c f Hin. apply dict_set_In in Hin as [[-> ->]|Hin]; [|eauto].
    split; [|apply dict_set_nonempty].
    apply dict_set_keys_NoDup.
    match goal with
    | |- context [@Dict.get ?V ?k ?d] => destruct (@Dict.get V k d) as [g|] eqn:G
    end; [|constructor].
    apply dict_get_In in G. now apply Hwf in G.
Qed.

(** C4: when [match_features] returns, the entries of every category are
    those of the greedy clusters of its labels, in the order of the seeds:
    every label belongs to exactly one cluster, and a cluster gives one
    entry, under its canonical label, that holds for every product
    contributing to one of its labels the first value merged for it. *)
Theorem match_features_greedy_clusters
    (products_data : list product) (m : Dict.t FeatureMatcher.features)
    (category : string) (feats : FeatureMatcher.features) :
  FeatureMatcher.match_features products_data = Ok m ->
  In (category, feats)
     (FeatureMatcher.categorize_all (FeatureMatcher.extract_all products_data)) ->
  let clusters :=
    Spec.greedy_clusters (Spec.similar FeatureMatcher._calculate_similarity) []
      (Dict.keys feats) in
  Permutation (flat_map Spec.labels_of clusters) (Dict.keys feats)
  /\ Dict.get category m = Some (map (Spec.entry_of_cluster feats) clusters).
Proof.
  intros Hm Hin clusters.
  destruct (categorize_all_grouped (FeatureMatcher.extract_all products_data))
    as [N Hwf].
  split.
  - apply clusters_cover. now apply (Hwf category feats).
  - unfold FeatureMatcher.match_features, FeatureMatcher.match_features_with in Hm.
    destruct products_data as [|p ps]; [destruct Hin|].
    eapply (@category_loop_clusters _ similarity_sym _ N Hwf); [|exact Hm | exact Hin].
    intros c v _ Hget. apply dict_get_In in Hget.
    assert (forallb (fun x : string * FeatureMatcher.features =>
                       match snd x with [] => true | _ => false end)
              (fold_left (fun m category => Dict.set category [] m)
                         FeatureMatcher.expected_categories []) = true) as Hall
        by reflexivity.
    rewrite forallb_forall in Hall. specialize (Hall _ Hget). simpl in Hall.
    now destruct v.
Qed.

Lemma match_features_greedy_clusters_two_laptops :
  Permutation
    (flat_map Spec.labels_of [ ("memory - RAM", [ "memory - RAM Memory" ]) ])
    [ "memory - RAM"; "memory - RAM Memory" ]
  /\ Dict.get "memory"
       [ ("processor", []);
         ("memory",
           [ ("memory - RAM",
               [ ("Laptop A", VStr "8GB"); ("Laptop B", VStr "12GB") ]) ]);
         ("storage",
           [ ("storage - SSD",
               [ ("Laptop A", VStr "512GB"); ("Laptop B", VStr "1TB") ]) ]);
         ("display", []); ("camera", []); ("battery", []); ("dimensions", []);
         ("connectivity", []); ("os", []); ("price", []); ("graphics", []);
         ("other", []) ]
     = Some [ ("memory - RAM",
                [ ("Laptop A", VStr "8GB"); ("Laptop B", VStr "12GB") ]) ].
Proof.
  apply (@match_features_greedy_clusters two_laptops _ "memory"
           [ ("memory - RAM", [ ("Laptop A", VStr "8GB") ]);
             ("memory - RAM Memory", [ ("Laptop B", VStr "12GB") ]) ]).
  - vm_compute. reflexivity.
  - vm_compute. left. reflexivity.
Defined.

(** C4, as stated, fails: product A gives "16GB" under the label
    "memory - RAM Size", which joins the cluster of "memory - RAM"; the
    result keeps only the first value of A, so this contribution appears
    under no canonical label. *)
Lemma later_contribution_dropped :
  FeatureMatcher.categorize_all (FeatureMatcher.extract_all two_ram_labels)
  = [ ("memory",
        [ ("memory - RAM", [ ("A", VStr "8GB") ]);
          ("memory - RAM Size", [ ("A", VStr "16GB") ]) ]) ]
  /\ exists m,
       FeatureMatcher.match_features two_ram_labels = Ok m
       /\ m = [ ("processor", []);
                ("memory", [ ("memory - RAM", [ ("A", VStr "8GB") ]) ]);
                ("storage", []); ("display", []); ("camera", []); ("battery", []);
                ("dimensions", []); ("connectivity", []); ("os", []); ("price", []);
                ("graphics", []); ("other", []) ]
       /\ ~ exists category feats canonical values,
             In (category, feats) m
             /\ In (canonical, values) feats
             /\ In ("A", VStr "16GB") values.
Proof.
  split; [vm_compute; reflexivity|].
  eexists. split; [vm_compute; reflexivity|]. split; [reflexivity|].
  intros (category & feats & canonical & values & Hc & Hf & Hv).
  simpl in Hc.
  repeat (destruct Hc as [Hc|Hc];
          [injection Hc as <- <-; simpl in Hf;
           repeat (destruct Hf as [Hf|Hf];
                   [injection Hf as <- <-; simpl in Hv;
                    repeat (destruct Hv as [Hv|Hv]; [discriminate|]);
                    exact Hv|]);
           exact Hf|]).
  exact Hc.
Qed.

(* ================================================================== *)
(** * Further properties of the comparison engine *)

(** ** The similarity of two labels *)

(** X1: [_calculate_similarity] gives the same value whichever of the two
    labels comes first. *)
Theorem similarity_symmetric (str1 str2 : string) :
  FeatureMatcher._calculate_similarity str1 str2
  = FeatureMatcher._calculate_similarity str2 str1.
Proof. apply similarity_sym. Qed.

(** ** The category of a label *)

Lemma split_first_absent (sep s : string) :
  Str.contains sep s = false -> Str.split_first sep s = None.
Proof.
  induction s as [|c s IH]; simpl; intros H.
  - apply orb_false_iff in H as [H _]. now rewrite H.
  - apply orb_false_iff in H as [H1 H2]. rewrite H1. now rewrite IH.
Qed.

Lemma categorize_plain (feature_key : string) :
  Str.contains " - " feature_key = false ->
  In (FeatureMatcher._categorize_feature feature_key)
     FeatureMatcher.expected_categories.
Proof.
  intros H. unfold FeatureMatcher._categorize_feature.
  rewrite (split_first_absent _ _ H).
  destruct (find _ FeatureMatcher.feature_categories) as [[category keywords]|] eqn:F.
  - apply find_some in F as [F _].
    unfold FeatureMatcher.expected_categories. apply in_or_app. left.
    apply in_map_iff. now exists (category, keywords).
  - apply str_mem_In. reflexivity.
Qed.

Lemma categorize_flattened (category key : string) :
  In category (Dict.keys FeatureMatcher.feature_categories) ->
  FeatureMatcher._categorize_feature (category ++ " - " ++ key) = category.
Proof.
  intros H. simpl in H.
  repeat (destruct H as [<-|H]; [reflexivity|]).
  destruct H.
Qed.

(** X2: a label that holds no " - " is put in one of the twelve expected
    categories. *)
Theorem categorize_plain_label (feature_key : string) :
  Str.contains " - " feature_key = false ->
  In (FeatureMatcher._categorize_feature feature_key)
     FeatureMatcher.expected_categories.
Proof. apply categorize_plain. Qed.

Lemma categorize_plain_label_weight :
  In (FeatureMatcher._categorize_feature "Device Weight")
     FeatureMatcher.expected_categories.
Proof. apply categorize_plain_label. reflexivity. Defined.

(** X3: a label flattened under one of the eleven vocabulary categories is
    put in that category, whatever the label itself says. *)
Theorem categorize_flattened_label (category key : string) :
  In category (Dict.keys FeatureMatcher.feature_categories) ->
  FeatureMatcher._categorize_feature (category ++ " - " ++ key) = category.
Proof. apply categorize_flattened. Qed.

Lemma categorize_flattened_label_storage :
  FeatureMatcher._categorize_feature ("memory" ++ " - " ++ "Storage Capacity")
  = "memory".
Proof. apply categorize_flattened_label. simpl. tauto. Defined.

(* ================================================================== *)
(** ** Where the grouped labels come from *)

Lemma dict_set_keys_In (V : Type) (d : Dict.t V) k v c :
  In c (Dict.keys (Dict.set k v d)) -> c = k \/ In c (Dict.keys d).
Proof.
  intros H. apply in_map_iff in H as ([c' v'] & <- & H).
  apply dict_set_In in H as [[-> _]|H]; [now left|].
  right. apply in_map_iff. now exists (c', v').
Qed.

(** A flattened label is a label of the specifications, prefixed by its
    category unless the category is "other"; its value is a value of that
    label's category. *)
Lemma flatten_origin (specs : Dict.t (Dict.t pyval)) flat_key value :
  In (flat_key, value) (FeatureMatcher.flatten specs) ->
  exists category category_specs key,
    In (category, category_specs) specs
    /\ In (key, value) category_specs
    /\ flat_key = if negb (String.eqb category "other")
                  then (category ++ " - " ++ key)%string else key.
Proof.
  unfold FeatureMatcher.flatten. revert flat_key value.
  apply (fold_left_invariant
           (fun flat : Dict.t pyval =>
              forall flat_key value, In (flat_key, value) flat ->
                exists category category_specs key,
                  In (category, category_specs) specs
                  /\ In (key, value) category_specs
                  /\ flat_key = if negb (String.eqb category "other")
                                then (category ++ " - " ++ key)%string else key));
    [|intros ? ? []].
  intros flat [category category_specs] Hc Hflat.
  apply (fold_left_invariant
           (fun flat : Dict.t pyval =>
              forall flat_key value, In (flat_key, value) flat ->
                exists category category_specs key,
                  In (category, category_specs) specs
                  /\ In (key, value) category_specs
                  /\ flat_key = if negb (String.eqb category "other")
                                then (category ++ " - " ++ key)%string else key));
    [|assumption].
  intros flat' [key v] Hk Hflat' flat_key value Hin.
  apply dict_set_In in Hin as [[-> ->]|Hin]; [|now apply Hflat'].
  exists category, category_specs, key. auto.
Qed.

(** The flat specifications kept under a name are those of a product with
    that display name. *)
Lemma extract_all_origin (products_data : list product) name flat :
  In (name, flat) (FeatureMatcher.extract_all products_data) ->
  exists i p,
    In (i, p) (enumerate products_data)
    /\ name = display_name i p
    /\ flat = FeatureMatcher.flatten (specs_of p).
Proof.
  unfold FeatureMatcher.extract_all. revert name flat.
  apply (fold_left_invariant
           (fun all_features : Dict.t (Dict.t pyval) =>
              forall name flat, In (name, flat) all_features ->
                exists i p,
                  In (i, p) (enumerate products_data)
                  /\ name = display_name i p
                  /\ flat = FeatureMatcher.flatten (specs_of p)));
    [|intros ? ? []].
  intros all_features [i p] Hip Hall name flat Hin.
  apply dict_set_In in Hin as [[-> ->]|Hin]; [|now apply Hall].
  exists i, p. auto.
Qed.

(** A contribution grouped under a category and a label was given, for that
    label, by the flat specifications kept under the product's name; the
    label is one that the categorizer puts in that category. *)
Lemma categorize_all_origin (all_features : Dict.t (Dict.t pyval))
    category feats label contributions product_name value :
  In (category, feats) (FeatureMatcher.categorize_all all_features) ->
  In (label, contributions) feats ->
  In (product_name, value) contributions ->
  exists flat,
    In (product_name, flat) all_features
    /\ In (label, value) flat
    /\ FeatureMatcher._categorize_feature label = category.
Proof.
  unfold FeatureMatcher.categorize_all.
  revert category feats label contributions product_name value.
  set (P := fun categorized : Dict.t FeatureMatcher.features =>
              forall category feats label contributions product_name value,
                In (category, feats) categorized ->
                In (label, contributions) feats ->
                In (product_name, value) contributions ->
                exists flat,
                  In (product_name, flat) all_features
                  /\ In (label, value) flat
                  /\ FeatureMatcher._categorize_feature label = category).
  apply (fold_left_invariant P); [|intros ? ? ? ? ? ? []].
  intros categorized [name flat] Hname Hcat.
  apply (fold_left_invariant P); [|assumption].
  intros categorized' [feature_key feature_value] Hkey Hcat'
         category feats label contributions product_name value Hc Hl Hv.
  match type of Hc with
  | In _ (Dict.set ?c (Dict.set _ _ ?inc) _) =>
      assert (forall l cs p v,
                 In (l, cs) inc -> In (p, v) cs ->
                 exists flat0,
                   In (p, flat0) all_features /\ In (l, v) flat0
                   /\ FeatureMatcher._categorize_feature l = c) as Hin
  end.
  { match goal with
    | |- context [@Dict.get ?V ?k ?d] => destruct (@Dict.get V k d) as [f|] eqn:G
    end; [|intros ? ? ? ? []].
    apply dict_get_In in G. intros l cs p v H1 H2.
    exact (Hcat' _ f l cs p v G H1 H2). }
  apply dict_set_In in Hc as [[-> ->]|Hc];
    [|now apply (Hcat' category feats label contributions)].
  apply dict_set_In in Hl as [[-> ->]|Hl]; [|exact (Hin _ _ _ _ Hl Hv)].
  apply in_app_or in Hv as [Hv|[[= <- <-]|[]]]; [|now exists flat].
  match type of Hv with
  | In _ (match ?g with Some _ => _ | None => _ end) =>
      destruct g as [values|] eqn:G'
  end; [|destruct Hv].
  apply dict_get_In in G'. exact (Hin _ _ _ _ G' Hv).
Qed.

(** A category under which labels are grouped is the category of a label of
    some flat specifications. *)
Lemma categorize_all_keys (all_features : Dict.t (Dict.t pyval)) category :
  In category (Dict.keys (FeatureMatcher.categorize_all all_features)) ->
  exists name flat label value,
    In (name, flat) all_features
    /\ In (label, value) flat
    /\ category = FeatureMatcher._categorize_feature label.
Proof.
  unfold FeatureMatcher.categorize_all. revert category.
  set (P := fun categorized : Dict.t FeatureMatcher.features =>
              forall category, In category (Dict.keys categorized) ->
                exists name flat label value,
                  In (name, flat) all_features
                  /\ In (label, value) flat
                  /\ category = FeatureMatcher._categorize_feature label).
  apply (fold_left_invariant P); [|intros ? []].
  intros categorized [name flat] Hname Hcat.
  apply (fold_left_invariant P); [|assumption].
  intros categorized' [feature_key feature_value] Hkey Hcat' category Hc.
  apply dict_set_keys_In in Hc as [->|Hc]; [|now apply Hcat'].
  now exists name, flat, feature_key, feature_value.
Qed.

(** The labels of products within the vocabulary are grouped under expected
    categories only. *)
Lemma vocabulary_categories (products_data : list product) :
  forallb within_vocabulary products_data = true ->
  Forall (fun category => In category FeatureMatcher.expected_categories)
    (Dict.keys (FeatureMatcher.categorize_all
                  (FeatureMatcher.extract_all products_data))).
Proof.
  intros H. apply Forall_forall. intros category Hc.
  apply categorize_all_keys in Hc as (name & flat & label & value & Hn & Hl & ->).
  apply extract_all_origin in Hn as (i & p & Hip & _ & ->).
  apply flatten_origin in Hl as (c & cs & key & Hcs & Hkey & ->).
  rewrite forallb_forall in H.
  assert (In p products_data) as Hp.
  { clear - Hip. unfold enumerate in Hip. revert Hip. generalize 0%nat.
    induction products_data as [|q l IH]; simpl; intros n; [tauto|].
    intros [[= _ <-]|H]; [now left | right; eauto]. }
  specialize (H p Hp). unfold within_vocabulary in H.
  rewrite forallb_forall in H. specialize (H _ Hcs). cbv beta iota in H.
  apply orb_true_iff in H as [H|H].
  - assert (String.eqb c "other" = false) as ->.
    { apply String.eqb_neq. intros ->. discriminate H. }
    apply str_mem_In in H.
    cbn [negb]. rewrite (categorize_flattened key H).
    unfold FeatureMatcher.expected_categories. apply in_or_app. now left.
  - apply andb_true_iff in H as [Hother Hkeys]. rewrite Hother. cbn [negb].
    rewrite forallb_forall in Hkeys. specialize (Hkeys _ Hkey).
    cbv beta iota in Hkeys. apply categorize_plain. now apply negb_true_iff.
Qed.

(** X4: for products whose specification categories are vocabulary
    categories, or "other" with labels that hold no " - ", [match_features]
    returns without raising; its result has the twelve expected categories
    as keys (no key for the empty list). *)
Theorem match_features_returns (products_data : list product) :
  forallb within_vocabulary products_data = true ->
  exists m,
    FeatureMatcher.match_features products_data = Ok m
    /\ Dict.keys m = match products_data with
                     | [] => []
                     | _ => FeatureMatcher.expected_categories
                     end.
Proof.
  intros H. apply vocabulary_categories in H.
  assert (exists m, FeatureMatcher.match_features products_data = Ok m) as [m E].
  { unfold FeatureMatcher.match_features, FeatureMatcher.match_features_with.
    destruct products_data as [|p ps]; [eauto|].
    apply category_loop_returns. exact H. }
  exists m. split; [assumption|].
  eapply match_features_with_keys. exact E.
Qed.

Lemma match_features_returns_two_laptops :
  exists m,
    FeatureMatcher.match_features two_laptops = Ok m
    /\ Dict.keys m = FeatureMatcher.expected_categories.
Proof. apply (match_features_returns two_laptops). reflexivity. Defined.

(* ================================================================== *)
(** ** What a matched feature set holds *)

Lemma first_values_In seen merged x :
  In x (Spec.first_values seen merged) -> In x merged.
Proof.
  revert seen. induction merged as [|[p v] rest IH]; simpl; intros seen; [tauto|].
  destruct (Str.mem p seen).
  - intros H. right. eauto.
  - intros [<-|H]; [now left | right; eauto].
Qed.

Lemma first_values_fresh seen merged p :
  In p (map fst (Spec.first_values seen merged)) -> ~ In p seen.
Proof.
  revert seen. induction merged as [|[q v] rest IH]; simpl; intros seen; [tauto|].
  destruct (Str.mem q seen) eqn:E; [apply IH|].
  simpl. intros [<-|H].
  - now apply str_mem_not_In.
  - intros Hp. apply (IH _ H). now right.
Qed.

Lemma first_values_NoDup seen merged :
  NoDup (map fst (Spec.first_values seen merged)).
Proof.
  revert seen. induction merged as [|[q v] rest IH]; simpl; intros seen;
    [constructor|].
  destruct (Str.mem q seen); [apply IH|].
  simpl. constructor; [|apply IH].
  intros H. apply first_values_fresh in H. apply H. now left.
Qed.

Lemma fresh_categories category (entries : FeatureMatcher.features) :
  Dict.get category
    (fold_left (fun m category => Dict.set category [] m)
               FeatureMatcher.expected_categories [])
  = Some entries ->
  entries = [].
Proof.
  intros H. apply dict_get_In in H.
  assert (forallb (fun x : string * FeatureMatcher.features =>
                     match snd x with [] => true | _ => false end)
            (fold_left (fun m category => Dict.set category [] m)
                       FeatureMatcher.expected_categories []) = true) as Hall
      by reflexivity.
  rewrite forallb_forall in Hall. specialize (Hall _ H). simpl in Hall.
  now destruct entries.
Qed.

Lemma matched_values_origin
    (products_data : list product) (m : Dict.t FeatureMatcher.features)
    (category label : string) (entries : FeatureMatcher.features)
    (values : list FeatureMatcher.contribution) :
  FeatureMatcher.match_features products_data = Ok m ->
  Dict.get category m = Some entries ->
  In (label, values) entries ->
  NoDup (map fst values)
  /\ forall product_name value,
       In (product_name, value) values ->
       exists i p flat_label,
         In (i, p) (enumerate products_data)
         /\ product_name = display_name i p
         /\ In (flat_label, value) (FeatureMatcher.flatten (specs_of p))
         /\ FeatureMatcher._categorize_feature flat_label = category.
Proof.
  intros Hm Hget Hin.
  unfold FeatureMatcher.match_features, FeatureMatcher.match_features_with in Hm.
  destruct products_data as [|p0 ps]; [injection Hm as <-; discriminate|].
  set (products_data := p0 :: ps) in *.
  destruct (categorize_all_grouped (FeatureMatcher.extract_all products_data))
    as [N Hwf].
  destruct (in_dec string_dec category
              (Dict.keys (FeatureMatcher.categorize_all
                            (FeatureMatcher.extract_all products_data))))
    as [Hc|Hc].
  - apply in_map_iff in Hc as ([c feats] & Ec & Hc). simpl in Ec. subst c.
    rewrite (@category_loop_clusters _ similarity_sym _ N Hwf _ m
               (fun c v _ => @fresh_categories c v) Hm category feats Hc) in Hget.
    injection Hget as <-.
    apply in_map_iff in Hin as (cluster & [= <- <-] & Hcluster).
    split; [apply first_values_NoDup|].
    intros product_name value Hv. apply first_values_In in Hv.
    assert (exists l,
               In (product_name, value) (FeatureMatcher.contributions_of feats l))
      as [l Hv'].
    { unfold FeatureMatcher.merged_values_of, Spec.labels_of in Hv. simpl in Hv.
      apply in_app_or in Hv as [Hv|Hv]; [eauto|].
      apply in_flat_map in Hv as (l & _ & Hv). eauto. }
    clear Hv. rename Hv' into Hv.
    unfold FeatureMatcher.contributions_of in Hv.
    destruct (Dict.get l feats) as [contributions|] eqn:G; [|destruct Hv].
    apply dict_get_In in G.
    destruct (categorize_all_origin _ _ _ _ _ _ _ Hc G Hv)
      as (flat & Hflat & Hl & Hcat).
    apply extract_all_origin in Hflat as (i & p & Hip & -> & ->).
    now exists i, p, l.
  - rewrite (category_loop_other _ _ category Hc _ Hm) in Hget.
    apply fresh_categories in Hget. subst. destruct Hin.
Qed.

(** X5: under a canonical label of a result of [match_features] every
    product appears at most once, and every value found there was given by
    the product of that display name for a label of that category. *)
Theorem matched_values_unique_and_given
    (products_data : list product) (m : Dict.t FeatureMatcher.features)
    (category label : string) (entries : FeatureMatcher.features)
    (values : list FeatureMatcher.contribution) :
  FeatureMatcher.match_features products_data = Ok m ->
  Dict.get category m = Some entries ->
  In (label, values) entries ->
  NoDup (map fst values)
  /\ forall product_name value,
       In (product_name, value) values ->
       exists i p flat_label,
         In (i, p) (enumerate products_data)
         /\ product_name = display_name i p
         /\ In (flat_label, value) (FeatureMatcher.flatten (specs_of p))
         /\ FeatureMatcher._categorize_feature flat_label = category.
Proof. apply matched_values_origin. Qed.

Lemma matched_values_unique_and_given_two_laptops :
  NoDup (map fst [ ("Laptop A", VStr "8GB"); ("Laptop B", VStr "12GB") ])
  /\ forall product_name value,
       In (product_name, value)
          [ ("Laptop A", VStr "8GB"); ("Laptop B", VStr "12GB") ] ->
       exists i p flat_label,
         In (i, p) (enumerate two_laptops)
         /\ product_name = display_name i p
         /\ In (flat_label, value) (FeatureMatcher.flatten (specs_of p))
         /\ FeatureMatcher._categorize_feature flat_label = "memory".
Proof.
  eapply (@matched_values_unique_and_given two_laptops _ "memory" "memory - RAM").
  - vm_compute. reflexivity.
  - vm_compute. reflexivity.
  - left. reflexivity.
Defined.

(* ================================================================== *)
(** ** Normalized values and their units *)

Lemma normalize_shape value category :
  UnitConverter.normalize_for_comparison value category = (None, None)
  \/ exists s x u,
       value = VStr s
       /\ UnitConverter.normalize_for_comparison value category = (Some x, Some u)
       /\ Float.is_nan x = false.
Proof.
  destruct (UnitConverter.normalize_for_comparison value category) as [[x|] u] eqn:E.
  - right. pose proof (normalize_not_nan _ _ E) as Hx.
    unfold UnitConverter.normalize_for_comparison in E.
    destruct value as [s| | |]; try discriminate.
    destruct (UnitConverter.extract_value_and_unit (VStr s) category)
      as [[v|] [w|]]; try discriminate.
    + destruct (UnitConverter.convert_to_base_unit v w category) as [v' u'].
      injection E as <- <-. now exists s, v', u'.
    + injection E as <- <-. do 3 eexists. repeat split; eauto.
  - left. unfold UnitConverter.normalize_for_comparison in E.
    destruct (UnitConverter.extract_value_and_unit value category)
      as [[v|] [w|]]; try (injection E as <-; reflexivity).
    + destruct (UnitConverter.convert_to_base_unit v w category). discriminate.
    + discriminate.
Qed.

(** X6: [normalize_for_comparison] gives a number and a unit together, or
    neither; it gives a number only for a string, and the number is never
    NaN. *)
Theorem normalize_number_with_unit (value : pyval) (category : string) :
  UnitConverter.normalize_for_comparison value category = (None, None)
  \/ exists s x u,
       value = VStr s
       /\ UnitConverter.normalize_for_comparison value category = (Some x, Some u)
       /\ Float.is_nan x = false.
Proof. apply normalize_shape. Qed.

Lemma search_value_unit_token units s x u :
  UnitConverter.search_value_unit (UnitConverter.match_unit_of units) s = Some (x, u) ->
  In u units.
Proof.
  assert (forall s,
             UnitConverter.match_value_unit (UnitConverter.match_unit_of units) s
             = Some (x, u) -> In u units) as Hhere.
  { intros s0. unfold UnitConverter.match_value_unit.
    destruct (UnitConverter.match_number s0) as [[[whole frac] rest]|]; [|discriminate].
    destruct (UnitConverter.match_unit_of units _) as [t|] eqn:F; [|discriminate].
    intros [= _ <-]. unfold UnitConverter.match_unit_of in F.
    now apply find_some in F. }
  induction s as [|ch s IH]; cbn [UnitConverter.search_value_unit].
  - destruct (UnitConverter.match_value_unit _ "") as [r|] eqn:E; [|discriminate].
    intros [= ->]. eauto.
  - destruct (UnitConverter.match_value_unit _ (String ch s)) as [r|] eqn:E.
    + intros [= ->]. eauto.
    + assumption.
Qed.

Lemma dict_get_map (V W : Type) (g : V -> W) (d : Dict.t V) k :
  Dict.get k (map (fun '(c, v) => (c, g v)) d) = option_map g (Dict.get k d).
Proof.
  induction d as [|[c v] d IH]; simpl; [reflexivity|].
  destruct (String.eqb k c); [reflexivity | assumption].
Qed.

Lemma normalize_base_unit
    (value : pyval) (category : string) (factors : Dict.t Float.t)
    (x : Float.t) (u : option string) :
  Dict.get category UnitConverter.conversion_factors = Some factors ->
  UnitConverter.normalize_for_comparison value category = (Some x, u) ->
  u <> None /\ u = Dict.get category UnitConverter.base_units.
Proof.
  intros Hc.
  assert (exists base, Dict.get category UnitConverter.base_units = Some base)
    as [base Hbase].
  { apply dict_get_In in Hc. simpl in Hc.
    repeat (destruct Hc as [Hc|Hc]; [injection Hc as <- _; eexists; reflexivity|]).
    destruct Hc. }
  unfold UnitConverter.normalize_for_comparison,
    UnitConverter.extract_value_and_unit.
  destruct value as [s| | |]; try discriminate.
  unfold UnitConverter.value_unit_patterns.
  rewrite (dict_get_map
             (fun units : Dict.t Float.t =>
                UnitConverter.search_value_unit
                  (UnitConverter.match_unit_of (Dict.keys units)))).
  rewrite Hc. cbn [option_map].
  destruct (UnitConverter.search_value_unit _ s) as [[v w]|] eqn:E.
  - apply search_value_unit_token in E. apply dict_get_keys in E.
    unfold UnitConverter.convert_to_base_unit. rewrite Hc, Hbase.
    destruct (Dict.get w factors); [|congruence].
    intros [= _ <-]. split; [discriminate | reflexivity].
  - destruct (UnitConverter.search_number s); [|discriminate].
    rewrite Hbase. intros [= _ <-]. split; [discriminate | reflexivity].
Qed.

(** X7: for a category that has a conversion table, every normalized value
    carries the base unit declared for that category. *)
Theorem normalize_reports_base_unit
    (value : pyval) (category : string) (factors : Dict.t Float.t)
    (x : Float.t) (u : option string) :
  Dict.get category UnitConverter.conversion_factors = Some factors ->
  UnitConverter.normalize_for_comparison value category = (Some x, u) ->
  u <> None /\ u = Dict.get category UnitConverter.base_units.
Proof. apply normalize_base_unit. Qed.

Lemma normalize_reports_base_unit_ounces :
  Some "g" <> None /\ Some "g" = Dict.get "weight" UnitConverter.base_units.
Proof.
  eapply (@normalize_reports_base_unit (VStr "6.2 oz") "weight").
  - reflexivity.
  - vm_compute. reflexivity.
Defined.

(** X8: [is_comparable] holds exactly when [compare_values] gives two
    numbers, and then [compare_values] gives a unit with them; otherwise
    [compare_values] gives nothing at all. *)
Theorem is_comparable_compare_values (value1 value2 : pyval) (category : string) :
  (UnitConverter.is_comparable value1 value2 category = true
   /\ exists x y u,
        UnitConverter.compare_values value1 value2 category
        = (Some x, Some y, Some u))
  \/ (UnitConverter.is_comparable value1 value2 category = false
      /\ UnitConverter.compare_values value1 value2 category = (None, None, None)).
Proof.
  unfold UnitConverter.is_comparable, UnitConverter.compare_values.
  destruct (normalize_shape value1 category) as [E1|(s1 & x & u & _ & E1 & _)];
    rewrite E1; simpl.
  - now right.
  - destruct (normalize_shape value2 category) as [E2|(s2 & y & u' & _ & E2 & _)];
      rewrite E2; simpl.
    + now right.
    + left. split; [reflexivity|]. now exists x, y, u.
Qed.

(* ================================================================== *)
(** ** The best matching key *)

Lemma similarity_not_nan (str1 str2 : string) :
  Float.is_nan (FeatureMatcher._calculate_similarity str1 str2) = false.
Proof.
  unfold FeatureMatcher._calculate_similarity,
    FeatureMatcher._calculate_similarity_in.
  destruct (String.eqb _ _); [reflexivity|].
  destruct (_ || _)%bool; [reflexivity|].
  destruct (FeatureMatcher.set_of _ _); [reflexivity|].
  destruct (FeatureMatcher.set_of _ _); [reflexivity|].
  destruct (0 <? _); [apply of_ratio_not_nan | reflexivity].
Qed.

Lemma geb_order (x y : Float.t) :
  Float.is_nan x = false -> Float.is_nan y = false ->
  Float.geb x y = (y <=? x).
Proof. intros Hx Hy. unfold Float.geb. now rewrite Hx, Hy. Qed.

Section BestMatch.
Variable V : Type.
Variable feature_key : string.

Let sim_to (k : string) : Float.t :=
  FeatureMatcher._calculate_similarity feature_key k.

Let step : option string * Float.t -> string -> option string * Float.t :=
  fun '(best_match, best_similarity) target_key =>
    let similarity := FeatureMatcher._calculate_similarity feature_key target_key in
    if (Float.gtb similarity best_similarity
        && Float.geb similarity FeatureMatcher.similarity_threshold)%bool
    then (Some target_key, similarity)
    else (best_match, best_similarity).

(** What the scan knows after the keys [seen]. *)
Let scanned (seen : list string) (state : option string * Float.t) : Prop :=
  match fst state with
  | Some k =>
      In k seen /\ sim_to k = snd state
      /\ FeatureMatcher.similarity_threshold <= snd state
      /\ forall k', In k' seen -> sim_to k' <= snd state
  | None =>
      snd state = 0
      /\ forall k', In k' seen -> sim_to k' < FeatureMatcher.similarity_threshold
  end.

Lemma scan_step seen state target_key :
  scanned seen state -> scanned (seen ++ [target_key]) (step state target_key).
Proof.
  destruct state as [best_match best_similarity]. unfold scanned, step. simpl.
  fold (sim_to target_key).
  pose proof (similarity_not_nan feature_key target_key) as Hs.
  fold (sim_to target_key) in Hs.
  assert (Float.is_nan FeatureMatcher.similarity_threshold = false) as Ht
      by reflexivity.
  assert (0 < FeatureMatcher.similarity_threshold) as Htpos by reflexivity.
  intros H.
  assert (Float.is_nan best_similarity = false) as Hb.
  { destruct best_match as [k|].
    - destruct H as (_ & <- & _). apply similarity_not_nan.
    - destruct H as [-> _]. reflexivity. }
  unfold Float.gtb. rewrite (ltb_order _ _ Hb Hs), (geb_order _ _ Hs Ht).
  destruct (best_similarity <? sim_to target_key) eqn:E1;
    destruct (FeatureMatcher.similarity_threshold <=? sim_to target_key) eqn:E2;
    simpl;
    try apply Z.ltb_lt in E1; try apply Z.ltb_ge in E1;
    try apply Z.leb_le in E2; try apply Z.leb_gt in E2.
  - (* a better key *)
    split; [apply in_or_app; right; now left|].
    split; [reflexivity|]. split; [assumption|].
    intros k' Hk'. apply in_app_or in Hk' as [Hk'|[<-|[]]]; [|lia].
    destruct best_match as [k|].
    + destruct H as (_ & _ & _ & H). specialize (H k' Hk'). lia.
    + destruct H as [_ H]. specialize (H k' Hk'). lia.
  - destruct best_match as [k|].
    + destruct H as (_ & _ & H & _). lia.
    + destruct H as [-> H]. split; [reflexivity|].
      intros k' Hk'. apply in_app_or in Hk' as [Hk'|[<-|[]]]; auto.
  - destruct best_match as [k|].
    + destruct H as (H1 & H2 & H3 & H4).
      split; [apply in_or_app; now left|]. split; [assumption|].
      split; [assumption|].
      intros k' Hk'. apply in_app_or in Hk' as [Hk'|[<-|[]]]; auto.
    + destruct H as [-> H]. lia.
  - destruct best_match as [k|].
    + destruct H as (H1 & H2 & H3 & H4).
      split; [apply in_or_app; now left|]. split; [assumption|].
      split; [assumption|].
      intros k' Hk'. apply in_app_or in Hk' as [Hk'|[<-|[]]]; auto.
    + destruct H as [-> H]. split; [reflexivity|].
      intros k' Hk'. apply in_app_or in Hk' as [Hk'|[<-|[]]]; auto.
Qed.

Lemma scan_all (l : list string) :
  forall seen state,
    scanned seen state -> scanned (seen ++ l) (fold_left step l state).
Proof.
  induction l as [|k l IH]; simpl; intros seen state H.
  - now rewrite app_nil_r.
  - replace (seen ++ k :: l) with ((seen ++ [k]) ++ l)
      by now rewrite <- app_assoc.
    apply IH. now apply scan_step.
Qed.

Lemma find_matching_scanned (target_features : Dict.t V) :
  match FeatureMatcher._find_matching_feature feature_key target_features with
  | Some k =>
      In k (Dict.keys target_features)
      /\ FeatureMatcher.similarity_threshold <= sim_to k
      /\ forall k', In k' (Dict.keys target_features) -> sim_to k' <= sim_to k
  | None =>
      forall k', In k' (Dict.keys target_features) ->
        sim_to k' < FeatureMatcher.similarity_threshold
  end.
Proof.
  assert (scanned [] (None, 0)) as H0 by (split; [reflexivity | intros ? []]).
  pose proof (scan_all (Dict.keys target_features) [] (None, 0) H0) as H.
  simpl in H. unfold FeatureMatcher._find_matching_feature.
  match goal with
  | |- context [fold_left ?f _ _] => change f with step
  end.
  destruct (fold_left step (Dict.keys target_features) (None, 0))
    as [best_match best_similarity].
  unfold scanned in H. simpl in *.
  destruct best_match as [k|].
  - destruct H as (H1 & H2 & H3 & H4). rewrite H2. auto.
  - destruct H as [_ H]. exact H.
Qed.

End BestMatch.

(** X9: [_find_matching_feature] returns a key of the target features
    whose similarity to the given key reaches the threshold and which no
    other key exceeds; it returns [None] exactly when no key reaches the
    threshold. *)
Theorem find_matching_feature_best (V : Type) (feature_key : string)
    (target_features : Dict.t V) :
  match FeatureMatcher._find_matching_feature feature_key target_features with
  | Some k =>
      In k (Dict.keys target_features)
      /\ Float.geb (FeatureMatcher._calculate_similarity feature_key k)
           FeatureMatcher.similarity_threshold = true
      /\ forall k',
           In k' (Dict.keys target_features) ->
           Float.gtb (FeatureMatcher._calculate_similarity feature_key k')
             (FeatureMatcher._calculate_similarity feature_key k) = false
  | None =>
      forall k',
        In k' (Dict.keys target_features) ->
        Float.geb (FeatureMatcher._calculate_similarity feature_key k')
          FeatureMatcher.similarity_threshold = false
  end.
Proof.
  pose proof (find_matching_scanned feature_key target_features) as H.
  assert (Float.is_nan FeatureMatcher.similarity_threshold = false) as Ht
      by reflexivity.
  destruct (FeatureMatcher._find_matching_feature feature_key target_features)
    as [k|].
  - destruct H as (H1 & H2 & H3). split; [assumption|]. split.
    + rewrite geb_order by (apply similarity_not_nan || assumption).
      now apply Z.leb_le.
    + intros k' Hk'. unfold Float.gtb.
      rewrite ltb_order by apply similarity_not_nan.
      apply Z.ltb_ge. auto.
  - intros k' Hk'.
    rewrite geb_order by (apply similarity_not_nan || assumption).
    apply Z.leb_gt. auto.
Qed.

(* ================================================================== *)
(** ** The shape of a feature matrix *)

Lemma dict_get_absent (V : Type) (d : Dict.t V) k :
  ~ In k (Dict.keys d) -> Dict.get k d = None.
Proof.
  intros H. destruct (Dict.get k d) eqn:G; [|reflexivity].
  exfalso. apply H. apply dict_get_keys. congruence.
Qed.

Lemma dict_get_last (V : Type) (d : Dict.t V) k v :
  ~ In k (Dict.keys d) -> Dict.get k (d ++ [(k, v)]) = Some v.
Proof.
  induction d as [|[k0 v0] d IH]; simpl; intros H.
  - now rewrite String.eqb_refl.
  - destruct (String.eqb k k0) eqn:E.
    + apply String.eqb_eq in E. subst. tauto.
    + apply IH. tauto.
Qed.

Lemma dict_set_last (V : Type) (d : Dict.t V) k v v' :
  ~ In k (Dict.keys d) -> Dict.set k v' (d ++ [(k, v)]) = d ++ [(k, v')].
Proof.
  induction d as [|[k0 v0] d IH]; simpl; intros H.
  - now rewrite String.eqb_refl.
  - destruct (String.eqb k k0) eqn:E.
    + apply String.eqb_eq in E. subst. tauto.
    + f_equal. apply IH. tauto.
Qed.

Lemma dict_get_map_value (V W : Type) (g : string -> V -> W) (d : Dict.t V) k :
  Dict.get k (map (fun '(c, v) => (c, g c v)) d)
  = option_map (g k) (Dict.get k d).
Proof.
  induction d as [|[c v] d IH]; simpl; [reflexivity|].
  destruct (String.eqb k c) eqn:E; [|assumption].
  apply String.eqb_eq in E. now subst.
Qed.

(** The entries of the features of one category. *)
Lemma matrix_features category (feats : FeatureMatcher.features) :
  forall (done : Dict.t entry) (matrix : feature_matrix),
    ~ In category (Dict.keys matrix) ->
    NoDup (Dict.keys done ++ Dict.keys feats) ->
    fold_left
      (fun matrix '(feature_key, product_values) =>
         let in_category := match Dict.get category matrix with
                            | Some m => m
                            | None => []
                            end in
         Dict.set category
           (Dict.set feature_key
              (MatrixGenerator.entry_of category feature_key product_values)
              in_category)
           matrix)
      feats (matrix ++ [(category, done)])
    = matrix
        ++ [(category,
             done ++ map (fun '(feature_key, product_values) =>
                            (feature_key,
                             MatrixGenerator.entry_of category feature_key
                               product_values))
                         feats)].
Proof.
  induction feats as [|[feature_key pv] rest IH]; intros done matrix Hc N;
    cbn [fold_left map].
  - now rewrite app_nil_r.
  - match goal with
    | |- context [@Dict.get ?V ?k ?d] =>
        replace (@Dict.get V k d) with (Some done)
          by (symmetry; apply dict_get_last; exact Hc)
    end.
    cbv beta iota zeta.
    match goal with
    | |- context [@Dict.set ?V category ?x (matrix ++ ?l)] =>
        replace (@Dict.set V category x (matrix ++ l))
          with (matrix ++ [(category, x)])
          by (symmetry; apply dict_set_last; exact Hc)
    end.
    rewrite dict_set_absent.
    + rewrite IH; [now rewrite <- app_assoc | assumption|].
      unfold Dict.keys. rewrite map_app. simpl. now rewrite <- app_assoc.
    + apply NoDup_remove_2 in N. intros H. apply N, in_or_app. now left.
Qed.

Lemma matrix_categories (matched : Dict.t FeatureMatcher.features) :
  forall matrix : feature_matrix,
    NoDup (Dict.keys matrix ++ Dict.keys matched) ->
    (forall c f, In (c, f) matched -> NoDup (Dict.keys f)) ->
    fold_left
      (fun matrix '(category, feats) =>
         fold_left
           (fun matrix '(feature_key, product_values) =>
              let in_category := match Dict.get category matrix with
                                 | Some m => m
                                 | None => []
                                 end in
              Dict.set category
                (Dict.set feature_key
                   (MatrixGenerator.entry_of category feature_key product_values)
                   in_category)
                matrix)
           feats (Dict.set category [] matrix))
      matched matrix
    = matrix
        ++ map (fun '(category, feats) =>
                  (category,
                   map (fun '(feature_key, product_values) =>
                          (feature_key,
                           MatrixGenerator.entry_of category feature_key
                             product_values))
                       (feats : FeatureMatcher.features)))
               matched.
Proof.
  induction matched as [|[category feats] rest IH]; intros matrix N Hwf;
    cbn [fold_left map].
  - now rewrite app_nil_r.
  - assert (~ In category (Dict.keys matrix)) as Hc.
    { apply NoDup_remove_2 in N. intros H. apply N, in_or_app. now left. }
    assert (NoDup (Dict.keys feats)) as Nf
        by (apply (Hwf category feats); now left).
    match goal with
    | |- fold_left ?F rest ?start = _ =>
        replace start
          with (matrix
                  ++ [(category,
                       map (fun '(feature_key, product_values) =>
                              (feature_key,
                               MatrixGenerator.entry_of category feature_key
                                 product_values))
                           feats)])
    end.
    + etransitivity.
      * apply IH.
        -- unfold Dict.keys. rewrite map_app. simpl. now rewrite <- app_assoc.
        -- intros c f H. apply (Hwf c f). now right.
      * now rewrite <- app_assoc.
    + symmetry. etransitivity; [|apply (matrix_features category feats [] matrix Hc Nf)].
      f_equal. now apply dict_set_absent.
Qed.

(** X10: for matched features without repeated categories or labels, the
    feature matrix has the same categories and, under each, the same
    labels, in the same order; the dictionary of a label is built from its
    contributions. *)
Theorem generate_feature_matrix_shape (matched : Dict.t FeatureMatcher.features) :
  NoDup (Dict.keys matched) ->
  (forall category feats, In (category, feats) matched -> NoDup (Dict.keys feats)) ->
  MatrixGenerator.generate_feature_matrix matched
  = map (fun '(category, feats) =>
           (category,
            map (fun '(feature_key, product_values) =>
                   (feature_key,
                    MatrixGenerator.entry_of category feature_key product_values))
                (feats : FeatureMatcher.features)))
        matched.
Proof.
  intros N Hwf. exact (matrix_categories matched [] N Hwf).
Qed.

Lemma generate_feature_matrix_shape_display :
  MatrixGenerator.generate_feature_matrix
    [ ("display", [ ("display - Size", [ ("A", VStr "15 inch") ]) ]);
      ("other", []) ]
  = [ ("display",
        [ ("display - Size",
            MatrixGenerator.entry_of "display" "display - Size"
              [ ("A", VStr "15 inch") ]) ]);
      ("other", []) ].
Proof.
  apply (generate_feature_matrix_shape
           [ ("display", [ ("display - Size", [ ("A", VStr "15 inch") ]) ]);
             ("other", []) ]).
  - repeat constructor; simpl; intuition discriminate.
  - intros category feats [[= <- <-]|[[= <- <-]|[]]]; repeat constructor; simpl; tauto.
Defined.

(* ================================================================== *)
(** ** The cells of a feature *)

Lemma product_cells (product_values : list (string * pyval)) :
  NoDup (map fst product_values) ->
  fold_left
    (fun (e : entry) '(product_name, value) => Dict.set product_name (Value value) e)
    product_values []
  = map (fun '(product_name, value) => (product_name, Value value)) product_values.
Proof.
  intros N.
  pose (g := fun x : string * pyval => (fst x, Value (snd x))).
  assert (forall l (e : entry),
             fold_left
               (fun (e : entry) '(product_name, value) =>
                  Dict.set product_name (Value value) e) l e
             = fold_left (fun d x => Dict.set (fst (g x)) (snd (g x)) d) l e) as E.
  { induction l as [|[p v] l IH]; simpl; intros e; [reflexivity | apply IH]. }
  rewrite E. etransitivity; [apply (fold_set_distinct g)|].
  - simpl. exact N.
  - simpl. apply map_ext. now intros [p v].
Qed.

Lemma entry_of_get_product category feature_key product_values product :
  NoDup (map fst product_values) ->
  product <> "_comparison" ->
  Dict.get product (MatrixGenerator.entry_of category feature_key product_values)
  = option_map Value (Dict.get product product_values).
Proof.
  intros N Hp. unfold MatrixGenerator.entry_of.
  match goal with
  | |- context [fold_left ?f product_values ?z] =>
      replace (fold_left f product_values z)
        with (map (fun '(product_name, value) => (product_name, Value value))
                  product_values)
        by (symmetry; exact (@product_cells product_values N))
  end.
  destruct (MatrixGenerator.annotation_of _ _ _);
    [rewrite dict_get_set_other by assumption|]; apply (dict_get_map Value).
Qed.

Lemma entry_of_get_comparison category feature_key product_values :
  NoDup (map fst product_values) ->
  ~ In "_comparison" (map fst product_values) ->
  Dict.get "_comparison"
    (MatrixGenerator.entry_of category feature_key product_values)
  = option_map Comparison
      (MatrixGenerator.annotation_of category feature_key product_values).
Proof.
  intros N Hc. unfold MatrixGenerator.entry_of.
  match goal with
  | |- context [fold_left ?f product_values ?z] =>
      replace (fold_left f product_values z)
        with (map (fun '(product_name, value) => (product_name, Value value))
                  product_values)
        by (symmetry; exact (@product_cells product_values N))
  end.
  destruct (MatrixGenerator.annotation_of _ _ _); simpl.
  - apply dict_get_set_same.
  - rewrite (dict_get_map Value). now rewrite (@dict_get_absent _ _ _ Hc).
Qed.

(** X11: the renderer reads back what the matrix stored for a feature whose
    contributions name every product once and none [_comparison]: the cell
    of a product shows its value, "N/A" when it gave none, in bold exactly
    when the feature has an annotation whose best product it is; and the
    highlight of the feature is the one of its annotation, none for a
    feature without annotation. *)
Theorem rendering_reads_entry
    (category feature_key product : string)
    (product_values : list (string * pyval)) :
  NoDup (map fst product_values) ->
  ~ In "_comparison" (map fst product_values) ->
  product <> "_comparison" ->
  Render.table_cell
    (MatrixGenerator.entry_of category feature_key product_values) product
  = Ok (let value := match Dict.get product product_values with
                     | Some v => Value v
                     | None => Value (VStr "N/A")
                     end in
        match MatrixGenerator.annotation_of category feature_key product_values with
        | Some a =>
            if String.eqb (best_product a) product
            then Value (VStr ("**" ++ Render.format_cell value ++ "**"))
            else value
        | None => value
        end)
  /\ Render.highlight_of feature_key
       (MatrixGenerator.entry_of category feature_key product_values)
     = Ok match MatrixGenerator.annotation_of category feature_key product_values with
          | Some a =>
              let u := match unit a with Some u => u | None => "None" end in
              match comparison_type a with
              | higher_better =>
                  [ ("- **" ++ best_product a ++ "** has the highest "
                       ++ Str.lower feature_key ++ " (" ++ u ++ ")")%string ]
              | lower_better =>
                  [ ("- **" ++ best_product a ++ "** has the lowest "
                       ++ Str.lower feature_key ++ " (" ++ u ++ ")")%string ]
              | neutral => []
              end
          | None => []
          end.
Proof.
  intros N Hc Hp. unfold Render.table_cell, Render.highlight_of.
  rewrite (@entry_of_get_product category feature_key _ _ N Hp).
  rewrite (@entry_of_get_comparison category feature_key _ N Hc).
  split.
  - destruct (MatrixGenerator.annotation_of _ _ _) as [a|]; simpl.
    + destruct (Dict.get product product_values); simpl;
        destruct (String.eqb (best_product a) product); reflexivity.
    + destruct (Dict.get product product_values); reflexivity.
  - destruct (MatrixGenerator.annotation_of _ _ _) as [a|]; simpl; [|reflexivity].
    destruct (comparison_type a); reflexivity.
Qed.

Lemma rendering_reads_entry_memory :
  Render.table_cell
    (MatrixGenerator.entry_of "memory" "memory - RAM"
       [ ("Laptop A", VStr "8GB"); ("Laptop B", VStr "12GB") ]) "Laptop C"
  = Ok (let value := match Dict.get "Laptop C"
                             [ ("Laptop A", VStr "8GB"); ("Laptop B", VStr "12GB") ] with
                     | Some v => Value v
                     | None => Value (VStr "N/A")
                     end in
        match MatrixGenerator.annotation_of "memory" "memory - RAM"
                [ ("Laptop A", VStr "8GB"); ("Laptop B", VStr "12GB") ] with
        | Some a =>
            if String.eqb (best_product a) "Laptop C"
            then Value (VStr ("**" ++ Render.format_cell value ++ "**"))
            else value
        | None => value
        end)
  /\ Render.highlight_of "memory - RAM"
       (MatrixGenerator.entry_of "memory" "memory - RAM"
          [ ("Laptop A", VStr "8GB"); ("Laptop B", VStr "12GB") ])
     = Ok match MatrixGenerator.annotation_of "memory" "memory - RAM"
                  [ ("Laptop A", VStr "8GB"); ("Laptop B", VStr "12GB") ] with
          | Some a =>
              let u := match unit a with Some u => u | None => "None" end in
              match comparison_type a with
              | higher_better =>
                  [ ("- **" ++ best_product a ++ "** has the highest "
                       ++ Str.lower "memory - RAM" ++ " (" ++ u ++ ")")%string ]
              | lower_better =>
                  [ ("- **" ++ best_product a ++ "** has the lowest "
                       ++ Str.lower "memory - RAM" ++ " (" ++ u ++ ")")%string ]
              | neutral => []
              end
          | None => []
          end.
Proof.
  apply rendering_reads_entry.
  - repeat constructor; simpl; intuition discriminate.
  - simpl. intuition discriminate.
  - discriminate.
Defined.

(* ================================================================== *)
(** ** Reports for products whose values are strings *)

Lemma dict_In_get (V : Type) (d : Dict.t V) k v :
  NoDup (Dict.keys d) -> In (k, v) d -> Dict.get k d = Some v.
Proof.
  induction d as [|[k0 v0] d IH]; simpl; intros N; [tauto|].
  inversion N as [|? ? Hk0 Nd]; subst. intros [[= -> ->]|H].
  - now rewrite String.eqb_refl.
  - destruct (String.eqb k k0) eqn:E; [|auto].
    apply String.eqb_eq in E. subst. exfalso. apply Hk0.
    apply in_map_iff. now exists (k0, v).
Qed.

Lemma expected_categories_NoDup : NoDup FeatureMatcher.expected_categories.
Proof.
  assert (nodup string_dec FeatureMatcher.expected_categories
          = FeatureMatcher.expected_categories) as <- by reflexivity.
  apply NoDup_nodup.
Qed.

Lemma enumerate_In (A : Type) (l : list A) i x :
  In (i, x) (enumerate l) -> In x l.
Proof.
  unfold enumerate. generalize 0%nat.
  induction l as [|y l IH]; simpl; intros n; [tauto|].
  intros [[= _ <-]|H]; [now left | right; eauto].
Qed.

Lemma display_name_plain i p :
  plain_name p = true -> display_name i p <> "_comparison".
Proof.
  unfold plain_name, display_name. destruct (product_name p) as [n|].
  - intros H. apply negb_true_iff in H. now apply String.eqb_neq.
  - intros _. discriminate.
Qed.

(** The contributions of a result of [match_features] for such products. *)
Lemma matched_string_values products_data m category feats label product_values :
  forallb all_strings products_data = true ->
  forallb plain_name products_data = true ->
  FeatureMatcher.match_features products_data = Ok m ->
  In (category, feats) m ->
  In (label, product_values) feats ->
  string_values product_values.
Proof.
  intros Hstr Hname Hm Hc Hl.
  assert (Dict.get category m = Some feats) as Hget.
  { apply dict_In_get; [|assumption].
    unfold FeatureMatcher.match_features in Hm.
    apply match_features_with_keys in Hm. rewrite Hm.
    destruct products_data; [constructor | apply expected_categories_NoDup]. }
  destruct (@matched_values_origin _ _ _ _ _ _ Hm Hget Hl) as [_ Horigin].
  intros product_name value Hv.
  destruct (Horigin _ _ Hv) as (i & p & flat_label & Hip & -> & Hflat & _).
  apply enumerate_In in Hip.
  rewrite forallb_forall in Hstr, Hname. split.
  - apply flatten_origin in Hflat as (c & cs & key & Hcs & Hkey & _).
    specialize (Hstr p Hip). unfold all_strings in Hstr.
    rewrite forallb_forall in Hstr. specialize (Hstr _ Hcs). cbv beta iota in Hstr.
    rewrite forallb_forall in Hstr. exact (Hstr _ Hkey).
  - apply display_name_plain. auto.
Qed.

Lemma entry_of_string_cells category feature_key product_values :
  string_values product_values ->
  string_cells (MatrixGenerator.entry_of category feature_key product_values).
Proof.
  intros Hpv.
  assert (forall key c,
             In (key, c)
                (fold_left
                   (fun (e : entry) '(product_name, value) =>
                      Dict.set product_name (Value value) e)
                   product_values []) ->
             key <> "_comparison" /\ exists s, c = Value (VStr s)) as Hbase.
  { apply (fold_left_invariant
             (fun e : entry =>
                forall key c, In (key, c) e ->
                  key <> "_comparison" /\ exists s, c = Value (VStr s)));
      [|intros ? ? []].
    intros e [p v] Hp He key c Hin.
    apply dict_set_In in Hin as [[-> ->]|Hin]; [|now apply He].
    destruct (Hpv p v Hp) as [Hs Hn]. split; [assumption|].
    destruct v; try discriminate. eauto. }
  unfold MatrixGenerator.entry_of, string_cells.
  destruct (MatrixGenerator.annotation_of _ _ _) as [a|]; intros key c Hin.
  - apply dict_set_In in Hin as [[-> ->]|Hin]; [left; eauto|].
    right. now apply Hbase.
  - right. now apply Hbase.
Qed.

Section Rendering.
Variable products : list string.
Hypothesis products_plain : Forall (fun p => p <> "_comparison") products.

Lemma strings_of_row_strings (l : list string) :
  forall index,
    Render.strings_of_row index (map (fun s => Value (VStr s)) l) = Ok l.
Proof.
  induction l as [|s l IH]; simpl; intros index; [reflexivity|].
  now rewrite IH.
Qed.

Lemma table_cell_string (e : entry) product :
  string_cells e ->
  product <> "_comparison" ->
  exists s, Render.table_cell e product = Ok (Value (VStr s)).
Proof.
  intros He Hp. unfold Render.table_cell.
  assert (exists s,
             match Dict.get product e with
             | Some c => c
             | None => Value (VStr "N/A")
             end = Value (VStr s)) as [s ->].
  { destruct (Dict.get product e) as [c|] eqn:G; [|eauto].
    apply dict_get_In in G. destruct (He _ _ G) as [[H _]|[_ H]]; [contradiction|].
    exact H. }
  destruct (Dict.get "_comparison" e) as [c|] eqn:G; [|eauto].
  apply dict_get_In in G. destruct (He _ _ G) as [[_ [a ->]]|[H _]]; [|contradiction].
  simpl. destruct (String.eqb _ _); eauto.
Qed.

Lemma table_cells_strings (e : entry) :
  string_cells e ->
  forall names,
    Forall (fun p => p <> "_comparison") names ->
    exists l,
      Render.table_cells e names = Ok (map (fun s => Value (VStr s)) l).
Proof.
  intros He names Hall. induction Hall as [|p ps Hp Hps IH]; simpl.
  - now exists [].
  - destruct (@table_cell_string e p He Hp) as [s ->]. destruct IH as [l ->].
    simpl. now exists (s :: l).
Qed.

Lemma table_row_returns feature_key (e : entry) :
  string_cells e -> exists line, Render.table_row products feature_key e = Ok line.
Proof.
  intros He. unfold Render.table_row, Render.join_row.
  destruct (@table_cells_strings e He products products_plain) as [l ->]. simpl.
  rewrite strings_of_row_strings. simpl. eauto.
Qed.

Lemma table_rows_return (feats : Dict.t entry) :
  (forall k e, In (k, e) feats -> string_cells e) ->
  exists lines, Render.table_rows products feats = Ok lines.
Proof.
  induction feats as [|[k e] feats IH]; simpl; intros H; [eauto|].
  destruct (@table_row_returns k e (H k e (or_introl eq_refl))) as [line ->].
  destruct IH as [lines ->]; [intros; eapply H; right; eauto|].
  simpl. eauto.
Qed.

Lemma table_categories_return (matrix : feature_matrix) :
  (forall c feats k e, In (c, feats) matrix -> In (k, e) feats -> string_cells e) ->
  exists lines, Render.table_categories products matrix = Ok lines.
Proof.
  induction matrix as [|[c feats] matrix IH]; simpl; intros H; [eauto|].
  destruct IH as [lines Hlines]; [intros; eapply H; [right|]; eauto|].
  destruct feats as [|kv feats]; [eauto|].
  destruct (@table_rows_return (kv :: feats)) as [rows ->].
  { intros k e Hk. apply (H c (kv :: feats) k e); [now left | assumption]. }
  rewrite Hlines. simpl. eauto.
Qed.

Lemma highlight_points_return (matrix : feature_matrix) :
  (forall c feats k e, In (c, feats) matrix -> In (k, e) feats -> string_cells e) ->
  exists points, Render.highlight_points_of matrix = Ok points.
Proof.
  assert (forall k e, string_cells e ->
                      exists h, Render.highlight_of k e = Ok h) as Hone.
  { intros k e He. unfold Render.highlight_of.
    destruct (Dict.get "_comparison" e) as [c|] eqn:G; [|eauto].
    apply dict_get_In in G.
    destruct (He _ _ G) as [[_ [a ->]]|[H _]]; [|contradiction].
    simpl. destruct (comparison_type a); eauto. }
  assert (forall feats : Dict.t entry,
             (forall k e, In (k, e) feats -> string_cells e) ->
             exists h, Render.highlights_of_features feats = Ok h) as Hfeats.
  { induction feats as [|[k e] feats IH]; simpl; intros H; [eauto|].
    destruct (Hone k e (H k e (or_introl eq_refl))) as [h ->].
    destruct IH as [h' ->]; [intros; eapply H; right; eauto|].
    simpl. eauto. }
  induction matrix as [|[c feats] matrix IH]; simpl; intros H; [eauto|].
  destruct (Hfeats feats) as [h ->].
  { intros k e Hk. apply (H c feats k e); [now left | assumption]. }
  destruct IH as [points ->]; [intros; eapply H; [right|]; eauto|].
  simpl. eauto.
Qed.

Lemma section_contents_return (matrix : feature_matrix) comparison_date sections :
  (forall c feats k e, In (c, feats) matrix -> In (k, e) feats -> string_cells e) ->
  exists contents,
    Render.section_contents products matrix comparison_date sections = Ok contents.
Proof.
  intros H.
  assert (exists t, Render._generate_comparison_matrix matrix products = Ok t)
    as [table Htable].
  { unfold Render._generate_comparison_matrix, Render.generate_markdown_table.
    destruct (@table_categories_return matrix H) as [lines Hlines].
    destruct matrix; [simpl; eauto|].
    destruct products; [simpl; eauto|].
    rewrite Hlines. simpl. eauto. }
  assert (exists t, Render._generate_feature_highlights matrix = Ok t)
    as [highlights Hhighlights].
  { unfold Render._generate_feature_highlights.
    destruct (@highlight_points_return matrix H) as [points ->]. simpl. eauto. }
  induction sections as [|section rest [contents IH]]; [simpl; eauto|].
  cbn [Render.section_contents]. rewrite IH, Htable, Hhighlights.
  destruct (negb _); [eauto|].
  destruct (String.eqb section "comparison_matrix"); [simpl; eauto|].
  destruct (String.eqb section "header"); [simpl; eauto|].
  destruct (String.eqb section "introduction"); [simpl; eauto|].
  destruct (String.eqb section "feature_highlights"); [simpl; eauto|].
  destruct (String.eqb section "conclusion"); simpl; eauto.
Qed.

End Rendering.

Lemma match_features_vocabulary (products_data : list product) :
  forallb within_vocabulary products_data = true ->
  exists m, FeatureMatcher.match_features products_data = Ok m.
Proof.
  intros H. apply vocabulary_categories in H.
  unfold FeatureMatcher.match_features, FeatureMatcher.match_features_with.
  destruct products_data as [|p ps]; [eauto|].
  apply category_loop_returns. exact H.
Qed.

(** The contents of the default sections: the table and the highlights
    are the two that can raise. *)
Lemma default_section_contents products (matrix : feature_matrix) comparison_date :
  Render.section_contents products matrix comparison_date Render.template_sections
  = (table <- Render._generate_comparison_matrix matrix products ;;
     highlights <- Render._generate_feature_highlights matrix ;;
     Ok [ Render._generate_header products comparison_date;
          Render._generate_introduction products;
          Render._generate_methodology;
          table;
          highlights;
          Render._generate_conclusion ]).
Proof.
  change (Render.section_contents products matrix comparison_date
            Render.template_sections)
    with (l <- (l <- (l <- (table <- Render._generate_comparison_matrix matrix products ;;
                            l <- (highlights <- Render._generate_feature_highlights matrix ;;
                                  l <- Ok [Render._generate_conclusion] ;;
                                  Ok (highlights :: l)) ;;
                            Ok (table :: l)) ;;
                      Ok (Render._generate_methodology :: l)) ;;
                Ok (Render._generate_introduction products :: l)) ;;
          Ok (Render._generate_header products comparison_date :: l)).
  destruct (Render._generate_comparison_matrix matrix products);
    destruct (Render._generate_feature_highlights matrix); reflexivity.
Qed.

(** X12: for a list of products whose specification categories are within
    the vocabulary, whose specification values are all strings and none of
    which is called [_comparison], [compare_products] returns a report:
    no step of the pipeline raises. *)
Theorem compare_products_returns (products_data : list product)
    (comparison_date : string) :
  forallb within_vocabulary products_data = true ->
  forallb all_strings products_data = true ->
  forallb plain_name products_data = true ->
  exists report,
    ComparisonEngine.compare_products (ProductList products_data) comparison_date
    = Ok report.
Proof.
  intros Hvoc Hstr Hname.
  destruct (match_features_vocabulary products_data Hvoc) as [m Hm].
  unfold ComparisonEngine.compare_products, ComparisonEngine.compare_products_with,
    ComparisonEngine.pipeline.
  pose proof Hm as Hm'. unfold FeatureMatcher.match_features in Hm'.
  rewrite Hm'. cbn [bind]. unfold Render.generate_template.
  set (names := map (fun '(i, data) => display_name i data) (enumerate products_data)).
  assert (Forall (fun p => p <> "_comparison") names) as Hnames.
  { apply Forall_forall. intros name Hin.
    apply in_map_iff in Hin as ([i p] & <- & Hip).
    apply enumerate_In in Hip. rewrite forallb_forall in Hname.
    apply display_name_plain. auto. }
  assert (forall c feats k e,
             In (c, feats) (MatrixGenerator.generate_feature_matrix m) ->
             In (k, e) feats -> string_cells e) as Hcells.
  { intros c feats k e Hc Hk.
    destruct (@generate_feature_matrix_from m c feats k e Hc Hk)
      as (feats0 & pv & Hc0 & Hk0 & ->).
    apply entry_of_string_cells.
    exact (@matched_string_values products_data m c feats0 k pv Hstr Hname Hm Hc0 Hk0). }
  destruct (@section_contents_return names Hnames
              (MatrixGenerator.generate_feature_matrix m) comparison_date
              Render.template_sections Hcells) as [contents ->].
  simpl. eauto.
Qed.

Lemma compare_products_returns_two_laptops :
  exists report,
    ComparisonEngine.compare_products (ProductList two_laptops) "2025-01-01"
    = Ok report.
Proof.
  apply (compare_products_returns two_laptops "2025-01-01"); reflexivity.
Defined.

(** X13: a report that [compare_products] returns begins with the header:
    the title line with the display names of the products, the line of the
    comparison date and the rule, followed by the other sections. *)
Theorem compare_products_report_header (products_data : list product)
    (comparison_date report : string) :
  ComparisonEngine.compare_products (ProductList products_data) comparison_date
  = Ok report ->
  exists rest,
    report
    = (Render._generate_header
         (map (fun '(i, data) => display_name i data) (enumerate products_data))
         comparison_date
       ++ Render.newline ++ rest)%string.
Proof.
  unfold ComparisonEngine.compare_products, ComparisonEngine.compare_products_with,
    ComparisonEngine.pipeline.
  destruct (FeatureMatcher.match_features_with _ products_data) as [m|e];
    [|discriminate].
  cbn [bind]. unfold Render.generate_template.
  rewrite default_section_contents.
  destruct (Render._generate_comparison_matrix _ _) as [table|e]; [|discriminate].
  destruct (Render._generate_feature_highlights _) as [highlights|e]; [|discriminate].
  cbn [bind]. intros [= <-]. eexists. reflexivity.
Qed.

Lemma compare_products_report_header_two_laptops :
  exists rest,
    ComparisonEngine.compare_products (ProductList two_laptops) "2025-01-01"
    = Ok (Render._generate_header ["Laptop A"; "Laptop B"] "2025-01-01"
          ++ Render.newline ++ rest)%string.
Proof.
  destruct (ComparisonEngine.compare_products (ProductList two_laptops) "2025-01-01")
    as [report|e] eqn:E.
  - destruct (@compare_products_report_header two_laptops "2025-01-01" report E)
      as [rest ->].
    now exists rest.
  - vm_compute in E. discriminate E.
Defined.

(** X14: names that are no section of the template have no effect on
    [generate_template]: the result, a report or an exception, is that of
    the recognized names alone, in the order given and with repetitions. *)
Theorem generate_template_skips_unknown_sections products (matrix : feature_matrix)
    comparison_date sections :
  Render.generate_template products matrix comparison_date (Some sections)
  = Render.generate_template products matrix comparison_date
      (Some (filter (fun section => Str.mem section Render.template_sections)
                    sections)).
Proof.
  unfold Render.generate_template. f_equal.
  induction sections as [|section rest IH]; [reflexivity|].
  cbn [Render.section_contents filter].
  destruct (Str.mem section Render.template_sections) eqn:E; cbn [negb].
  - cbn [Render.section_contents]. rewrite E. cbn [negb]. now rewrite IH.
  - exact IH.
Qed.

(* ================================================================== *)
(** ** What [compare_products] raises *)

(** X15: whatever goes wrong in the pipeline for a list of products,
    [compare_products] raises a [DataProcessingError] built from the
    exception caught, whose [product_count] is the length of the list. *)
Theorem compare_products_wraps_errors (products_data : list product)
    (comparison_date : string) (e : exn) :
  ComparisonEngine.compare_products (ProductList products_data) comparison_date
  = Raise e ->
  exists cause,
    e = DataProcessingError cause (Z.of_nat (List.length products_data))
    /\ (FeatureMatcher.match_features products_data = Raise cause
        \/ exists m,
             FeatureMatcher.match_features products_data = Ok m
             /\ Render.generate_template
                  (map (fun '(i, data) => display_name i data)
                       (enumerate products_data))
                  (MatrixGenerator.generate_feature_matrix m)
                  comparison_date None
                = Raise cause).
Proof.
  unfold ComparisonEngine.compare_products, ComparisonEngine.compare_products_with,
    ComparisonEngine.pipeline, FeatureMatcher.match_features.
  destruct (FeatureMatcher.match_features_with _ products_data) as [m|c]; cbn [bind].
  - destruct (Render.generate_template _ _ _ _) as [report|c] eqn:E; [discriminate|].
    cbn [ComparisonEngine.py_len bind]. intros [= <-]. exists c.
    split; [reflexivity|]. right. exists m. split; [reflexivity | exact E].
  - cbn [ComparisonEngine.py_len bind]. intros [= <-]. exists c.
    split; [reflexivity | now left].
Qed.

Lemma compare_products_wraps_errors_thermal :
  exists cause,
    ComparisonEngine.compare_products (ProductList thermal_product) ""
    = Raise (DataProcessingError cause 1).
Proof.
  destruct (ComparisonEngine.compare_products (ProductList thermal_product) "")
    as [report|e] eqn:E.
  - vm_compute in E. discriminate E.
  - destruct (@compare_products_wraps_errors thermal_product "" e E)
      as (cause & -> & _).
    now exists cause.
Defined.

(* ================================================================== *)
(** ** The range of the similarity *)

Lemma round_half_even_bound (n d b : Z) :
  0 < d -> n < b * d -> Float.round_half_even n d <= b.
Proof.
  intros Hd Hn. unfold Float.round_half_even.
  assert (n / d < b) by (apply Z.div_lt_upper_bound; lia).
  destruct (2 * (n mod d) ?= d); [destruct (Z.even (n / d))| |]; lia.
Qed.

(** The exponent found for a fraction below one is negative and large
    enough. *)
Lemma ilog2_ratio_below_one (n d : Z) :
  0 < n < d ->
  let e := Float.ilog2_ratio n d in
  e <= -1 /\ n * 2 ^ (- e - 1) < d.
Proof.
  intros [Hn Hnd]. unfold Float.ilog2_ratio.
  destruct (Z.log2_spec n Hn) as [Ln Un].
  destruct (Z.log2_spec d) as [Ld Ud]; [lia|].
  assert (Z.log2 n <= Z.log2 d) as Hle by (apply Z.log2_le_mono; lia).
  pose proof (Z.log2_nonneg n) as Hn0. pose proof (Z.log2_nonneg d) as Hd0.
  set (a := Z.log2 n) in *. set (b := Z.log2 d) in *.
  destruct (0 <=? a - b) eqn:E0.
  - apply Z.leb_le in E0. assert (a - b = 0) as -> by lia.
    replace (d * 2 ^ 0 <=? n) with false by (symmetry; apply Z.leb_gt; lia).
    cbv zeta. split; [lia|]. replace (- (0 - 1) - 1) with 0 by lia. lia.
  - apply Z.leb_gt in E0.
    destruct (d <=? n * 2 ^ (- (a - b))) eqn:E1; cbv zeta.
    + split; [lia|].
      assert (2 ^ (Z.succ a) * 2 ^ (- (a - b) - 1) = 2 ^ b) as Hpow.
      { rewrite <- Z.pow_add_r by lia. f_equal. lia. }
      assert (0 < 2 ^ (- (a - b) - 1)) by (apply Z.pow_pos_nonneg; lia).
      nia.
    + apply Z.leb_gt in E1. split; [lia|].
      replace (- (a - b - 1) - 1) with (- (a - b)) by lia. exact E1.
Qed.

(** A fraction between zero and one rounds to a float between zero and
    one. *)
Lemma of_ratio_unit_range (n d : Z) :
  0 <= n <= d -> 0 < d -> 0 <= Float.of_ratio n d <= Float.of_Z 1.
Proof.
  intros [Hn Hnd] Hd.
  change (Float.of_Z 1) with (1023 * 2 ^ 52).
  unfold Float.of_ratio.
  destruct (n =? 0) eqn:E0; [lia|]. apply Z.eqb_neq in E0.
  cbv zeta.
  destruct (Z.eq_dec n d) as [->|Hneq].
  - assert (Float.ilog2_ratio d d = 0) as ->.
    { unfold Float.ilog2_ratio. rewrite Z.sub_diag. simpl (0 <=? 0).
      cbv iota. replace (d * 2 ^ 0 <=? d) with true; [reflexivity|].
      symmetry. apply Z.leb_le. lia. }
    change (Z.max 0 (-1022)) with 0. change (52 <=? 0) with false. cbv iota.
    assert (Float.round_half_even (d * 2 ^ (52 - 0)) d = 2 ^ 52) as ->.
    { unfold Float.round_half_even.
      replace (d * 2 ^ (52 - 0)) with (2 ^ 52 * d)
        by (change (52 - 0) with 52; lia).
      rewrite Z.mod_mul, Z.div_mul by lia.
      destruct (2 * 0 ?= d) eqn:E; [reflexivity | reflexivity |].
      apply Z.compare_gt_iff in E. lia. }
    unfold Float.inf. lia.
  - destruct (@ilog2_ratio_below_one n d) as [He Hbound]; [lia|].
    set (e0 := Float.ilog2_ratio n d) in *.
    set (e := Z.max e0 (-1022)).
    assert (e0 <= e <= -1) as [He0 He1] by (unfold e; lia).
    replace (52 <=? e) with false by (symmetry; apply Z.leb_gt; lia).
    assert (0 <= Float.round_half_even (n * 2 ^ (52 - e)) d <= 2 ^ 53) as [Hm0 Hm1].
    { assert (0 < 2 ^ (52 - e)) by (apply Z.pow_pos_nonneg; lia).
      split.
      - unfold Float.round_half_even.
        assert (0 <= n * 2 ^ (52 - e) / d) by (apply Z.div_pos; nia).
        destruct (2 * _ ?= d); [destruct (Z.even _)| |]; lia.
      - apply round_half_even_bound; [assumption|].
        assert (2 ^ (52 - e) = 2 ^ 53 * 2 ^ (- e - 1)) as ->.
        { rewrite <- Z.pow_add_r by lia. f_equal. lia. }
        assert (2 ^ (- e - 1) <= 2 ^ (- e0 - 1))
          by (apply Z.pow_le_mono_r; lia).
        assert (0 < 2 ^ 53) by reflexivity.
        nia. }
    assert (-1022 <= e) by (unfold e; lia).
    unfold Float.inf. split.
    + apply Z.min_glb; [lia|]. nia.
    + etransitivity; [apply Z.le_min_r|].
      change (2 ^ 53) with (2 * 2 ^ 52) in Hm1.
      assert (0 < 2 ^ 52) by reflexivity. nia.
Qed.

Lemma similarity_unit_range (str1 str2 : string) :
  0 <= FeatureMatcher._calculate_similarity str1 str2 <= Float.of_Z 1.
Proof.
  unfold FeatureMatcher._calculate_similarity,
    FeatureMatcher._calculate_similarity_in.
  cbv zeta.
  destruct (String.eqb _ _); [split; [discriminate | apply Z.le_refl]|].
  destruct (_ || _)%bool; [split; discriminate|].
  set (w1 := FeatureMatcher.set_of _ _).
  set (w2 := FeatureMatcher.set_of _ _).
  assert (0 <= 0 <= Float.of_Z 1) as Hzero by (split; discriminate).
  destruct w1 as [|x1 l1] eqn:E1; [exact Hzero|].
  destruct w2 as [|x2 l2] eqn:E2; [exact Hzero|].
  rewrite <- E1, <- E2.
  destruct (0 <? _) eqn:Hpos; [|exact Hzero].
  apply Z.ltb_lt in Hpos.
  apply of_ratio_unit_range; [|assumption].
  split; [lia|]. apply Nat2Z.inj_le.
  unfold FeatureMatcher.intersection, FeatureMatcher.union.
  rewrite length_app.
  etransitivity; [apply filter_length_le | lia].
Qed.

(** X16: the similarity of two labels is a number between 0.0 and 1.0,
    both included, as the docstring of [_calculate_similarity] says; it is
    never NaN. *)
Theorem similarity_between_zero_and_one (str1 str2 : string) :
  let similarity := FeatureMatcher._calculate_similarity str1 str2 in
  Float.geb similarity 0 = true
  /\ Float.geb (Float.of_Z 1) similarity = true.
Proof.
  cbv zeta. destruct (similarity_unit_range str1 str2) as [H0 H1].
  unfold Float.geb. rewrite similarity_not_nan.
  split.
  - apply Z.leb_le in H0. now rewrite H0.
  - apply Z.leb_le in H1. now rewrite H1.
Qed.

(* ================================================================== *)
(** ** The annotation of a feature *)

Lemma comparable_values_origin category product_values product_name norm_value unit :
  In (product_name, norm_value, unit)
     (MatrixGenerator.comparable_values_of category product_values) ->
  exists s,
    In (product_name, VStr s) product_values
    /\ UnitConverter.normalize_for_comparison (VStr s) category
       = (Some norm_value, unit).
Proof.
  unfold MatrixGenerator.comparable_values_of. intros H.
  apply in_flat_map in H as ([p v] & Hpv & H).
  destruct v as [s| | |]; try (now destruct H).
  cbn [is_str] in H.
  destruct (UnitConverter.normalize_for_comparison (VStr s) category)
    as [[x|] u] eqn:E; [|destruct H].
  destruct H as [[= -> -> ->]|[]]. now exists s.
Qed.

Lemma comparison_of_best category feature_key first others a :
  MatrixGenerator.comparison_of category feature_key first others = Some a ->
  exists best,
    In best (first :: others)
    /\ best_product a = fst (fst best)
    /\ unit a = snd best
    /\ comparison_type a <> neutral.
Proof.
  assert (In (MatrixGenerator.max_comparable first others) (first :: others))
    as Hmax by apply py_max_by_In.
  assert (In (MatrixGenerator.min_comparable first others) (first :: others))
    as Hmin by apply (py_max_by_In Float.ltb MatrixGenerator.norm_of).
  unfold MatrixGenerator.comparison_of.
  destruct (Str.mem category _); [|destruct (Str.mem category _)];
    destruct (Str.contains "resolution" _);
    try destruct (_ && _)%bool;
    intros H; try discriminate H; injection H as <-;
    cbn [best_product unit comparison_type];
    refine (ex_intro _ _ (conj _ (conj eq_refl (conj eq_refl _))));
    first [assumption | discriminate].
Qed.

(** X17: a feature is annotated only in a category that has a base unit
    and only when more than one product gave it a value; the best product
    of the annotation is a product that gave the feature a string value,
    the annotation is never neutral, and in a category with a conversion
    table its unit is the base unit of the category, whatever the label of
    the feature. *)
Theorem annotation_from_contribution (category feature_key : string)
    (product_values : list (string * pyval)) (a : comparison) :
  MatrixGenerator.annotation_of category feature_key product_values = Some a ->
  (1 < List.length product_values)%nat
  /\ Dict.mem category UnitConverter.base_units = true
  /\ comparison_type a <> neutral
  /\ (exists s, In (best_product a, VStr s) product_values)
  /\ forall factors,
       Dict.get category UnitConverter.conversion_factors = Some factors ->
       unit a = Dict.get category UnitConverter.base_units.
Proof.
  unfold MatrixGenerator.annotation_of.
  destruct (Nat.ltb 1 _) eqn:Hlen; [|discriminate].
  destruct (Dict.mem category UnitConverter.base_units) eqn:Hbase; [|discriminate].
  cbn [andb].
  destruct (MatrixGenerator.comparable_values_of category product_values)
    as [|first [|second others]] eqn:Hvalues; try discriminate.
  intros H. apply comparison_of_best in H as (best & Hbest & Hname & Hunit & Htype).
  rewrite <- Hvalues in Hbest. destruct best as [[p x] u].
  apply comparable_values_origin in Hbest as (s & Hs & Hnorm).
  cbn [fst snd] in Hname, Hunit.
  split; [now apply Nat.ltb_lt|]. split; [reflexivity|]. split; [assumption|].
  split.
  - exists s. now rewrite Hname.
  - intros factors Hfactors. rewrite Hunit.
    exact (proj2 (@normalize_base_unit (VStr s) category factors x u Hfactors Hnorm)).
Qed.

Lemma annotation_from_contribution_memory :
  exists a,
    MatrixGenerator.annotation_of "memory" "memory - RAM"
      [ ("Laptop A", VStr "8GB"); ("Laptop B", VStr "12GB") ] = Some a
    /\ unit a = Some "GB".
Proof.
  destruct (MatrixGenerator.annotation_of "memory" "memory - RAM"
              [ ("Laptop A", VStr "8GB"); ("Laptop B", VStr "12GB") ])
    as [a|] eqn:E.
  - exists a. split; [reflexivity|].
    destruct (@annotation_from_contribution _ _ _ a E) as (_ & _ & _ & _ & H).
    exact (H _ eq_refl).
  - vm_compute in E. discriminate E.
Defined.

(* ================================================================== *)
(** ** Texts with and without a digit *)

(** A number is matched at the start of a text exactly when the text
    starts with a digit. *)
Lemma match_number_start (s : string) :
  match UnitConverter.match_number s with
  | Some _ => true
  | None => false
  end
  = match s with
    | String c _ => Str.is_digit c
    | EmptyString => false
    end.
Proof.
  destruct s as [|c r]; [reflexivity|].
  unfold UnitConverter.match_number. cbn [Str.span].
  destruct (Str.is_digit c); [|reflexivity].
  destruct (Str.span Str.is_digit r) as [whole rest].
  destruct rest as [|c' after]; [reflexivity|].
  destruct (Ascii.eqb c' "."%char) eqn:E.
  - apply Ascii.eqb_eq in E. subst c'.
    destruct (Str.span Str.is_digit after) as [frac rest'].
    now destruct frac.
  - destruct c' as [[] [] [] [] [] [] [] []]; try reflexivity.
    discriminate E.
Qed.

Lemma search_number_digit (s : string) :
  match UnitConverter.search_number s with
  | Some _ => true
  | None => false
  end = has_digit s.
Proof.
  unfold has_digit.
  induction s as [|c r IH]; [reflexivity|].
  cbn [UnitConverter.search_number list_ascii_of_string existsb].
  pose proof (match_number_start (String c r)) as H. cbv beta iota in H.
  destruct (UnitConverter.match_number (String c r)) as [[[whole frac] rest]|].
  - now rewrite <- H.
  - now rewrite <- H.
Qed.

Lemma search_value_unit_digit match_unit (s : string) :
  has_digit s = false ->
  UnitConverter.search_value_unit match_unit s = None.
Proof.
  unfold has_digit.
  induction s as [|c r IH]; [reflexivity|].
  cbn [UnitConverter.search_value_unit list_ascii_of_string existsb].
  intros H. apply orb_false_iff in H as [Hc Hr].
  pose proof (match_number_start (String c r)) as Hstart. cbv beta iota in Hstart.
  unfold UnitConverter.match_value_unit.
  destruct (UnitConverter.match_number (String c r)) as [[[whole frac] rest]|];
    [congruence | auto].
Qed.

(** X18: on ASCII text, where [\d] stands for the digits 0 to 9,
    [extract_value_and_unit] finds nothing in a text without a digit,
    whatever the category; for a category that has a conversion table it
    finds a number in every text that holds a digit, with a unit or, when
    the pattern of the category does not match, without. *)
Theorem extract_value_needs_digit (value_str category : string) :
  ascii_text value_str = true ->
  (has_digit value_str = false ->
   UnitConverter.extract_value_and_unit (VStr value_str) category = (None, None))
  /\ (Dict.mem category UnitConverter.conversion_factors = true ->
      has_digit value_str = true ->
      exists v u,
        UnitConverter.extract_value_and_unit (VStr value_str) category
        = (Some v, u)).
Proof.
  intros _.
  unfold UnitConverter.extract_value_and_unit, UnitConverter.value_unit_patterns.
  rewrite (dict_get_map
             (fun units : Dict.t Float.t =>
                UnitConverter.search_value_unit
                  (UnitConverter.match_unit_of (Dict.keys units)))).
  unfold Dict.mem.
  pose proof (search_number_digit value_str) as Hnumber.
  destruct (Dict.get category UnitConverter.conversion_factors) as [factors|];
    cbn [option_map]; split.
  - intros H. rewrite (search_value_unit_digit _ value_str H).
    rewrite H in Hnumber.
    now destruct (UnitConverter.search_number value_str).
  - intros _ H. rewrite H in Hnumber.
    destruct (UnitConverter.search_value_unit _ value_str) as [[v u]|]; [eauto|].
    destruct (UnitConverter.search_number value_str) as [v|]; [eauto | discriminate].
  - intros H. now rewrite (search_value_unit_digit _ value_str H).
  - discriminate.
Qed.

Lemma extract_value_needs_digit_samples :
  UnitConverter.extract_value_and_unit (VStr "unknown") "weight" = (None, None)
  /\ exists v u,
       UnitConverter.extract_value_and_unit (VStr "about 3") "weight" = (Some v, u).
Proof.
  split.
  - apply (proj1 (@extract_value_needs_digit "unknown" "weight" eq_refl)).
    reflexivity.
  - apply (proj2 (@extract_value_needs_digit "about 3" "weight" eq_refl));
      reflexivity.
Defined.
